(** * Role-based access control for homeroom and general teachers

    A shallow embedding of the two access-control classes of the repository,
    [RoleBasedAccessControl] (teacher-rbac-system.ts) and [RBACService]
    (src/services/RBACService.ts), of [TeacherService.checkPermission] and of
    the React context's [checkPermission], and of the services of the
    standalone script that call them ([TeacherService], [AuthService], the
    two decorators, [StudentService] and [GradeService]), followed by the
    properties of the authorization decision and of these services. *)

From stdpp Require Import base option strings list gmap.
From stdpp Require Import pretty.

Local Open Scope string_scope.

(** ** Runtime values

    TypeScript string enums are plain strings at run time, and [user.role] or
    a requested permission may hold any string a caller passes; the enum
    members are therefore string constants. *)

Module TeacherRole.
Definition HOMEROOM_TEACHER : string := "homeroom_teacher".
Definition GENERAL_TEACHER : string := "general_teacher".
Definition values : list string := [HOMEROOM_TEACHER; GENERAL_TEACHER].
End TeacherRole.

Module Permission.
Definition VIEW_STUDENTS : string := "view_students".
Definition MANAGE_STUDENTS : string := "manage_students".
Definition EDIT_STUDENT_INFO : string := "edit_student_info".
Definition VIEW_GRADES : string := "view_grades".
Definition MANAGE_GRADES : string := "manage_grades".
Definition EXPORT_GRADES : string := "export_grades".
Definition VIEW_ATTENDANCE : string := "view_attendance".
Definition MANAGE_ATTENDANCE : string := "manage_attendance".
Definition VIEW_PARENT_INFO : string := "view_parent_info".
Definition CONTACT_PARENTS : string := "contact_parents".
Definition MANAGE_CLASS : string := "manage_class".
Definition VIEW_CLASS_REPORTS : string := "view_class_reports".
Definition CONDUCT_COUNSELING : string := "conduct_counseling".
Definition VIEW_COUNSELING_RECORDS : string := "view_counseling_records".
Definition values : list string :=
  [VIEW_STUDENTS; MANAGE_STUDENTS; EDIT_STUDENT_INFO;
   VIEW_GRADES; MANAGE_GRADES; EXPORT_GRADES;
   VIEW_ATTENDANCE; MANAGE_ATTENDANCE;
   VIEW_PARENT_INFO; CONTACT_PARENTS;
   MANAGE_CLASS; VIEW_CLASS_REPORTS;
   CONDUCT_COUNSELING; VIEW_COUNSELING_RECORDS].
End Permission.

(** [interface User].  [profileImage] exists only in src/types/index.ts;
    [createdAt] is the epoch time of the [Date]. *)
Module User.
Record t : Type := mk {
  id : string;
  name : string;
  email : string;
  role : string;
  classId : option string;
  subjectIds : option (list string);
  profileImage : option string;
  createdAt : Z;
  isActive : bool
}.
End User.

(** The [resource?: any] argument, read through [resource?.classId],
    [resource?.subjectId] and [resource?.studentId] only.  [None] for the
    argument is an omitted (or null) resource; [None] for a field is a
    missing property.  A value without any of the three properties, such as
    the string the [RequirePermission] decorator passes on for
    [updateStudent], reads as [empty]. *)
Module Resource.
Record t : Type := mk {
  classId : option string;
  subjectId : option string;
  studentId : option string
}.
Definition empty : t := mk None None None.
End Resource.

(** [interface AuthorizationResult]. *)
Record AuthorizationResult : Type := mkResult {
  allowed : bool;
  reason : option string
}.

(** The messages of the denials, named after the kinds of the specification. *)
Module Reason.
Definition SubjectInactive : string := "비활성화된 사용자입니다.".
Definition PermissionNotGrantedToRole : string := "해당 역할에 권한이 없습니다.".
Definition NotOwnSubject : string := "담당 과목의 성적만 관리할 수 있습니다.".
Definition NotOwnStudent : string := "담당 학생만 상담할 수 있습니다.".
Definition NotOwnClass_view : string := "담당 반의 학생만 조회할 수 있습니다.".
Definition NotOwnClass_homeroom : string := "담임 반만 관리할 수 있습니다.".
Definition UserNotFound : string := "사용자를 찾을 수 없습니다.".
Definition LoginRequired : string := "로그인이 필요합니다.".
End Reason.

Definition allow : AuthorizationResult := mkResult true None.
Definition deny (why : string) : AuthorizationResult := mkResult false (Some why).

(** ** JavaScript operators used by the checks *)

(** Truthiness of an optional string: [undefined] and the empty string are
    falsy, every other string is truthy. *)
Definition truthy (v : option string) : bool :=
  match v with
  | Some s => negb (String.eqb s "")
  | None => false
  end.

(** [resource?.field]. *)
Definition opt_field (field : Resource.t → option string)
    (resource : option Resource.t) : option string :=
  match resource with
  | Some r => field r
  | None => None
  end.

(** [Array.prototype.includes] on an array of strings. *)
Definition includes (l : list string) (x : string) : bool :=
  bool_decide (x ∈ l).

(** [arr?.includes(x)] as a condition: [undefined] when the array is missing. *)
Definition opt_includes (l : option (list string)) (x : string) : bool :=
  match l with
  | Some l => includes l x
  | None => false
  end.

(** Reading [obj[key]] on an object literal.  A key that is not an own
    property is looked up on [Object.prototype], whose members are functions
    (and, for [__proto__], the prototype object itself): truthy values that
    are not arrays. *)
Definition Object_prototype_properties : list string :=
  ["constructor"; "hasOwnProperty"; "isPrototypeOf"; "propertyIsEnumerable";
   "toLocaleString"; "toString"; "valueOf"; "__proto__";
   "__defineGetter__"; "__defineSetter__";
   "__lookupGetter__"; "__lookupSetter__"].

Inductive property (A : Type) : Type :=
| Own (a : A)
| Inherited (key : string)
| Undefined.
Arguments Own {A} a.
Arguments Inherited {A} key.
Arguments Undefined {A}.

Definition get_property {A : Type} (obj : gmap string A) (key : string) : property A :=
  match obj !! key with
  | Some a => Own a
  | None =>
      if bool_decide (key ∈ Object_prototype_properties)
      then Inherited key else Undefined
  end.

(** ** Methods: state passing with exceptions

    A method runs on the object it is called on and either returns a value
    or throws, and leaves a (possibly updated) object behind. *)

Inductive exn : Type :=
| TypeError (what : string).

Inductive outcome (A : Type) : Type :=
| Returns (a : A)
| Throws (e : exn).
Arguments Returns {A} a.
Arguments Throws {A} e.

Definition M (S A : Type) : Type := S → outcome A * S.

#[global] Instance M_ret {S : Type} : MRet (M S) :=
  λ A a s, (Returns a, s).

#[global] Instance M_bind {S : Type} : MBind (M S) :=
  λ A B f m s,
    match m s with
    | (Returns a, s') => f a s'
    | (Throws e, s') => (Throws e, s')
    end.

Definition get {S : Type} : M S S := λ s, (Returns s, s).
Definition put {S : Type} (s : S) : M S unit := λ _, (Returns tt, s).
Definition throw {S A : Type} (e : exn) : M S A := λ s, (Throws e, s).

(** Running a method of a member object [inner] of [this]. *)
Definition on_member {S T A : Type} (proj : S → T) (upd : T → S → S)
    (m : M T A) : M S A :=
  λ s, let '(r, t') := m (proj s) in (r, upd t' s).

(** The value a call evaluates to, and the object it leaves. *)
Definition result {S A : Type} (m : M S A) (this : S) : outcome A := (m this).1.
Definition after {S A : Type} (m : M S A) (this : S) : S := (m this).2.

(** The [allowed] field of a returned decision. *)
Definition decision (o : outcome AuthorizationResult) : option bool :=
  match o with
  | Returns r => Some (allowed r)
  | Throws _ => None
  end.

(** [v && test(v)] as a condition, for an optional string [v]. *)
Definition and_then (v : option string) (test : string → bool) : bool :=
  match v with
  | Some s => negb (String.eqb s "") && test s
  | None => false
  end.

(** [Array.prototype.some] with a callback that is itself a method call:
    stops at the first element the callback accepts. *)
Fixpoint some {S A : Type} (callback : A → M S bool) (l : list A) : M S bool :=
  match l with
  | [] => mret false
  | x :: rest =>
      found ← callback x;
      if (found : bool) then mret true else some callback rest
  end.

(** ** The standalone script: [class RoleBasedAccessControl] *)

Module RoleBasedAccessControl.

Record t : Type := mk { rolePermissions : gmap string (list string) }.

Definition initializeRolePermissions : M t unit :=
  put (mk {[
    TeacherRole.HOMEROOM_TEACHER := [
      Permission.VIEW_STUDENTS;
      Permission.MANAGE_STUDENTS;
      Permission.EDIT_STUDENT_INFO;
      Permission.VIEW_GRADES;
      Permission.MANAGE_GRADES;
      Permission.EXPORT_GRADES;
      Permission.VIEW_ATTENDANCE;
      Permission.MANAGE_ATTENDANCE;
      Permission.VIEW_PARENT_INFO;
      Permission.CONTACT_PARENTS;
      Permission.MANAGE_CLASS;
      Permission.VIEW_CLASS_REPORTS;
      Permission.CONDUCT_COUNSELING;
      Permission.VIEW_COUNSELING_RECORDS
    ];
    TeacherRole.GENERAL_TEACHER := [
      Permission.VIEW_STUDENTS;
      Permission.VIEW_GRADES;
      Permission.MANAGE_GRADES;
      Permission.VIEW_ATTENDANCE;
      Permission.CONDUCT_COUNSELING
    ]
  ]}).

(** The constructor: the field is blank until [initializeRolePermissions]
    has run. *)
Definition new : t := after initializeRolePermissions (mk ∅).

(** [this.rolePermissions[role] || []]. *)
Definition getRolePermissions (role : string) : M t (property (list string)) :=
  this ← get;
  mret (match get_property (rolePermissions this) role with
        | Undefined => Own []
        | found => found
        end).

(** The bodies of the two private lookups: both are stubs. *)
Definition isTeachingStudent (teacher : User.t) (studentId : string) : bool := true.
Definition isTeachingClass (teacher : User.t) (classId : string) : bool := true.

Section methods.
(** The two private lookups as the methods below call them; the class
    binds them to [isTeachingStudent] and [isTeachingClass]. *)
Variables teachesStudent teachesClass : User.t → string → bool.

(** The [switch] of the general-teacher branch; [None] when no [case]
    matches and control leaves the [switch]. *)
Definition general_teacher_cases (user : User.t) (permission : string)
    (resource : option Resource.t) : option AuthorizationResult :=
  if String.eqb permission Permission.MANAGE_GRADES then
    if and_then (opt_field Resource.subjectId resource)
                (opt_includes (User.subjectIds user))
    then Some allow
    else Some (deny Reason.NotOwnSubject)
  else if String.eqb permission Permission.CONDUCT_COUNSELING then
    if and_then (opt_field Resource.studentId resource) (teachesStudent user)
    then Some allow
    else Some (deny Reason.NotOwnStudent)
  else if String.eqb permission Permission.VIEW_STUDENTS
          || String.eqb permission Permission.VIEW_GRADES
          || String.eqb permission Permission.VIEW_ATTENDANCE then
    if and_then (opt_field Resource.classId resource) (teachesClass user)
    then Some allow
    else Some (deny Reason.NotOwnClass_view)
  else None.

(** The [switch] of the homeroom-teacher branch. *)
Definition homeroom_teacher_cases (user : User.t) (permission : string)
    (resource : option Resource.t) : option AuthorizationResult :=
  if String.eqb permission Permission.MANAGE_CLASS
     || String.eqb permission Permission.MANAGE_STUDENTS
     || String.eqb permission Permission.EDIT_STUDENT_INFO then
    if and_then (opt_field Resource.classId resource)
                (λ c, bool_decide (User.classId user = Some c))
    then Some allow
    else Some (deny Reason.NotOwnClass_homeroom)
  else None.

Definition checkResourceAccess (user : User.t) (permission : string)
    (resource : option Resource.t) : AuthorizationResult :=
  match (if String.eqb (User.role user) TeacherRole.GENERAL_TEACHER
         then general_teacher_cases user permission resource else None) with
  | Some returned => returned
  | None =>
      match (if String.eqb (User.role user) TeacherRole.HOMEROOM_TEACHER
             then homeroom_teacher_cases user permission resource else None) with
      | Some returned => returned
      | None => allow
      end
  end.

Definition checkPermission (user : User.t) (permission : string)
    (resource : option Resource.t) : M t AuthorizationResult :=
  if negb (User.isActive user) then mret (deny Reason.SubjectInactive)
  else
    rolePermissions ← getRolePermissions (User.role user);
    match rolePermissions with
    | Own perms =>
        if negb (includes perms permission)
        then mret (deny Reason.PermissionNotGrantedToRole)
        else mret (checkResourceAccess user permission resource)
    | _ => throw (TypeError "rolePermissions.includes is not a function")
    end.

(** [checkPermission] on a subject that may be [null], as a caller outside
    the type checker can pass it: the first statement reads [user.isActive],
    which throws a TypeError on [null] (and on [undefined]). *)
Definition checkPermission_of (user : option User.t) (permission : string)
    (resource : option Resource.t) : M t AuthorizationResult :=
  match user with
  | None => throw (TypeError "Cannot read properties of null (reading 'isActive')")
  | Some user => checkPermission user permission resource
  end.
End methods.

End RoleBasedAccessControl.

(** ** The standalone script: [class TeacherService] *)

Module TeacherService.

Record t : Type := mk {
  users : gmap string User.t;
  rbac : RoleBasedAccessControl.t
}.

Definition sampleUsers (now : Z) : list User.t := [
  User.mk "teacher1" "김담임" "kim@school.edu" TeacherRole.HOMEROOM_TEACHER
          (Some "class-3-1") None None now true;
  User.mk "teacher2" "이일반" "lee@school.edu" TeacherRole.GENERAL_TEACHER
          None (Some ["math"; "science"]) None now true
].

(** [sampleUsers.forEach(user => this.users.set(user.id, user))]. *)
Definition initializeSampleData (now : Z) : M t unit :=
  this ← get;
  put (mk (foldl (λ m user, <[User.id user := user]> m) (users this) (sampleUsers now))
          (rbac this)).

(** The constructor, run at time [now]. *)
Definition new (now : Z) : t :=
  after (initializeSampleData now) (mk ∅ RoleBasedAccessControl.new).

(** [this.users.get(id) || null]. *)
Definition getUserById (id : string) : M t (option User.t) :=
  this ← get;
  mret (users this !! id).

Definition checkPermission (userId : string) (permission : string)
    (resource : option Resource.t) : M t AuthorizationResult :=
  user ← getUserById userId;
  match user with
  | None => mret (deny Reason.UserNotFound)
  | Some user =>
      on_member rbac (λ r this, mk (users this) r)
        (RoleBasedAccessControl.checkPermission
           RoleBasedAccessControl.isTeachingStudent
           RoleBasedAccessControl.isTeachingClass
           user permission resource)
  end.

End TeacherService.

(** ** The service module: [class RBACService] *)

Module RBACService.

Record t : Type := mk { rolePermissions : gmap string (list string) }.

(** The object as its field initializer leaves it. *)
Definition new : t :=
  mk {[
    TeacherRole.HOMEROOM_TEACHER := [
      Permission.VIEW_STUDENTS;
      Permission.MANAGE_STUDENTS;
      Permission.EDIT_STUDENT_INFO;
      Permission.VIEW_GRADES;
      Permission.MANAGE_GRADES;
      Permission.EXPORT_GRADES;
      Permission.VIEW_ATTENDANCE;
      Permission.MANAGE_ATTENDANCE;
      Permission.VIEW_PARENT_INFO;
      Permission.CONTACT_PARENTS;
      Permission.MANAGE_CLASS;
      Permission.VIEW_CLASS_REPORTS;
      Permission.CONDUCT_COUNSELING;
      Permission.VIEW_COUNSELING_RECORDS
    ];
    TeacherRole.GENERAL_TEACHER := [
      Permission.VIEW_STUDENTS;
      Permission.VIEW_GRADES;
      Permission.MANAGE_GRADES;
      Permission.VIEW_ATTENDANCE;
      Permission.CONDUCT_COUNSELING
    ]
  ]}.

(** [this.rolePermissions[role] || []]. *)
Definition getRolePermissions (role : string) : M t (property (list string)) :=
  this ← get;
  mret (match get_property (rolePermissions this) role with
        | Undefined => Own []
        | found => found
        end).

Definition isTeachingStudent (teacher : User.t) (studentId : string) : bool := true.
Definition isTeachingClass (teacher : User.t) (classId : string) : bool := true.

Section methods.
Variables teachesStudent teachesClass : User.t → string → bool.

Definition general_teacher_cases (user : User.t) (permission : string)
    (resource : option Resource.t) : option AuthorizationResult :=
  if String.eqb permission Permission.MANAGE_GRADES then
    if and_then (opt_field Resource.subjectId resource)
                (opt_includes (User.subjectIds user))
    then Some allow
    else Some (deny Reason.NotOwnSubject)
  else if String.eqb permission Permission.CONDUCT_COUNSELING then
    if and_then (opt_field Resource.studentId resource) (teachesStudent user)
    then Some allow
    else Some (deny Reason.NotOwnStudent)
  else if String.eqb permission Permission.VIEW_STUDENTS
          || String.eqb permission Permission.VIEW_GRADES
          || String.eqb permission Permission.VIEW_ATTENDANCE then
    if and_then (opt_field Resource.classId resource) (teachesClass user)
    then Some allow
    else Some allow
  else None.

Definition homeroom_teacher_cases (user : User.t) (permission : string)
    (resource : option Resource.t) : option AuthorizationResult :=
  if String.eqb permission Permission.MANAGE_CLASS
     || String.eqb permission Permission.MANAGE_STUDENTS
     || String.eqb permission Permission.EDIT_STUDENT_INFO then
    if and_then (opt_field Resource.classId resource)
                (λ c, bool_decide (User.classId user = Some c))
    then Some allow
    else if negb (truthy (opt_field Resource.classId resource))
    then Some allow
    else Some (deny Reason.NotOwnClass_homeroom)
  else None.

Definition checkResourceAccess (user : User.t) (permission : string)
    (resource : option Resource.t) : AuthorizationResult :=
  match (if String.eqb (User.role user) TeacherRole.GENERAL_TEACHER
         then general_teacher_cases user permission resource else None) with
  | Some returned => returned
  | None =>
      match (if String.eqb (User.role user) TeacherRole.HOMEROOM_TEACHER
             then homeroom_teacher_cases user permission resource else None) with
      | Some returned => returned
      | None => allow
      end
  end.

Definition checkPermission (user : User.t) (permission : string)
    (resource : option Resource.t) : M t AuthorizationResult :=
  if negb (User.isActive user) then mret (deny Reason.SubjectInactive)
  else
    rolePermissions ← getRolePermissions (User.role user);
    match rolePermissions with
    | Own perms =>
        if negb (includes perms permission)
        then mret (deny Reason.PermissionNotGrantedToRole)
        else mret (checkResourceAccess user permission resource)
    | _ => throw (TypeError "rolePermissions.includes is not a function")
    end.

(** [checkPermission] on a subject that may be [null], as a caller outside
    the type checker can pass it: the first statement reads [user.isActive],
    which throws a TypeError on [null] (and on [undefined]). *)
Definition checkPermission_of (user : option User.t) (permission : string)
    (resource : option Resource.t) : M t AuthorizationResult :=
  match user with
  | None => throw (TypeError "Cannot read properties of null (reading 'isActive')")
  | Some user => checkPermission user permission resource
  end.

Definition getUserPermissions (user : User.t) : M t (property (list string)) :=
  getRolePermissions (User.role user).

Definition screenPermissions : gmap string (list string) :=
  {[ "Students" := [Permission.VIEW_STUDENTS];
     "StudentDetail" := [Permission.VIEW_STUDENTS];
     "AddStudent" := [Permission.MANAGE_STUDENTS];
     "EditStudent" := [Permission.EDIT_STUDENT_INFO];
     "Grades" := [Permission.VIEW_GRADES];
     "AddGrade" := [Permission.MANAGE_GRADES];
     "EditGrade" := [Permission.MANAGE_GRADES];
     "Attendance" := [Permission.VIEW_ATTENDANCE];
     "TakeAttendance" := [Permission.MANAGE_ATTENDANCE] ]}.

Definition canAccessScreen (user : User.t) (screenName : string) : M t bool :=
  match get_property screenPermissions screenName with
  | Undefined => mret true
  | Own requiredPermissions =>
      some (λ permission,
              checked ← checkPermission user permission None;
              mret (allowed checked))
           requiredPermissions
  | Inherited _ => throw (TypeError "requiredPermissions.some is not a function")
  end.
End methods.

End RBACService.

(** ** The React context: [checkPermission] of [AuthProvider] *)

Module AuthContext.

Record t : Type := mk {
  user : option User.t;
  rbacService : RBACService.t
}.

Definition checkPermission (permission : string) (resource : option Resource.t)
    : M t AuthorizationResult :=
  this ← get;
  match user this with
  | None => mret (deny Reason.LoginRequired)
  | Some user =>
      on_member rbacService (λ r this, mk (AuthContext.user this) r)
        (RBACService.checkPermission
           RBACService.isTeachingStudent RBACService.isTeachingClass
           user permission resource)
  end.

End AuthContext.

(** ** The standalone script as one object graph

    [SchoolManagementSystem] builds one [TeacherService], one [AuthService]
    and the feature services, which all share them.  [User] objects are
    passed by reference: [AuthService.currentUser] is the very object held by
    [TeacherService.users], and [updateUserRole] writes into it.  The model
    therefore keeps the [User] objects in a store and lets the [Map] and
    [currentUser] hold addresses. *)

(** [Map] objects keyed by strings: entries in insertion order, one entry
    per key.  [set] on a key that is present replaces the value where the
    entry stands; on a new key it appends. *)
Module JsMap.
Definition t (A : Type) : Type := list (string * A).

Fixpoint get {A : Type} (key : string) (m : t A) : option A :=
  match m with
  | [] => None
  | (k, v) :: rest => if String.eqb k key then Some v else get key rest
  end.

Fixpoint set {A : Type} (key : string) (value : A) (m : t A) : t A :=
  match m with
  | [] => [(key, value)]
  | (k, v) :: rest =>
      if String.eqb k key then (k, value) :: rest else (k, v) :: set key value rest
  end.

Definition keys {A : Type} (m : t A) : list string := m.*1.
Definition values {A : Type} (m : t A) : list A := m.*2.
End JsMap.

(** [interface Student]; [grade] is a number that is only stored. *)
Module Student.
Record t : Type := mk {
  id : string;
  name : string;
  classId : string;
  grade : Z;
  parentContact : option string;
  createdAt : Z
}.
End Student.

(** [Omit<User, 'id' | 'createdAt'>], the argument of [createUser]. *)
Module UserData.
Record t : Type := mk {
  name : string;
  email : string;
  role : string;
  classId : option string;
  subjectIds : option (list string);
  isActive : bool
}.
End UserData.

(** [Partial<User>], the optional argument of [updateUserRole]: [None] is a
    property the object does not have.  The optional properties of [User]
    may also be present with the value [undefined]; a required property that
    is present holds a value of its type. *)
Module PartialUser.
Record t : Type := mk {
  id : option string;
  name : option string;
  email : option string;
  role : option string;
  classId : option (option string);
  subjectIds : option (option (list string));
  createdAt : option Z;
  isActive : option bool
}.
Definition empty : t := mk None None None None None None None None.

(** [Object.assign(user, additionalData)]. *)
Definition assign (user : User.t) (data : t) : User.t :=
  User.mk (default (User.id user) (id data))
          (default (User.name user) (name data))
          (default (User.email user) (email data))
          (default (User.role user) (role data))
          (default (User.classId user) (classId data))
          (default (User.subjectIds user) (subjectIds data))
          (User.profileImage user)
          (default (User.createdAt user) (createdAt data))
          (default (User.isActive user) (isActive data)).
End PartialUser.

(** [Omit<Student, 'id' | 'createdAt'>], the argument of [addStudent]. *)
Module StudentData.
Record t : Type := mk {
  name : string;
  classId : string;
  grade : Z;
  parentContact : option string
}.
End StudentData.

(** [Partial<Student>], the argument of [updateStudent]. *)
Module PartialStudent.
Record t : Type := mk {
  id : option string;
  name : option string;
  classId : option string;
  grade : option Z;
  parentContact : option (option string);
  createdAt : option Z
}.

Definition assign (student : Student.t) (data : t) : Student.t :=
  Student.mk (default (Student.id student) (id data))
             (default (Student.name student) (name data))
             (default (Student.classId student) (classId data))
             (default (Student.grade student) (grade data))
             (default (Student.parentContact student) (parentContact data))
             (default (Student.createdAt student) (createdAt data)).
End PartialStudent.

(** The argument of [updateGrade]. *)
Module GradeData.
Record t : Type := mk {
  studentId : string;
  subjectId : string;
  score : Z
}.
End GradeData.

(** The [filter] arguments of [getStudents] and [getGrades]. *)
Module Filter.
Record t : Type := mk {
  studentId : option string;
  subjectId : option string;
  classId : option string
}.
End Filter.

(** What a method of the script ends with when it does not return: an
    [Error] the script throws itself, or an error of the engine. *)
Inductive thrown : Type :=
| Error (message : string)
| Native (e : exn).

Inductive completion (A : Type) : Type :=
| Normal (a : A)
| Abrupt (e : thrown).
Arguments Normal {A} a.
Arguments Abrupt {A} e.

Definition Method (S A : Type) : Type := S → completion A * S.

#[global] Instance Method_ret {S : Type} : MRet (Method S) :=
  λ A a s, (Normal a, s).

#[global] Instance Method_bind {S : Type} : MBind (Method S) :=
  λ A B f m s,
    match m s with
    | (Normal a, s') => f a s'
    | (Abrupt e, s') => (Abrupt e, s')
    end.

Definition read {S : Type} : Method S S := λ s, (Normal s, s).
Definition write {S : Type} (s : S) : Method S unit := λ _, (Normal tt, s).
Definition raise {S A : Type} (e : thrown) : Method S A := λ s, (Abrupt e, s).

(** The value a method call completes with, and the state it leaves. *)
Definition completes {S A : Type} (m : Method S A) (s : S) : completion A := (m s).1.
Definition leaves {S A : Type} (m : Method S A) (s : S) : S := (m s).2.

Module SchoolManagementSystem.

Record t : Type := mk {
  objects : list User.t;
  users : JsMap.t nat;
  rbac : RoleBasedAccessControl.t;
  currentUser : option nat;
  students : JsMap.t Student.t;
  grades : JsMap.t GradeData.t
}.

(** The [TeacherService] of the graph as the by-value record of
    [TeacherService.t]: every key with the object it refers to. *)
Definition teacherService (this : t) : TeacherService.t :=
  TeacherService.mk
    (list_to_map (omap (λ entry, (λ user, (entry.1, user)) <$> objects this !! entry.2)
                       (users this)))
    (rbac this).

(** Reading through a reference.  Every reference the script holds points
    to an object; a dangling one reads like [null]. *)
Definition deref {A : Type} (reference : option nat) (k : User.t → Method t A)
    : Method t A :=
  this ← read;
  match reference ≫= (objects this !!.) with
  | Some user => k user
  | None => raise (Native (TypeError "Cannot read properties of null"))
  end.

(** Calling a method of [TeacherService.rbac]. *)
Definition on_rbac {A : Type} (m : M RoleBasedAccessControl.t A) : Method t A :=
  λ this,
    let '(r, rbac') := m (rbac this) in
    (match r with
     | Returns a => Normal a
     | Throws e => Abrupt (Native e)
     end,
     mk (objects this) (users this) rbac' (currentUser this)
        (students this) (grades this)).

(** *** [class TeacherService] *)
Module Teachers.

(** [this.users.get(id) || null]. *)
Definition getUserById (id : string) : Method t (option nat) :=
  this ← read;
  mret (JsMap.get id (users this)).

(** The first user, in the order of the [Map], with the given email. *)
Definition getUserByEmail (email : string) : Method t (option nat) :=
  this ← read;
  mret (List.find (λ a, match objects this !! a with
                        | Some user => String.eqb (User.email user) email
                        | None => false
                        end)
                  (JsMap.values (users this))).

(** [createUser]; [clock] is what [Date.now()] returns and [created] the
    time of the [new Date()] that follows. *)
Definition createUser (userData : UserData.t) (clock : N) (created : Z)
    : Method t nat :=
  this ← read;
  let user :=
    User.mk ("teacher_" ++ pretty clock)
            (UserData.name userData) (UserData.email userData)
            (UserData.role userData) (UserData.classId userData)
            (UserData.subjectIds userData) None created
            (UserData.isActive userData) in
  let reference := length (objects this) in
  _ ← write (mk (objects this ++ [user])
                (JsMap.set (User.id user) reference (users this))
                (rbac this) (currentUser this) (students this) (grades this));
  mret reference.

Definition checkPermission (userId : string) (permission : string)
    (resource : option Resource.t) : Method t AuthorizationResult :=
  user ← getUserById userId;
  match user with
  | None => mret (deny Reason.UserNotFound)
  | Some reference =>
      deref (Some reference) (λ user,
        on_rbac (RoleBasedAccessControl.checkPermission
                   RoleBasedAccessControl.isTeachingStudent
                   RoleBasedAccessControl.isTeachingClass
                   user permission resource))
  end.

Definition updateUserRole (userId : string) (newRole : string)
    (additionalData : option PartialUser.t) : Method t bool :=
  this ← read;
  match JsMap.get userId (users this) with
  | None => mret false
  | Some reference =>
      let update (user : User.t) : User.t :=
        let user :=
          User.mk (User.id user) (User.name user) (User.email user) newRole
                  (User.classId user) (User.subjectIds user)
                  (User.profileImage user) (User.createdAt user)
                  (User.isActive user) in
        match additionalData with
        | Some data => PartialUser.assign user data
        | None => user
        end in
      _ ← write (mk (alter update reference (objects this))
                    (JsMap.set userId reference (users this))
                    (rbac this) (currentUser this) (students this) (grades this));
      mret true
  end.

(** [Array.from(this.users.values())]. *)
Definition getAllUsers : Method t (list nat) :=
  this ← read;
  mret (JsMap.values (users this)).

Definition has_role (this : t) (role : string) (reference : nat) : bool :=
  match objects this !! reference with
  | Some user => String.eqb (User.role user) role
  | None => false
  end.

Definition getHomeroomTeachers : Method t (list nat) :=
  all ← getAllUsers;
  this ← read;
  mret (List.filter (has_role this TeacherRole.HOMEROOM_TEACHER) all).

Definition getGeneralTeachers : Method t (list nat) :=
  all ← getAllUsers;
  this ← read;
  mret (List.filter (has_role this TeacherRole.GENERAL_TEACHER) all).

End Teachers.

(** *** [class AuthService] *)
Module Auth.

(** [login]: the promise it returns is resolved when the call returns. *)
Definition login (email : string) (password : string) : Method t (option nat) :=
  user ← Teachers.getUserByEmail email;
  this ← read;
  match user ≫= (objects this !!.) with
  | Some found =>
      if User.isActive found
      then
        _ ← write (mk (objects this) (users this) (rbac this) user
                      (students this) (grades this));
        mret user
      else mret None
  | None => mret None
  end.

Definition logout : Method t unit :=
  this ← read;
  write (mk (objects this) (users this) (rbac this) None
            (students this) (grades this)).

Definition getCurrentUser : Method t (option nat) :=
  this ← read;
  mret (currentUser this).

(** [this.currentUser !== null && this.currentUser.isActive]. *)
Definition isAuthenticated : Method t bool :=
  this ← read;
  match currentUser this with
  | None => mret false
  | Some reference => deref (Some reference) (λ user, mret (User.isActive user))
  end.

End Auth.

(** *** The decorators

    A decorated method is the wrapper applied to the original method;
    [resource] is what [args[0]] reads as. *)
Definition RequirePermission {A : Type} (permission : string)
    (resource : option Resource.t) (originalMethod : Method t A) : Method t A :=
  authenticated ← Auth.isAuthenticated;
  if negb authenticated then raise (Error "인증이 필요합니다.")
  else
    currentUser ← Auth.getCurrentUser;
    deref currentUser (λ user,
      authResult ← Teachers.checkPermission (User.id user) permission resource;
      if negb (allowed authResult)
      then raise (Error ("접근 거부: " ++ default "undefined" (reason authResult)))
      else originalMethod).

Definition RequireRole {A : Type} (role : string) (originalMethod : Method t A)
    : Method t A :=
  authenticated ← Auth.isAuthenticated;
  if negb authenticated then raise (Error "인증이 필요합니다.")
  else
    currentUser ← Auth.getCurrentUser;
    deref currentUser (λ user,
      if negb (String.eqb (User.role user) role)
      then raise (Error ("접근 거부: " ++ role ++ " 권한이 필요합니다."))
      else originalMethod).

(** *** [class StudentService] *)
Module Students.

Definition sampleStudents (now : Z) : list Student.t := [
  Student.mk "student1" "홍길동" "class-3-1" 3 (Some "010-1234-5678") now;
  Student.mk "student2" "김영희" "class-3-1" 3 (Some "010-2345-6789") now
].

(** The undecorated body of [getStudents]. *)
Definition getStudents_original (filter : option Filter.t)
    : Method t (list Student.t) :=
  currentUser ← Auth.getCurrentUser;
  deref currentUser (λ currentUser,
    this ← read;
    let students := JsMap.values (students this) in
    let students :=
      if String.eqb (User.role currentUser) TeacherRole.GENERAL_TEACHER
      then List.filter (λ student, true) students else students in
    let students :=
      if String.eqb (User.role currentUser) TeacherRole.HOMEROOM_TEACHER
         && truthy (User.classId currentUser)
      then List.filter (λ student,
             bool_decide (Some (Student.classId student) = User.classId currentUser))
             students
      else students in
    let students :=
      match filter ≫= Filter.classId with
      | Some c =>
          if negb (String.eqb c "")
          then List.filter (λ student, String.eqb (Student.classId student) c) students
          else students
      | None => students
      end in
    mret students).

Definition getStudents (filter : option Filter.t) : Method t (list Student.t) :=
  RequirePermission Permission.VIEW_STUDENTS
    ((λ f, Resource.mk (Filter.classId f) (Filter.subjectId f) (Filter.studentId f))
       <$> filter)
    (getStudents_original filter).

Definition updateStudent_original (studentId : string) (updateData : PartialStudent.t)
    : Method t bool :=
  this ← read;
  match JsMap.get studentId (students this) with
  | None => mret false
  | Some student =>
      _ ← write (mk (objects this) (users this) (rbac this) (currentUser this)
                    (JsMap.set studentId (PartialStudent.assign student updateData)
                               (students this))
                    (grades this));
      mret true
  end.

(** [args[0]] is the student id, a string: it has none of the properties
    the resource check reads. *)
Definition updateStudent (studentId : string) (updateData : PartialStudent.t)
    : Method t bool :=
  RequirePermission Permission.EDIT_STUDENT_INFO (Some Resource.empty)
    (updateStudent_original studentId updateData).

Definition addStudent_original (studentData : StudentData.t) (clock : N) (created : Z)
    : Method t Student.t :=
  this ← read;
  let student :=
    Student.mk ("student_" ++ pretty clock)
               (StudentData.name studentData) (StudentData.classId studentData)
               (StudentData.grade studentData) (StudentData.parentContact studentData)
               created in
  _ ← write (mk (objects this) (users this) (rbac this) (currentUser this)
                (JsMap.set (Student.id student) student (students this))
                (grades this));
  mret student.

Definition addStudent (studentData : StudentData.t) (clock : N) (created : Z)
    : Method t Student.t :=
  RequirePermission Permission.MANAGE_STUDENTS
    (Some (Resource.mk (Some (StudentData.classId studentData)) None None))
    (addStudent_original studentData clock created).

End Students.

(** *** [class GradeService] *)
Module Grades.

Definition getGrades (filter : Filter.t) : Method t (list GradeData.t) :=
  RequirePermission Permission.VIEW_GRADES
    (Some (Resource.mk (Filter.classId filter) (Filter.subjectId filter)
                       (Filter.studentId filter)))
    (mret []).

Definition updateGrade_original (gradeData : GradeData.t) : Method t bool :=
  currentUser ← Auth.getCurrentUser;
  deref currentUser (λ currentUser,
    if String.eqb (User.role currentUser) TeacherRole.GENERAL_TEACHER
       && negb (opt_includes (User.subjectIds currentUser) (GradeData.subjectId gradeData))
    then raise (Error "담당 과목의 성적만 관리할 수 있습니다.")
    else
      this ← read;
      let gradeId :=
        GradeData.studentId gradeData ++ "_" ++ GradeData.subjectId gradeData in
      _ ← write (mk (objects this) (users this) (rbac this)
                    (SchoolManagementSystem.currentUser this) (students this)
                    (JsMap.set gradeId gradeData (grades this)));
      mret true).

Definition updateGrade (gradeData : GradeData.t) : Method t bool :=
  RequirePermission Permission.MANAGE_GRADES
    (Some (Resource.mk None (Some (GradeData.subjectId gradeData))
                       (Some (GradeData.studentId gradeData))))
    (updateGrade_original gradeData).

Definition exportGrades (classId : string) : Method t string :=
  RequireRole TeacherRole.HOMEROOM_TEACHER (mret "성적표 데이터").

End Grades.

(** The constructors, all run at time [now]: the sample users and the
    sample students are stored in the order of their arrays. *)
Definition new (now : Z) : t :=
  mk (TeacherService.sampleUsers now)
     (foldl (λ m entry, JsMap.set (User.id entry.2) entry.1 m) []
            (imap (λ i user, (i, user)) (TeacherService.sampleUsers now)))
     RoleBasedAccessControl.new
     None
     (foldl (λ m student, JsMap.set (Student.id student) student m) []
            (Students.sampleStudents now))
     [].

(** Every reference of the graph points to an object. *)
Definition references_valid (this : t) : Prop :=
  Forall (λ a, a < length (objects this)) (JsMap.values (users this))
  ∧ (∀ a, currentUser this = Some a → a < length (objects this)).

End SchoolManagementSystem.

(** ** Sample subjects and resources *)

(** The two users of [TeacherService.initializeSampleData]. *)
Definition teacher1 : User.t :=
  User.mk "teacher1" "김담임" "kim@school.edu" TeacherRole.HOMEROOM_TEACHER
          (Some "class-3-1") None None 0 true.
Definition teacher2 : User.t :=
  User.mk "teacher2" "이일반" "lee@school.edu" TeacherRole.GENERAL_TEACHER
          None (Some ["math"; "science"]) None 0 true.

(** The third sample user of the service module's [AuthService], created
    at [new Date('2023-01-01')]. *)
Definition teacher3 : User.t :=
  User.mk "teacher3" "박수학" "math@school.edu" TeacherRole.GENERAL_TEACHER
          None (Some ["math"]) (Some "https://via.placeholder.com/150")
          1672531200000 true.

(** [teacher1] after deactivation. *)
Definition inactive_teacher1 : User.t :=
  User.mk "teacher1" "김담임" "kim@school.edu" TeacherRole.HOMEROOM_TEACHER
          (Some "class-3-1") None None 0 false.

(** Two records whose [role] is outside the enumeration: an unknown role,
    and one that is the name of a member of [Object.prototype]. *)
Definition substitute_teacher : User.t :=
  User.mk "teacher7" "최대체" "choi@school.edu" "substitute_teacher"
          None None None 0 true.
Definition constructor_teacher : User.t :=
  User.mk "teacher8" "정생성" "jung@school.edu" "constructor"
          None None None 0 true.

Definition of_class (c : string) : option Resource.t :=
  Some (Resource.mk (Some c) None None).
Definition of_subject (s : string) : option Resource.t :=
  Some (Resource.mk None (Some s) None).
Definition of_student (s : string) : option Resource.t :=
  Some (Resource.mk None None (Some s)).

(** ** Vocabulary of the statements *)

(** An optional field carries the identifier [s]: the property is there and
    holds a non-empty string.  This is what the source's test
    [resource?.field && ...] takes for a present field. *)
Definition carries (v : option string) (s : string) : Prop :=
  v = Some s ∧ s ≠ "".

(** A request names the class [c]: there is a resource object and its
    [classId] carries [c]. *)
Definition names_class (resource : option Resource.t) (c : string) : Prop :=
  ∃ r : Resource.t, resource = Some r ∧ carries (Resource.classId r) c.

(** The subjects a user teaches; none when [subjectIds] is missing. *)
Definition taught (user : User.t) : list string :=
  default [] (User.subjectIds user).

Definition view_permissions : list string :=
  [Permission.VIEW_STUDENTS; Permission.VIEW_GRADES; Permission.VIEW_ATTENDANCE].

Definition class_management_permissions : list string :=
  [Permission.MANAGE_CLASS; Permission.MANAGE_STUDENTS; Permission.EDIT_STUDENT_INFO].

(** Nine permissions that the table withholds from general teachers. *)
Definition withheld_from_general_teacher : list string :=
  [Permission.MANAGE_CLASS; Permission.MANAGE_STUDENTS; Permission.EDIT_STUDENT_INFO;
   Permission.EXPORT_GRADES; Permission.MANAGE_ATTENDANCE;
   Permission.VIEW_PARENT_INFO; Permission.CONTACT_PARENTS;
   Permission.VIEW_CLASS_REPORTS; Permission.VIEW_COUNSELING_RECORDS].

(** The entries both tables hold for the two roles. *)
Definition homeroom_teacher_permissions : list string := Permission.values.
Definition general_teacher_permissions : list string :=
  [Permission.VIEW_STUDENTS; Permission.VIEW_GRADES; Permission.MANAGE_GRADES;
   Permission.VIEW_ATTENDANCE; Permission.CONDUCT_COUNSELING].

(** The nine screens [canAccessScreen] maps to permissions. *)
Definition mapped_screens : list string :=
  ["Students"; "StudentDetail"; "AddStudent"; "EditStudent"; "Grades";
   "AddGrade"; "EditGrade"; "Attendance"; "TakeAttendance"].

(** A resource as the checks see it: a property that holds the empty string
    reads like a missing one, and a resource without any identifier like an
    omitted resource. *)
Definition normalize_field (v : option string) : option string :=
  match v with
  | Some s => if String.eqb s "" then None else Some s
  | None => None
  end.

Definition normalize (resource : option Resource.t) : option Resource.t :=
  match resource with
  | Some r =>
      match normalize_field (Resource.classId r),
            normalize_field (Resource.subjectId r),
            normalize_field (Resource.studentId r) with
      | None, None, None => None
      | c, s, t => Some (Resource.mk c s t)
      end
  | None => None
  end.

(** The mapped screens whose permission is a viewing permission. *)
Definition viewing_screens : list string :=
  ["Students"; "StudentDetail"; "Grades"; "Attendance"].

(** The outcome of a call into the access-control object, seen from a method
    of the script. *)
Definition of_outcome {A : Type} (o : outcome A) : completion A :=
  match o with
  | Returns a => Normal a
  | Throws e => Abrupt (Native e)
  end.

(** The [User] record [updateUserRole] leaves behind. *)
Definition with_role (newRole : string) (additionalData : option PartialUser.t)
    (user : User.t) : User.t :=
  let user :=
    User.mk (User.id user) (User.name user) (User.email user) newRole
            (User.classId user) (User.subjectIds user)
            (User.profileImage user) (User.createdAt user) (User.isActive user) in
  match additionalData with
  | Some data => PartialUser.assign user data
  | None => user
  end.

(** A data object that deactivates the user and changes nothing else. *)
Definition deactivation : PartialUser.t :=
  PartialUser.mk None None None None None None None (Some false).

(** The email of the object behind a reference. *)
Definition email_is (this : SchoolManagementSystem.t) (email : string)
    (reference : nat) : Prop :=
  ∃ user, SchoolManagementSystem.objects this !! reference = Some user
          ∧ User.email user = email.

(** The graph after the demonstration's two logins. *)
Definition as_teacher1 : SchoolManagementSystem.t :=
  leaves (SchoolManagementSystem.Auth.login "kim@school.edu" "password")
         (SchoolManagementSystem.new 0).
Definition as_teacher2 : SchoolManagementSystem.t :=
  leaves (SchoolManagementSystem.Auth.login "lee@school.edu" "password")
         (SchoolManagementSystem.new 0).

(** A session as the script sets it up: the current user is an active user
    that is stored under its own id, and the access-control object is the
    one the constructor built. *)
Definition logged_in (this : SchoolManagementSystem.t) (reference : nat)
    (user : User.t) : Prop :=
  SchoolManagementSystem.currentUser this = Some reference
  ∧ SchoolManagementSystem.objects this !! reference = Some user
  ∧ User.isActive user = true
  ∧ JsMap.get (User.id user) (SchoolManagementSystem.users this) = Some reference
  ∧ SchoolManagementSystem.rbac this = RoleBasedAccessControl.new.

(** The role of the object behind a reference. *)
Definition role_is (this : SchoolManagementSystem.t) (role : string)
    (reference : nat) : Prop :=
  ∃ user, SchoolManagementSystem.objects this !! reference = Some user
          ∧ User.role user = role.

(** Every stored user is stored under its own id. *)
Definition keyed_by_id (this : SchoolManagementSystem.t) : Prop :=
  ∀ key reference user,
    JsMap.get key (SchoolManagementSystem.users this) = Some reference →
    SchoolManagementSystem.objects this !! reference = Some user →
    User.id user = key.

(** Every key of the [Map] leads to an object. *)
Definition keys_lead_to_objects (this : SchoolManagementSystem.t) : Prop :=
  ∀ key reference,
    JsMap.get key (SchoolManagementSystem.users this) = Some reference →
    reference < length (SchoolManagementSystem.objects this).

(** ** Proof steps

    Closed decidable statements are settled by evaluation; a method call is
    unfolded down to the state-passing function it denotes. *)
Ltac decide_closed := apply (bool_decide_unpack _); vm_compute; exact I.

Ltac run_method :=
  unfold result, after, on_member, mbind, mret, M_bind, M_ret, get, put, throw;
  cbn beta iota delta [fst snd negb].

Ltac run_script :=
  unfold completes, leaves, SchoolManagementSystem.deref,
    SchoolManagementSystem.on_rbac, mbind, mret, Method_bind, Method_ret,
    read, write, raise;
  cbn beta iota delta [fst snd negb].

(** * Properties *)

(** ** The JavaScript operators *)

Lemma truthy_carries (v : option string) :
  truthy v = true ↔ ∃ s, carries v s.
Proof.
  unfold truthy, carries. destruct v as [s|].
  - rewrite negb_true_iff, String.eqb_neq. split.
    + intros Hs. exists s. split; [reflexivity | exact Hs].
    + intros (s' & Heq & Hs'). congruence.
  - split; [discriminate |]. intros (s & Heq & _). discriminate.
Qed.

Lemma and_then_carries (v : option string) (test : string → bool) :
  and_then v test = true ↔ ∃ s, carries v s ∧ test s = true.
Proof.
  unfold and_then, carries. destruct v as [s|].
  - rewrite andb_true_iff, negb_true_iff, String.eqb_neq. split.
    + intros [Hs Ht]. exists s. repeat split; assumption.
    + intros (s' & (Heq & Hs') & Ht). injection Heq as ->. split; assumption.
  - split; [discriminate |]. intros (s & (Heq & _) & _). discriminate.
Qed.

Lemma and_then_of_carries (v : option string) (test : string → bool) (s : string) :
  carries v s → and_then v test = test s.
Proof.
  intros [-> Hs]. unfold and_then.
  apply String.eqb_neq in Hs. rewrite Hs. reflexivity.
Qed.

Lemma and_then_not_truthy (v : option string) (test : string → bool) :
  truthy v = false → and_then v test = false.
Proof.
  unfold truthy, and_then. destruct v as [s|]; [| reflexivity].
  intros ->. reflexivity.
Qed.

Lemma includes_elem_of (l : list string) (x : string) :
  includes l x = true ↔ x ∈ l.
Proof. unfold includes. apply bool_decide_eq_true. Qed.

Lemma includes_not_elem_of (l : list string) (x : string) :
  includes l x = false ↔ x ∉ l.
Proof. unfold includes. apply bool_decide_eq_false. Qed.

Lemma opt_includes_taught (user : User.t) (x : string) :
  opt_includes (User.subjectIds user) x = true ↔ x ∈ taught user.
Proof.
  unfold opt_includes, taught. destruct (User.subjectIds user) as [l|]; cbn.
  - apply includes_elem_of.
  - split; [discriminate |]. intros H. inversion H.
Qed.

Lemma get_property_own {A : Type} (obj : gmap string A) (key : string) (a : A) :
  obj !! key = Some a → get_property obj key = Own a.
Proof. unfold get_property. intros ->. reflexivity. Qed.

(** ** How a call of [checkPermission] unfolds *)

Lemma standalone_inactive ts tc user permission resource this :
  User.isActive user = false →
  RoleBasedAccessControl.checkPermission ts tc user permission resource this
  = (Returns (deny Reason.SubjectInactive), this).
Proof.
  intros Hoff. unfold RoleBasedAccessControl.checkPermission.
  rewrite Hoff. reflexivity.
Qed.

Lemma service_inactive ts tc user permission resource this :
  User.isActive user = false →
  RBACService.checkPermission ts tc user permission resource this
  = (Returns (deny Reason.SubjectInactive), this).
Proof.
  intros Hoff. unfold RBACService.checkPermission.
  rewrite Hoff. reflexivity.
Qed.

(** An active user whose role has a table entry: the entry decides between
    the role-level denial and the resource check. *)
Lemma standalone_active ts tc user permission resource this perms :
  User.isActive user = true →
  RoleBasedAccessControl.rolePermissions this !! User.role user = Some perms →
  RoleBasedAccessControl.checkPermission ts tc user permission resource this
  = (Returns (if includes perms permission
              then RoleBasedAccessControl.checkResourceAccess ts tc user permission resource
              else deny Reason.PermissionNotGrantedToRole), this).
Proof.
  intros Hon Hentry.
  unfold RoleBasedAccessControl.checkPermission,
    RoleBasedAccessControl.getRolePermissions.
  rewrite Hon. run_method.
  rewrite (get_property_own _ _ _ Hentry).
  destruct (includes perms permission); reflexivity.
Qed.

Lemma service_active ts tc user permission resource this perms :
  User.isActive user = true →
  RBACService.rolePermissions this !! User.role user = Some perms →
  RBACService.checkPermission ts tc user permission resource this
  = (Returns (if includes perms permission
              then RBACService.checkResourceAccess ts tc user permission resource
              else deny Reason.PermissionNotGrantedToRole), this).
Proof.
  intros Hon Hentry.
  unfold RBACService.checkPermission, RBACService.getRolePermissions.
  rewrite Hon. run_method.
  rewrite (get_property_own _ _ _ Hentry).
  destruct (includes perms permission); reflexivity.
Qed.

(** The table each class is built with. *)
Lemma standalone_table :
  RoleBasedAccessControl.rolePermissions RoleBasedAccessControl.new
  = {[ TeacherRole.HOMEROOM_TEACHER := homeroom_teacher_permissions;
       TeacherRole.GENERAL_TEACHER := general_teacher_permissions ]}.
Proof. reflexivity. Qed.

Lemma service_table :
  RBACService.rolePermissions RBACService.new
  = {[ TeacherRole.HOMEROOM_TEACHER := homeroom_teacher_permissions;
       TeacherRole.GENERAL_TEACHER := general_teacher_permissions ]}.
Proof. reflexivity. Qed.

Lemma table_homeroom :
  ({[ TeacherRole.HOMEROOM_TEACHER := homeroom_teacher_permissions;
      TeacherRole.GENERAL_TEACHER := general_teacher_permissions ]}
     : gmap string (list string)) !! TeacherRole.HOMEROOM_TEACHER
  = Some homeroom_teacher_permissions.
Proof. apply lookup_insert_eq. Qed.

Lemma table_general :
  ({[ TeacherRole.HOMEROOM_TEACHER := homeroom_teacher_permissions;
      TeacherRole.GENERAL_TEACHER := general_teacher_permissions ]}
     : gmap string (list string)) !! TeacherRole.GENERAL_TEACHER
  = Some general_teacher_permissions.
Proof.
  rewrite lookup_insert_ne by discriminate. apply lookup_singleton_eq.
Qed.

Lemma table_other (role : string) :
  role ∉ TeacherRole.values →
  ({[ TeacherRole.HOMEROOM_TEACHER := homeroom_teacher_permissions;
      TeacherRole.GENERAL_TEACHER := general_teacher_permissions ]}
     : gmap string (list string)) !! role = None.
Proof.
  intros Hrole. unfold TeacherRole.values in Hrole.
  rewrite lookup_insert_ne by (intros <-; apply Hrole; set_solver).
  apply lookup_singleton_ne. intros <-. apply Hrole. set_solver.
Qed.

Lemma standalone_new ts tc user permission resource perms :
  User.isActive user = true →
  ({[ TeacherRole.HOMEROOM_TEACHER := homeroom_teacher_permissions;
      TeacherRole.GENERAL_TEACHER := general_teacher_permissions ]}
     : gmap string (list string)) !! User.role user = Some perms →
  result (RoleBasedAccessControl.checkPermission ts tc user permission resource)
         RoleBasedAccessControl.new
  = Returns (if includes perms permission
             then RoleBasedAccessControl.checkResourceAccess ts tc user permission resource
             else deny Reason.PermissionNotGrantedToRole).
Proof.
  intros Hon Hentry. unfold result.
  rewrite (standalone_active ts tc user permission resource _ perms Hon);
    [reflexivity | rewrite standalone_table; exact Hentry].
Qed.

Lemma service_new ts tc user permission resource perms :
  User.isActive user = true →
  ({[ TeacherRole.HOMEROOM_TEACHER := homeroom_teacher_permissions;
      TeacherRole.GENERAL_TEACHER := general_teacher_permissions ]}
     : gmap string (list string)) !! User.role user = Some perms →
  result (RBACService.checkPermission ts tc user permission resource)
         RBACService.new
  = Returns (if includes perms permission
             then RBACService.checkResourceAccess ts tc user permission resource
             else deny Reason.PermissionNotGrantedToRole).
Proof.
  intros Hon Hentry. unfold result.
  rewrite (service_active ts tc user permission resource _ perms Hon);
    [reflexivity | rewrite service_table; exact Hentry].
Qed.

(** ** The decisions on the sample users *)

Example teacher3_manages_math_grades :
  result (RBACService.checkPermission
            RBACService.isTeachingStudent RBACService.isTeachingClass
            teacher3 Permission.MANAGE_GRADES (of_subject "math"))
         RBACService.new
  = Returns allow.
Proof. reflexivity. Qed.

Example teacher3_does_not_manage_science_grades :
  result (RBACService.checkPermission
            RBACService.isTeachingStudent RBACService.isTeachingClass
            teacher3 Permission.MANAGE_GRADES (of_subject "science"))
         RBACService.new
  = Returns (deny Reason.NotOwnSubject).
Proof. reflexivity. Qed.

Example teacher3_manages_no_grades_without_resource :
  result (RoleBasedAccessControl.checkPermission
            RoleBasedAccessControl.isTeachingStudent
            RoleBasedAccessControl.isTeachingClass
            teacher3 Permission.MANAGE_GRADES None)
         RoleBasedAccessControl.new
  = Returns (deny Reason.NotOwnSubject).
Proof. reflexivity. Qed.

Example teacher1_manages_students_of_own_class :
  result (RBACService.checkPermission
            RBACService.isTeachingStudent RBACService.isTeachingClass
            teacher1 Permission.MANAGE_STUDENTS (of_class "class-3-1"))
         RBACService.new
  = Returns allow
  ∧ result (RBACService.checkPermission
              RBACService.isTeachingStudent RBACService.isTeachingClass
              teacher1 Permission.MANAGE_STUDENTS (of_class "class-9-9"))
           RBACService.new
    = Returns (deny Reason.NotOwnClass_homeroom)
  ∧ result (RBACService.checkPermission
              RBACService.isTeachingStudent RBACService.isTeachingClass
              teacher1 Permission.MANAGE_STUDENTS None)
           RBACService.new
    = Returns allow.
Proof. repeat split; reflexivity. Qed.

Example teacher1_exports_grades (now : Z) :
  result (TeacherService.checkPermission "teacher1" Permission.EXPORT_GRADES None)
         (TeacherService.new now)
  = Returns allow.
Proof. reflexivity. Qed.

Example add_student_screen :
  result (RBACService.canAccessScreen
            RBACService.isTeachingStudent RBACService.isTeachingClass
            teacher1 "AddStudent") RBACService.new = Returns true
  ∧ result (RBACService.canAccessScreen
              RBACService.isTeachingStudent RBACService.isTeachingClass
              teacher2 "AddStudent") RBACService.new = Returns false.
Proof. split; reflexivity. Qed.

(** ** The activation gate *)

(** C1: a subject whose [isActive] flag is false is denied with the
    inactive-subject reason by both [checkPermission] methods, for every
    permission, every resource (also none) and every role.  The answer is
    the same on every object and with every teaching lookup: neither the
    role table nor a lookup is consulted before the gate.  The object is
    left as it was. *)
Theorem inactive_subject_always_denied
    (ts tc : User.t → string → bool) (user : User.t) (permission : string)
    (resource : option Resource.t)
    (standalone : RoleBasedAccessControl.t) (service : RBACService.t) :
  User.isActive user = false →
  RoleBasedAccessControl.checkPermission ts tc user permission resource standalone
  = (Returns (deny Reason.SubjectInactive), standalone)
  ∧ RBACService.checkPermission ts tc user permission resource service
    = (Returns (deny Reason.SubjectInactive), service).
Proof.
  intros Hoff. split.
  - apply standalone_inactive, Hoff.
  - apply service_inactive, Hoff.
Qed.

Lemma inactive_subject_always_denied_witness :
  RoleBasedAccessControl.checkPermission
    RoleBasedAccessControl.isTeachingStudent RoleBasedAccessControl.isTeachingClass
    inactive_teacher1 Permission.VIEW_STUDENTS (of_class "class-3-1")
    RoleBasedAccessControl.new
  = (Returns (deny Reason.SubjectInactive), RoleBasedAccessControl.new)
  ∧ RBACService.checkPermission
      RoleBasedAccessControl.isTeachingStudent RoleBasedAccessControl.isTeachingClass
      inactive_teacher1 Permission.VIEW_STUDENTS (of_class "class-3-1")
      RBACService.new
    = (Returns (deny Reason.SubjectInactive), RBACService.new).
Proof.
  apply (inactive_subject_always_denied
           RoleBasedAccessControl.isTeachingStudent
           RoleBasedAccessControl.isTeachingClass
           inactive_teacher1 Permission.VIEW_STUDENTS (of_class "class-3-1")).
  reflexivity.
Defined.

(** ** The baseline role check *)

(** C2: for an active subject and a permission that is not in the table
    entry of the subject's role, both [checkPermission] methods return the
    denial with the not-granted-to-role reason, whatever the resource and
    the teaching lookups; and with the tables the two classes are built
    with, an active general teacher is denied each of ManageClass,
    ManageStudents, EditStudentInfo, ExportGrades, ManageAttendance,
    ViewParentInfo, ContactParents, ViewClassReports and
    ViewCounselingRecords in this way. *)
Theorem permission_outside_role_entry_denied
    (ts tc : User.t → string → bool) (user : User.t) (permission : string)
    (resource : option Resource.t) :
  User.isActive user = true →
  (∀ (standalone : RoleBasedAccessControl.t) (perms : list string),
      RoleBasedAccessControl.rolePermissions standalone !! User.role user = Some perms →
      permission ∉ perms →
      result (RoleBasedAccessControl.checkPermission ts tc user permission resource)
             standalone
      = Returns (deny Reason.PermissionNotGrantedToRole))
  ∧ (∀ (service : RBACService.t) (perms : list string),
      RBACService.rolePermissions service !! User.role user = Some perms →
      permission ∉ perms →
      result (RBACService.checkPermission ts tc user permission resource) service
      = Returns (deny Reason.PermissionNotGrantedToRole))
  ∧ (User.role user = TeacherRole.GENERAL_TEACHER →
     permission ∈ withheld_from_general_teacher →
     result (RoleBasedAccessControl.checkPermission ts tc user permission resource)
            RoleBasedAccessControl.new
     = Returns (deny Reason.PermissionNotGrantedToRole)
     ∧ result (RBACService.checkPermission ts tc user permission resource)
              RBACService.new
       = Returns (deny Reason.PermissionNotGrantedToRole)).
Proof.
  intros Hon.
  assert (Hstandalone : ∀ standalone perms,
    RoleBasedAccessControl.rolePermissions standalone !! User.role user = Some perms →
    permission ∉ perms →
    result (RoleBasedAccessControl.checkPermission ts tc user permission resource)
           standalone
    = Returns (deny Reason.PermissionNotGrantedToRole)).
  { intros standalone perms Hentry Hout. unfold result.
    rewrite (standalone_active _ _ _ _ _ _ perms Hon Hentry).
    apply includes_not_elem_of in Hout. rewrite Hout. reflexivity. }
  assert (Hservice : ∀ service perms,
    RBACService.rolePermissions service !! User.role user = Some perms →
    permission ∉ perms →
    result (RBACService.checkPermission ts tc user permission resource) service
    = Returns (deny Reason.PermissionNotGrantedToRole)).
  { intros service perms Hentry Hout. unfold result.
    rewrite (service_active _ _ _ _ _ _ perms Hon Hentry).
    apply includes_not_elem_of in Hout. rewrite Hout. reflexivity. }
  split; [exact Hstandalone |]. split; [exact Hservice |].
  intros Hrole Hwithheld.
  assert (Hout : permission ∉ general_teacher_permissions).
  { clear -Hwithheld. revert permission Hwithheld.
    apply Forall_forall. decide_closed. }
  split.
  - apply (Hstandalone _ general_teacher_permissions); [| exact Hout].
    rewrite standalone_table, Hrole. apply table_general.
  - apply (Hservice _ general_teacher_permissions); [| exact Hout].
    rewrite service_table, Hrole. apply table_general.
Qed.

Lemma permission_outside_role_entry_denied_witness :
  (result (RoleBasedAccessControl.checkPermission
             RoleBasedAccessControl.isTeachingStudent
             RoleBasedAccessControl.isTeachingClass
             teacher2 Permission.MANAGE_CLASS None)
          RoleBasedAccessControl.new
   = Returns (deny Reason.PermissionNotGrantedToRole)
   ∧ result (RBACService.checkPermission
               RoleBasedAccessControl.isTeachingStudent
               RoleBasedAccessControl.isTeachingClass
               teacher2 Permission.MANAGE_CLASS None)
            RBACService.new
     = Returns (deny Reason.PermissionNotGrantedToRole))
  ∧ result (RoleBasedAccessControl.checkPermission
              RoleBasedAccessControl.isTeachingStudent
              RoleBasedAccessControl.isTeachingClass
              teacher2 Permission.EXPORT_GRADES (of_class "class-3-1"))
           (RoleBasedAccessControl.mk
              {[ TeacherRole.GENERAL_TEACHER := [Permission.VIEW_GRADES] ]})
    = Returns (deny Reason.PermissionNotGrantedToRole)
  ∧ result (RBACService.checkPermission
              RoleBasedAccessControl.isTeachingStudent
              RoleBasedAccessControl.isTeachingClass
              teacher2 Permission.EXPORT_GRADES (of_class "class-3-1"))
           (RBACService.mk
              {[ TeacherRole.GENERAL_TEACHER := [Permission.VIEW_GRADES] ]})
    = Returns (deny Reason.PermissionNotGrantedToRole).
Proof.
  split; [| split].
  - apply (permission_outside_role_entry_denied
             RoleBasedAccessControl.isTeachingStudent
             RoleBasedAccessControl.isTeachingClass
             teacher2 Permission.MANAGE_CLASS None).
    + reflexivity.
    + reflexivity.
    + decide_closed.
  - apply (proj1 (permission_outside_role_entry_denied
                    RoleBasedAccessControl.isTeachingStudent
                    RoleBasedAccessControl.isTeachingClass
                    teacher2 Permission.EXPORT_GRADES (of_class "class-3-1")
                    eq_refl)
                 _ [Permission.VIEW_GRADES]).
    + reflexivity.
    + decide_closed.
  - apply (proj1 (proj2 (permission_outside_role_entry_denied
                           RoleBasedAccessControl.isTeachingStudent
                           RoleBasedAccessControl.isTeachingClass
                           teacher2 Permission.EXPORT_GRADES (of_class "class-3-1")
                           eq_refl))
                 _ [Permission.VIEW_GRADES]).
    + reflexivity.
    + decide_closed.
Defined.

(** ** The resource checks, case by case *)

Section resource_checks.
Variables ts tc : User.t → string → bool.
Variables (user : User.t) (resource : option Resource.t).

Lemma standalone_general_manage_grades :
  User.role user = TeacherRole.GENERAL_TEACHER →
  RoleBasedAccessControl.checkResourceAccess ts tc user Permission.MANAGE_GRADES resource
  = if and_then (opt_field Resource.subjectId resource)
                (opt_includes (User.subjectIds user))
    then allow else deny Reason.NotOwnSubject.
Proof.
  intros Hrole. unfold RoleBasedAccessControl.checkResourceAccess,
    RoleBasedAccessControl.general_teacher_cases.
  rewrite Hrole. cbn -[and_then]. destruct (and_then _ _); reflexivity.
Qed.

Lemma service_general_manage_grades :
  User.role user = TeacherRole.GENERAL_TEACHER →
  RBACService.checkResourceAccess ts tc user Permission.MANAGE_GRADES resource
  = if and_then (opt_field Resource.subjectId resource)
                (opt_includes (User.subjectIds user))
    then allow else deny Reason.NotOwnSubject.
Proof.
  intros Hrole. unfold RBACService.checkResourceAccess,
    RBACService.general_teacher_cases.
  rewrite Hrole. cbn -[and_then]. destruct (and_then _ _); reflexivity.
Qed.

Lemma standalone_general_conduct_counseling :
  User.role user = TeacherRole.GENERAL_TEACHER →
  RoleBasedAccessControl.checkResourceAccess ts tc user
    Permission.CONDUCT_COUNSELING resource
  = if and_then (opt_field Resource.studentId resource) (ts user)
    then allow else deny Reason.NotOwnStudent.
Proof.
  intros Hrole. unfold RoleBasedAccessControl.checkResourceAccess,
    RoleBasedAccessControl.general_teacher_cases.
  rewrite Hrole. cbn -[and_then]. destruct (and_then _ _); reflexivity.
Qed.

Lemma service_general_conduct_counseling :
  User.role user = TeacherRole.GENERAL_TEACHER →
  RBACService.checkResourceAccess ts tc user Permission.CONDUCT_COUNSELING resource
  = if and_then (opt_field Resource.studentId resource) (ts user)
    then allow else deny Reason.NotOwnStudent.
Proof.
  intros Hrole. unfold RBACService.checkResourceAccess,
    RBACService.general_teacher_cases.
  rewrite Hrole. cbn -[and_then]. destruct (and_then _ _); reflexivity.
Qed.

Lemma standalone_general_view (permission : string) :
  User.role user = TeacherRole.GENERAL_TEACHER →
  permission ∈ view_permissions →
  RoleBasedAccessControl.checkResourceAccess ts tc user permission resource
  = if and_then (opt_field Resource.classId resource) (tc user)
    then allow else deny Reason.NotOwnClass_view.
Proof.
  intros Hrole Hview. unfold RoleBasedAccessControl.checkResourceAccess,
    RoleBasedAccessControl.general_teacher_cases.
  rewrite Hrole. unfold view_permissions in Hview.
  repeat (apply elem_of_cons in Hview as [-> | Hview];
          [cbn -[and_then]; destruct (and_then _ _); reflexivity |]).
  inversion Hview.
Qed.

Lemma service_general_view (permission : string) :
  User.role user = TeacherRole.GENERAL_TEACHER →
  permission ∈ view_permissions →
  RBACService.checkResourceAccess ts tc user permission resource = allow.
Proof.
  intros Hrole Hview. unfold RBACService.checkResourceAccess,
    RBACService.general_teacher_cases.
  rewrite Hrole. unfold view_permissions in Hview.
  repeat (apply elem_of_cons in Hview as [-> | Hview];
          [cbn -[and_then]; destruct (and_then _ _); reflexivity |]).
  inversion Hview.
Qed.

Lemma standalone_homeroom_class_management (permission : string) :
  User.role user = TeacherRole.HOMEROOM_TEACHER →
  permission ∈ class_management_permissions →
  RoleBasedAccessControl.checkResourceAccess ts tc user permission resource
  = if and_then (opt_field Resource.classId resource)
                (λ c, bool_decide (User.classId user = Some c))
    then allow else deny Reason.NotOwnClass_homeroom.
Proof.
  intros Hrole Hmanage. unfold RoleBasedAccessControl.checkResourceAccess,
    RoleBasedAccessControl.homeroom_teacher_cases.
  rewrite Hrole. unfold class_management_permissions in Hmanage.
  repeat (apply elem_of_cons in Hmanage as [-> | Hmanage];
          [cbn -[and_then]; destruct (and_then _ _); reflexivity |]).
  inversion Hmanage.
Qed.

Lemma service_homeroom_class_management (permission : string) :
  User.role user = TeacherRole.HOMEROOM_TEACHER →
  permission ∈ class_management_permissions →
  RBACService.checkResourceAccess ts tc user permission resource
  = if and_then (opt_field Resource.classId resource)
                (λ c, bool_decide (User.classId user = Some c))
    then allow
    else if truthy (opt_field Resource.classId resource)
         then deny Reason.NotOwnClass_homeroom else allow.
Proof.
  intros Hrole Hmanage. unfold RBACService.checkResourceAccess,
    RBACService.homeroom_teacher_cases.
  rewrite Hrole. unfold class_management_permissions in Hmanage.
  repeat (apply elem_of_cons in Hmanage as [-> | Hmanage];
          [cbn -[and_then truthy]; destruct (and_then _ _);
           [reflexivity | destruct (truthy _); reflexivity] |]).
  inversion Hmanage.
Qed.
End resource_checks.

Lemma view_permissions_general (permission : string) :
  permission ∈ view_permissions → includes general_teacher_permissions permission = true.
Proof.
  revert permission. apply Forall_forall. decide_closed.
Qed.

Lemma class_management_permissions_homeroom (permission : string) :
  permission ∈ class_management_permissions →
  includes homeroom_teacher_permissions permission = true.
Proof.
  revert permission. apply Forall_forall. decide_closed.
Qed.

(** ** Homeroom teachers: class management *)

(** What [RBACService] answers to an active homeroom teacher who asks for
    ManageClass, ManageStudents or EditStudentInfo: allowed on the own
    class, denied on another class, allowed when no class is named. *)
Lemma service_homeroom_class_rule
    (ts tc : User.t → string → bool) (user : User.t) (permission : string)
    (resource : option Resource.t) :
  User.isActive user = true →
  User.role user = TeacherRole.HOMEROOM_TEACHER →
  permission ∈ class_management_permissions →
  (∀ c, carries (opt_field Resource.classId resource) c →
        User.classId user = Some c →
        result (RBACService.checkPermission ts tc user permission resource)
               RBACService.new = Returns allow)
  ∧ (∀ c, carries (opt_field Resource.classId resource) c →
          User.classId user ≠ Some c →
          result (RBACService.checkPermission ts tc user permission resource)
                 RBACService.new = Returns (deny Reason.NotOwnClass_homeroom))
  ∧ ((∀ c, ¬ carries (opt_field Resource.classId resource) c) →
     result (RBACService.checkPermission ts tc user permission resource)
            RBACService.new = Returns allow).
Proof.
  intros Hon Hrole Hmanage.
  assert (Hrun : result (RBACService.checkPermission ts tc user permission resource)
                        RBACService.new
                 = Returns (RBACService.checkResourceAccess ts tc user permission resource)).
  { rewrite (service_new _ _ _ _ _ homeroom_teacher_permissions Hon)
      by (rewrite Hrole; apply table_homeroom).
    rewrite (class_management_permissions_homeroom _ Hmanage). reflexivity. }
  rewrite Hrun, (service_homeroom_class_management _ _ _ _ _ Hrole Hmanage).
  split; [| split].
  - intros c Hc Hown. rewrite (and_then_of_carries _ _ _ Hc).
    rewrite bool_decide_eq_true_2 by exact Hown. reflexivity.
  - intros c Hc Hother. rewrite (and_then_of_carries _ _ _ Hc).
    rewrite bool_decide_eq_false_2 by exact Hother.
    assert (Htruthy : truthy (opt_field Resource.classId resource) = true)
      by (apply truthy_carries; exists c; exact Hc).
    rewrite Htruthy. reflexivity.
  - intros Hnone.
    assert (Hfalsy : truthy (opt_field Resource.classId resource) = false).
    { apply not_true_is_false. intros Htruthy.
      apply truthy_carries in Htruthy as [c Hc]. exact (Hnone c Hc). }
    rewrite (and_then_not_truthy _ _ Hfalsy), Hfalsy. reflexivity.
Qed.

(** C3: in the standalone script the rule for homeroom teachers misses the
    case the claim (and [RBACService]) allows.  For an active homeroom
    teacher asking for ManageClass, ManageStudents or EditStudentInfo with
    no resource, or with a resource that carries no classId,
    [RoleBasedAccessControl.checkPermission] returns the not-own-class
    denial, where [RBACService.checkPermission] allows. *)
Theorem standalone_denies_homeroom_request_without_class
    (ts tc : User.t → string → bool) (user : User.t) (permission : string)
    (resource : option Resource.t) :
  User.isActive user = true →
  User.role user = TeacherRole.HOMEROOM_TEACHER →
  permission ∈ class_management_permissions →
  (∀ c, ¬ carries (opt_field Resource.classId resource) c) →
  result (RoleBasedAccessControl.checkPermission ts tc user permission resource)
         RoleBasedAccessControl.new
  = Returns (deny Reason.NotOwnClass_homeroom)
  ∧ result (RBACService.checkPermission ts tc user permission resource)
           RBACService.new
    = Returns allow.
Proof.
  intros Hon Hrole Hmanage Hnone. split.
  - rewrite (standalone_new _ _ _ _ _ homeroom_teacher_permissions Hon)
      by (rewrite Hrole; apply table_homeroom).
    rewrite (class_management_permissions_homeroom _ Hmanage).
    rewrite (standalone_homeroom_class_management _ _ _ _ _ Hrole Hmanage).
    rewrite and_then_not_truthy; [reflexivity |].
    apply not_true_is_false. intros Htruthy.
    apply truthy_carries in Htruthy as [c Hc]. exact (Hnone c Hc).
  - apply (service_homeroom_class_rule ts tc user permission resource
             Hon Hrole Hmanage), Hnone.
Qed.

(** The call of the script's own permission test: [teacher1] asks for
    ManageClass without a resource. *)
Lemma standalone_denies_homeroom_request_without_class_witness :
  result (RoleBasedAccessControl.checkPermission
            RoleBasedAccessControl.isTeachingStudent
            RoleBasedAccessControl.isTeachingClass
            teacher1 Permission.MANAGE_CLASS None)
         RoleBasedAccessControl.new
  = Returns (deny Reason.NotOwnClass_homeroom)
  ∧ result (RBACService.checkPermission
              RoleBasedAccessControl.isTeachingStudent
              RoleBasedAccessControl.isTeachingClass
              teacher1 Permission.MANAGE_CLASS None)
           RBACService.new
    = Returns allow.
Proof.
  apply (standalone_denies_homeroom_request_without_class
           RoleBasedAccessControl.isTeachingStudent
           RoleBasedAccessControl.isTeachingClass
           teacher1 Permission.MANAGE_CLASS None).
  - reflexivity.
  - reflexivity.
  - decide_closed.
  - intros c [Hc _]. discriminate Hc.
Defined.

(** The same request as the demonstration issues it, through
    [TeacherService.checkPermission] with the user id, on the service as its
    constructor leaves it. *)
Lemma teacher_service_denies_teacher1_manage_class (now : Z) :
  result (TeacherService.checkPermission "teacher1" Permission.MANAGE_CLASS None)
         (TeacherService.new now)
  = Returns (deny Reason.NotOwnClass_homeroom).
Proof. reflexivity. Qed.

(** On a named class the script agrees with the claim: allowed on the own
    class, denied on another one. *)
Lemma standalone_homeroom_named_class
    (ts tc : User.t → string → bool) (user : User.t) (permission : string)
    (resource : option Resource.t) (c : string) :
  User.isActive user = true →
  User.role user = TeacherRole.HOMEROOM_TEACHER →
  permission ∈ class_management_permissions →
  carries (opt_field Resource.classId resource) c →
  result (RoleBasedAccessControl.checkPermission ts tc user permission resource)
         RoleBasedAccessControl.new
  = Returns (if bool_decide (User.classId user = Some c)
             then allow else deny Reason.NotOwnClass_homeroom).
Proof.
  intros Hon Hrole Hmanage Hc.
  rewrite (standalone_new _ _ _ _ _ homeroom_teacher_permissions Hon)
    by (rewrite Hrole; apply table_homeroom).
  rewrite (class_management_permissions_homeroom _ Hmanage).
  rewrite (standalone_homeroom_class_management _ _ _ _ _ Hrole Hmanage).
  rewrite (and_then_of_carries _ _ _ Hc). reflexivity.
Qed.

(** ** General teachers: grades of the own subjects *)

(** C4: for an active general teacher asking for ManageGrades, both
    [checkPermission] methods return the same decision; it is allowed
    exactly when a resource is given, carries a subjectId, and that
    subjectId is among the subjects the teacher teaches; every other
    decision, and so the one for a missing resource, is the denial with
    the not-own-subject reason. *)
Theorem general_teacher_manages_grades_of_own_subject
    (ts tc : User.t → string → bool) (user : User.t)
    (resource : option Resource.t) :
  User.isActive user = true →
  User.role user = TeacherRole.GENERAL_TEACHER →
  ∃ d : AuthorizationResult,
    result (RoleBasedAccessControl.checkPermission ts tc user
              Permission.MANAGE_GRADES resource)
           RoleBasedAccessControl.new = Returns d
    ∧ result (RBACService.checkPermission ts tc user
                Permission.MANAGE_GRADES resource)
             RBACService.new = Returns d
    ∧ (allowed d = true ↔
       ∃ (r : Resource.t) (sid : string),
         resource = Some r ∧ carries (Resource.subjectId r) sid ∧ sid ∈ taught user)
    ∧ (allowed d = false → d = deny Reason.NotOwnSubject)
    ∧ (resource = None → d = deny Reason.NotOwnSubject).
Proof.
  intros Hon Hrole.
  exists (if and_then (opt_field Resource.subjectId resource)
                      (opt_includes (User.subjectIds user))
          then allow else deny Reason.NotOwnSubject).
  split; [| split].
  - rewrite (standalone_new _ _ _ _ _ general_teacher_permissions Hon)
      by (rewrite Hrole; apply table_general).
    change (includes general_teacher_permissions Permission.MANAGE_GRADES)
      with true; cbv iota.
    apply f_equal, standalone_general_manage_grades, Hrole.
  - rewrite (service_new _ _ _ _ _ general_teacher_permissions Hon)
      by (rewrite Hrole; apply table_general).
    change (includes general_teacher_permissions Permission.MANAGE_GRADES)
      with true; cbv iota.
    apply f_equal, service_general_manage_grades, Hrole.
  - destruct (and_then _ _) eqn:Hcond.
    + split; [| split; [discriminate |]].
      * split; [intros _ | reflexivity].
        apply and_then_carries in Hcond as (sid & Hsid & Htaught).
        apply opt_includes_taught in Htaught.
        destruct resource as [r|]; [| destruct Hsid; discriminate].
        exists r, sid. repeat split; [apply Hsid | apply Hsid | exact Htaught].
      * intros ->. discriminate Hcond.
    + split; [| split; reflexivity].
      split; [discriminate |].
      intros (r & sid & -> & Hsid & Htaught).
      assert (Hyes : and_then (opt_field Resource.subjectId (Some r))
                              (opt_includes (User.subjectIds user)) = true).
      { apply and_then_carries. exists sid. split; [exact Hsid |].
        apply opt_includes_taught, Htaught. }
      congruence.
Qed.

Lemma general_teacher_manages_grades_of_own_subject_witness :
  ∃ d : AuthorizationResult,
    result (RoleBasedAccessControl.checkPermission
              RoleBasedAccessControl.isTeachingStudent
              RoleBasedAccessControl.isTeachingClass
              teacher2 Permission.MANAGE_GRADES (of_subject "math"))
           RoleBasedAccessControl.new = Returns d
    ∧ result (RBACService.checkPermission
                RoleBasedAccessControl.isTeachingStudent
                RoleBasedAccessControl.isTeachingClass
                teacher2 Permission.MANAGE_GRADES (of_subject "math"))
             RBACService.new = Returns d
    ∧ (allowed d = true ↔
       ∃ (r : Resource.t) (sid : string),
         of_subject "math" = Some r ∧ carries (Resource.subjectId r) sid
         ∧ sid ∈ taught teacher2)
    ∧ (allowed d = false → d = deny Reason.NotOwnSubject)
    ∧ (of_subject "math" = None → d = deny Reason.NotOwnSubject).
Proof.
  apply (general_teacher_manages_grades_of_own_subject
           RoleBasedAccessControl.isTeachingStudent
           RoleBasedAccessControl.isTeachingClass
           teacher2 (of_subject "math")); reflexivity.
Defined.

(** ** General teachers: counselling the own students *)

(** C6: for an active general teacher asking for ConductCounseling, both
    [checkPermission] methods return the same decision; it is allowed
    exactly when there is a resource whose studentId holds an identifier
    and the teaching lookup confirms that the teacher teaches that student;
    every other decision (a student the lookup rejects, no studentId) is the
    denial with the not-own-student reason, and so is the one for a missing
    resource. *)
Theorem general_teacher_counsels_own_students
    (ts tc : User.t → string → bool) (user : User.t)
    (resource : option Resource.t) :
  User.isActive user = true →
  User.role user = TeacherRole.GENERAL_TEACHER →
  ∃ d : AuthorizationResult,
    result (RoleBasedAccessControl.checkPermission ts tc user
              Permission.CONDUCT_COUNSELING resource)
           RoleBasedAccessControl.new = Returns d
    ∧ result (RBACService.checkPermission ts tc user
                Permission.CONDUCT_COUNSELING resource)
             RBACService.new = Returns d
    ∧ (allowed d = true ↔
       ∃ (r : Resource.t) (sid : string),
         resource = Some r ∧ carries (Resource.studentId r) sid ∧ ts user sid = true)
    ∧ (allowed d = false → d = deny Reason.NotOwnStudent)
    ∧ (resource = None → d = deny Reason.NotOwnStudent).
Proof.
  intros Hon Hrole.
  exists (if and_then (opt_field Resource.studentId resource) (ts user)
          then allow else deny Reason.NotOwnStudent).
  split; [| split].
  - rewrite (standalone_new _ _ _ _ _ general_teacher_permissions Hon)
      by (rewrite Hrole; apply table_general).
    change (includes general_teacher_permissions Permission.CONDUCT_COUNSELING)
      with true; cbv iota.
    apply f_equal, standalone_general_conduct_counseling, Hrole.
  - rewrite (service_new _ _ _ _ _ general_teacher_permissions Hon)
      by (rewrite Hrole; apply table_general).
    change (includes general_teacher_permissions Permission.CONDUCT_COUNSELING)
      with true; cbv iota.
    apply f_equal, service_general_conduct_counseling, Hrole.
  - destruct (and_then _ _) eqn:Hcond.
    + split; [| split; [discriminate |]].
      * split; [intros _ | reflexivity].
        apply and_then_carries in Hcond as (sid & Hsid & Hteaches).
        destruct resource as [r|]; [| destruct Hsid; discriminate].
        exists r, sid. repeat split; [apply Hsid | apply Hsid | exact Hteaches].
      * intros ->. discriminate Hcond.
    + split; [| split; reflexivity].
      split; [discriminate |].
      intros (r & sid & -> & Hsid & Hteaches).
      assert (Hyes : and_then (opt_field Resource.studentId (Some r)) (ts user) = true).
      { apply and_then_carries. exists sid. split; [exact Hsid | exact Hteaches]. }
      congruence.
Qed.

Lemma general_teacher_counsels_own_students_witness :
  ∃ d : AuthorizationResult,
    result (RoleBasedAccessControl.checkPermission
              RoleBasedAccessControl.isTeachingStudent
              RoleBasedAccessControl.isTeachingClass
              teacher2 Permission.CONDUCT_COUNSELING (of_student "student1"))
           RoleBasedAccessControl.new = Returns d
    ∧ result (RBACService.checkPermission
                RBACService.isTeachingStudent
                RBACService.isTeachingClass
                teacher2 Permission.CONDUCT_COUNSELING (of_student "student1"))
             RBACService.new = Returns d
    ∧ (allowed d = true ↔
       ∃ (r : Resource.t) (sid : string),
         of_student "student1" = Some r ∧ carries (Resource.studentId r) sid
         ∧ RoleBasedAccessControl.isTeachingStudent teacher2 sid = true)
    ∧ (allowed d = false → d = deny Reason.NotOwnStudent)
    ∧ (of_student "student1" = None → d = deny Reason.NotOwnStudent).
Proof.
  apply (general_teacher_counsels_own_students
           RoleBasedAccessControl.isTeachingStudent
           RoleBasedAccessControl.isTeachingClass
           teacher2 (of_student "student1")); reflexivity.
Defined.

(** ** General teachers: viewing a class *)

Lemma names_class_carries (resource : option Resource.t) (c : string) :
  names_class resource c ↔ carries (opt_field Resource.classId resource) c.
Proof.
  unfold names_class. destruct resource as [r|]; cbn.
  - split.
    + intros (r' & Heq & Hc). injection Heq as <-. exact Hc.
    + intros Hc. exists r. split; [reflexivity | exact Hc].
  - split.
    + intros (r & Heq & _). discriminate Heq.
    + intros [Heq _]. discriminate Heq.
Qed.





(** ** The two implementations compared *)

(** C7, the input on which it fails: [teacher2] asks for ViewGrades without
    a resource; the standalone script denies, the service allows. *)
Lemma implementations_disagree_on_view_without_class :
  decision (result (RoleBasedAccessControl.checkPermission
                      RoleBasedAccessControl.isTeachingStudent
                      RoleBasedAccessControl.isTeachingClass
                      teacher2 Permission.VIEW_GRADES None)
                   RoleBasedAccessControl.new) = Some false
  ∧ decision (result (RBACService.checkPermission
                        RBACService.isTeachingStudent
                        RBACService.isTeachingClass
                        teacher2 Permission.VIEW_GRADES None)
                     RBACService.new) = Some true
  ∧ decision (result (RoleBasedAccessControl.checkPermission
                        RoleBasedAccessControl.isTeachingStudent
                        RoleBasedAccessControl.isTeachingClass
                        teacher2 Permission.VIEW_GRADES None)
                     RoleBasedAccessControl.new)
    ≠ decision (result (RBACService.checkPermission
                          RBACService.isTeachingStudent
                          RBACService.isTeachingClass
                          teacher2 Permission.VIEW_GRADES None)
                       RBACService.new).
Proof. split; [reflexivity |]. split; [reflexivity |]. vm_compute. discriminate. Qed.

Lemma view_permission_cases (permission : string) :
  String.eqb permission Permission.VIEW_STUDENTS
  || String.eqb permission Permission.VIEW_GRADES
  || String.eqb permission Permission.VIEW_ATTENDANCE = true →
  permission ∈ view_permissions.
Proof.
  rewrite !orb_true_iff, !String.eqb_eq. unfold view_permissions.
  intros [[-> | ->] | ->]; set_solver.
Qed.

Lemma class_management_permission_cases (permission : string) :
  String.eqb permission Permission.MANAGE_CLASS
  || String.eqb permission Permission.MANAGE_STUDENTS
  || String.eqb permission Permission.EDIT_STUDENT_INFO = true →
  permission ∈ class_management_permissions.
Proof.
  rewrite !orb_true_iff, !String.eqb_eq. unfold class_management_permissions.
  intros [[-> | ->] | ->]; set_solver.
Qed.

(** Outside the two families of requests on which the resource checks were
    written differently, [checkResourceAccess] is the same function in the
    two classes. *)
Lemma checkResourceAccess_agree
    (ts tc : User.t → string → bool) (user : User.t) (permission : string)
    (resource : option Resource.t) :
  ¬ (User.role user = TeacherRole.GENERAL_TEACHER
     ∧ permission ∈ view_permissions
     ∧ ¬ ∃ c, carries (opt_field Resource.classId resource) c ∧ tc user c = true) →
  ¬ (User.role user = TeacherRole.HOMEROOM_TEACHER
     ∧ permission ∈ class_management_permissions
     ∧ ∀ c, ¬ carries (opt_field Resource.classId resource) c) →
  RoleBasedAccessControl.checkResourceAccess ts tc user permission resource
  = RBACService.checkResourceAccess ts tc user permission resource.
Proof.
  intros Hview Hmanage.
  unfold RoleBasedAccessControl.checkResourceAccess,
    RBACService.checkResourceAccess.
  destruct (String.eqb_spec (User.role user) TeacherRole.GENERAL_TEACHER) as [Hg | Hg].
  - unfold RoleBasedAccessControl.general_teacher_cases,
      RBACService.general_teacher_cases.
    destruct (String.eqb permission Permission.MANAGE_GRADES);
      [destruct (and_then _ _); reflexivity |].
    destruct (String.eqb permission Permission.CONDUCT_COUNSELING);
      [destruct (and_then _ _); reflexivity |].
    destruct (String.eqb permission Permission.VIEW_STUDENTS
              || String.eqb permission Permission.VIEW_GRADES
              || String.eqb permission Permission.VIEW_ATTENDANCE) eqn:Hcase.
    + destruct (and_then (opt_field Resource.classId resource) (tc user)) eqn:Hcond;
        [reflexivity |].
      exfalso. apply Hview. split; [exact Hg |].
      split; [apply view_permission_cases, Hcase |].
      intros Hyes. apply and_then_carries in Hyes. congruence.
    + rewrite Hg. reflexivity.
  - destruct (String.eqb (User.role user) TeacherRole.HOMEROOM_TEACHER) eqn:Hh;
      [| reflexivity].
    apply String.eqb_eq in Hh.
    unfold RoleBasedAccessControl.homeroom_teacher_cases,
      RBACService.homeroom_teacher_cases.
    destruct (String.eqb permission Permission.MANAGE_CLASS
              || String.eqb permission Permission.MANAGE_STUDENTS
              || String.eqb permission Permission.EDIT_STUDENT_INFO) eqn:Hcase;
      [| reflexivity].
    destruct (and_then _ _); [reflexivity |].
    destruct (truthy (opt_field Resource.classId resource)) eqn:Htruthy;
      [reflexivity |].
    exfalso. apply Hmanage. split; [exact Hh |].
    split; [apply class_management_permission_cases, Hcase |].
    intros c Hc.
    assert (Hyes : truthy (opt_field Resource.classId resource) = true)
      by (apply truthy_carries; exists c; exact Hc).
    congruence.
Qed.

(** C7 as amended: the two [checkPermission] methods return the same result
    on every input except for an active subject in one of two families of
    requests: a general teacher asking for ViewStudents, ViewGrades or
    ViewAttendance when the resource names no class the lookup confirms, and
    a homeroom teacher asking for ManageClass, ManageStudents or
    EditStudentInfo when the resource names no class.  In the first family,
    for an active subject, the standalone script returns the not-own-class
    denial and the service allows. *)
Theorem implementations_agree_outside_two_active_families
    (ts tc : User.t → string → bool) (user : User.t) (permission : string)
    (resource : option Resource.t) :
  (¬ (User.isActive user = true
      ∧ User.role user = TeacherRole.GENERAL_TEACHER
      ∧ permission ∈ view_permissions
      ∧ ¬ ∃ c, names_class resource c ∧ tc user c = true) →
   ¬ (User.isActive user = true
      ∧ User.role user = TeacherRole.HOMEROOM_TEACHER
      ∧ permission ∈ class_management_permissions
      ∧ ∀ c, ¬ names_class resource c) →
   result (RoleBasedAccessControl.checkPermission ts tc user permission resource)
          RoleBasedAccessControl.new
   = result (RBACService.checkPermission ts tc user permission resource)
            RBACService.new)
  ∧ (User.isActive user = true →
     User.role user = TeacherRole.GENERAL_TEACHER →
     permission ∈ view_permissions →
     (¬ ∃ c, names_class resource c ∧ tc user c = true) →
     result (RoleBasedAccessControl.checkPermission ts tc user permission resource)
            RoleBasedAccessControl.new
     = Returns (deny Reason.NotOwnClass_view)
     ∧ result (RBACService.checkPermission ts tc user permission resource)
              RBACService.new
       = Returns allow).
Proof.
  split.
  - intros Hview Hmanage.
    destruct (User.isActive user) eqn:Hon.
    + assert (Hsame :
        RoleBasedAccessControl.checkResourceAccess ts tc user permission resource
        = RBACService.checkResourceAccess ts tc user permission resource).
      { apply checkResourceAccess_agree.
        - intros (Hrole & Hperm & Hnone). apply Hview.
          split; [reflexivity |]. split; [exact Hrole |]. split; [exact Hperm |].
          intros (c & Hc & Htc). apply Hnone. exists c.
          split; [apply names_class_carries, Hc | exact Htc].
        - intros (Hrole & Hperm & Hnone). apply Hmanage.
          split; [reflexivity |]. split; [exact Hrole |]. split; [exact Hperm |].
          intros c Hc. apply (Hnone c), names_class_carries, Hc. }
      unfold result, RoleBasedAccessControl.checkPermission,
        RBACService.checkPermission, RoleBasedAccessControl.getRolePermissions,
        RBACService.getRolePermissions.
      rewrite Hon. run_method. rewrite standalone_table, service_table.
      destruct (get_property _ (User.role user)) as [perms | key |]; cbn.
      * destruct (includes perms permission); cbn; [| reflexivity].
        rewrite Hsame. reflexivity.
      * reflexivity.
      * reflexivity.
    + unfold result.
      rewrite (standalone_inactive _ _ _ _ _ _ Hon).
      rewrite (service_inactive _ _ _ _ _ _ Hon). reflexivity.
  - intros Hon Hrole Hperm Hnone.
    rewrite (standalone_new _ _ _ _ _ general_teacher_permissions Hon)
      by (rewrite Hrole; apply table_general).
    rewrite (service_new _ _ _ _ _ general_teacher_permissions Hon)
      by (rewrite Hrole; apply table_general).
    rewrite (view_permissions_general _ Hperm).
    rewrite (standalone_general_view _ _ _ _ _ Hrole Hperm).
    rewrite (service_general_view _ _ _ _ _ Hrole Hperm).
    destruct (and_then _ _) eqn:Hcond; [| split; reflexivity].
    exfalso. apply Hnone. apply and_then_carries in Hcond as (c & Hc & Htc).
    exists c. split; [apply names_class_carries, Hc | exact Htc].
Qed.

Lemma implementations_agree_outside_two_active_families_witness :
  result (RoleBasedAccessControl.checkPermission
            RoleBasedAccessControl.isTeachingStudent
            RoleBasedAccessControl.isTeachingClass
            teacher2 Permission.MANAGE_GRADES (of_subject "art"))
         RoleBasedAccessControl.new
  = result (RBACService.checkPermission
              RBACService.isTeachingStudent
              RBACService.isTeachingClass
              teacher2 Permission.MANAGE_GRADES (of_subject "art"))
           RBACService.new
  ∧ result (RoleBasedAccessControl.checkPermission
              RoleBasedAccessControl.isTeachingStudent
              RoleBasedAccessControl.isTeachingClass
              inactive_teacher1 Permission.MANAGE_CLASS None)
           RoleBasedAccessControl.new
    = result (RBACService.checkPermission
                RBACService.isTeachingStudent
                RBACService.isTeachingClass
                inactive_teacher1 Permission.MANAGE_CLASS None)
             RBACService.new
  ∧ (result (RoleBasedAccessControl.checkPermission
               RoleBasedAccessControl.isTeachingStudent
               RoleBasedAccessControl.isTeachingClass
               teacher2 Permission.VIEW_GRADES None)
            RoleBasedAccessControl.new
     = Returns (deny Reason.NotOwnClass_view)
     ∧ result (RBACService.checkPermission
                 RBACService.isTeachingStudent
                 RBACService.isTeachingClass
                 teacher2 Permission.VIEW_GRADES None)
              RBACService.new
       = Returns allow).
Proof.
  split; [| split].
  - apply (proj1 (implementations_agree_outside_two_active_families
                    RoleBasedAccessControl.isTeachingStudent
                    RoleBasedAccessControl.isTeachingClass
                    teacher2 Permission.MANAGE_GRADES (of_subject "art"))).
    + intros (_ & _ & Hview & _). revert Hview. decide_closed.
    + intros (_ & Hrole & _). discriminate Hrole.
  - apply (proj1 (implementations_agree_outside_two_active_families
                    RoleBasedAccessControl.isTeachingStudent
                    RoleBasedAccessControl.isTeachingClass
                    inactive_teacher1 Permission.MANAGE_CLASS None)).
    + intros (Hon & _). discriminate Hon.
    + intros (Hon & _). discriminate Hon.
  - apply (proj2 (implementations_agree_outside_two_active_families
                    RoleBasedAccessControl.isTeachingStudent
                    RoleBasedAccessControl.isTeachingClass
                    teacher2 Permission.VIEW_GRADES None)).
    + reflexivity.
    + reflexivity.
    + decide_closed.
    + intros (c & (r & Hr & _) & _). discriminate Hr.
Defined.

(** ** Calls change nothing *)

Lemma standalone_checkPermission_after ts tc user permission resource this :
  after (RoleBasedAccessControl.checkPermission ts tc user permission resource) this
  = this.
Proof.
  unfold after, RoleBasedAccessControl.checkPermission,
    RoleBasedAccessControl.getRolePermissions.
  destruct (User.isActive user); [| reflexivity].
  run_method.
  destruct (get_property _ _) as [perms | key |]; cbn;
    [destruct (includes perms permission) | |]; reflexivity.
Qed.

Lemma service_checkPermission_after ts tc user permission resource this :
  after (RBACService.checkPermission ts tc user permission resource) this = this.
Proof.
  unfold after, RBACService.checkPermission, RBACService.getRolePermissions.
  destruct (User.isActive user); [| reflexivity].
  run_method.
  destruct (get_property _ _) as [perms | key |]; cbn;
    [destruct (includes perms permission) | |]; reflexivity.
Qed.

Lemma teacher_service_checkPermission_after userId permission resource this :
  after (TeacherService.checkPermission userId permission resource) this = this.
Proof.
  unfold after, TeacherService.checkPermission, TeacherService.getUserById.
  run_method.
  destruct (TeacherService.users this !! userId) as [user |]; [| reflexivity].
  pose proof (standalone_checkPermission_after
                RoleBasedAccessControl.isTeachingStudent
                RoleBasedAccessControl.isTeachingClass
                user permission resource (TeacherService.rbac this)) as Hsame.
  unfold after in Hsame.
  destruct (RoleBasedAccessControl.checkPermission _ _ _ _ _ _) as [r rbac'].
  cbn in Hsame |- *. subst rbac'. destruct this; reflexivity.
Qed.

Lemma auth_context_checkPermission_after permission resource this :
  after (AuthContext.checkPermission permission resource) this = this.
Proof.
  unfold after, AuthContext.checkPermission.
  run_method.
  destruct (AuthContext.user this) as [user |] eqn:Huser; [| reflexivity].
  pose proof (service_checkPermission_after
                RBACService.isTeachingStudent RBACService.isTeachingClass
                user permission resource (AuthContext.rbacService this)) as Hsame.
  unfold after in Hsame.
  destruct (RBACService.checkPermission _ _ _ _ _ _) as [r service'].
  cbn in Hsame |- *. subst service'. destruct this; reflexivity.
Qed.

(** C8: a call of [checkPermission] leaves the object it runs on as it was:
    the role table of a [RoleBasedAccessControl] or an [RBACService], and
    for [TeacherService] and the React context also the subject records
    they hold.  A second call with the same arguments therefore runs on the
    same object and returns the same result as the first. *)
Theorem checkPermission_changes_nothing
    (ts tc : User.t → string → bool) (user : User.t) (userId : string)
    (permission : string) (resource : option Resource.t)
    (standalone : RoleBasedAccessControl.t) (service : RBACService.t)
    (teachers : TeacherService.t) (context : AuthContext.t) :
  (after (RoleBasedAccessControl.checkPermission ts tc user permission resource)
         standalone = standalone
   ∧ result (RoleBasedAccessControl.checkPermission ts tc user permission resource)
       (after (RoleBasedAccessControl.checkPermission ts tc user permission resource)
              standalone)
     = result (RoleBasedAccessControl.checkPermission ts tc user permission resource)
         standalone)
  ∧ (after (RBACService.checkPermission ts tc user permission resource) service
     = service
     ∧ result (RBACService.checkPermission ts tc user permission resource)
         (after (RBACService.checkPermission ts tc user permission resource) service)
       = result (RBACService.checkPermission ts tc user permission resource) service)
  ∧ (after (TeacherService.checkPermission userId permission resource) teachers
     = teachers
     ∧ result (TeacherService.checkPermission userId permission resource)
         (after (TeacherService.checkPermission userId permission resource) teachers)
       = result (TeacherService.checkPermission userId permission resource) teachers)
  ∧ (after (AuthContext.checkPermission permission resource) context = context
     ∧ result (AuthContext.checkPermission permission resource)
         (after (AuthContext.checkPermission permission resource) context)
       = result (AuthContext.checkPermission permission resource) context).
Proof.
  rewrite standalone_checkPermission_after, service_checkPermission_after,
    teacher_service_checkPermission_after, auth_context_checkPermission_after.
  repeat split; reflexivity.
Qed.

(** The constructors, in contrast, do write to the object. *)
Lemma initializeRolePermissions_writes :
  after RoleBasedAccessControl.initializeRolePermissions (RoleBasedAccessControl.mk ∅)
  ≠ RoleBasedAccessControl.mk ∅.
Proof.
  intros Heq.
  apply (f_equal (λ this, RoleBasedAccessControl.rolePermissions this
                          !! TeacherRole.GENERAL_TEACHER)) in Heq.
  vm_compute in Heq. discriminate Heq.
Qed.

(** ** Malformed input *)

(** C9, the input on which it fails: no user has the id teacher9, and
    [TeacherService.checkPermission] answers the request with a decision
    whose [allowed] is false instead of failing. *)
Lemma absent_user_is_turned_into_a_denial :
  TeacherService.users (TeacherService.new 0) !! "teacher9" = None
  ∧ result (TeacherService.checkPermission "teacher9" Permission.VIEW_STUDENTS None)
           (TeacherService.new 0)
    = Returns (deny Reason.UserNotFound)
  ∧ allowed (deny Reason.UserNotFound) = false.
Proof. repeat split; reflexivity. Qed.

Lemma get_property_unknown_role (role : string) :
  role ∉ TeacherRole.values →
  get_property
    ({[ TeacherRole.HOMEROOM_TEACHER := homeroom_teacher_permissions;
        TeacherRole.GENERAL_TEACHER := general_teacher_permissions ]}
       : gmap string (list string)) role
  = if bool_decide (role ∈ Object_prototype_properties)
    then Inherited role else Undefined.
Proof.
  intros Hrole. unfold get_property. rewrite (table_other _ Hrole). reflexivity.
Qed.

Lemma inherited_is_no_role (role : string) :
  role ∈ Object_prototype_properties → role ∉ TeacherRole.values.
Proof. revert role. apply Forall_forall. decide_closed. Qed.

(** A role of the enumeration has its entry in the table, and the entry
    holds permissions of the enumeration only. *)
Lemma table_of_known_role (role : string) :
  role ∈ TeacherRole.values →
  ∃ perms,
    ({[ TeacherRole.HOMEROOM_TEACHER := homeroom_teacher_permissions;
        TeacherRole.GENERAL_TEACHER := general_teacher_permissions ]}
       : gmap string (list string)) !! role = Some perms
    ∧ perms ⊆ Permission.values.
Proof.
  intros Hrole. unfold TeacherRole.values in Hrole.
  apply elem_of_cons in Hrole as [-> | Hrole];
    [| apply elem_of_cons in Hrole as [-> | Hrole]; [| inversion Hrole]].
  - exists homeroom_teacher_permissions. split; [apply table_homeroom |].
    intros p Hp. exact Hp.
  - exists general_teacher_permissions. split; [apply table_general |].
    apply (bool_decide_unpack _). vm_compute. exact I.
Qed.

(** An active subject whose role is outside the enumeration: the lookup in
    the table decides between the TypeError and the role-level denial. *)
Lemma checkPermission_unknown_role
    (ts tc : User.t → string → bool) (user : User.t) (permission : string)
    (resource : option Resource.t) :
  User.isActive user = true →
  User.role user ∉ TeacherRole.values →
  result (RoleBasedAccessControl.checkPermission ts tc user permission resource)
         RoleBasedAccessControl.new
  = (if bool_decide (User.role user ∈ Object_prototype_properties)
     then Throws (TypeError "rolePermissions.includes is not a function")
     else Returns (deny Reason.PermissionNotGrantedToRole))
  ∧ result (RBACService.checkPermission ts tc user permission resource)
           RBACService.new
    = (if bool_decide (User.role user ∈ Object_prototype_properties)
       then Throws (TypeError "rolePermissions.includes is not a function")
       else Returns (deny Reason.PermissionNotGrantedToRole)).
Proof.
  intros Hon Hrole.
  unfold result, RoleBasedAccessControl.checkPermission,
    RBACService.checkPermission, RoleBasedAccessControl.getRolePermissions,
    RBACService.getRolePermissions.
  rewrite Hon. run_method. rewrite standalone_table, service_table.
  rewrite (get_property_unknown_role _ Hrole).
  destruct (bool_decide _); split; reflexivity.
Qed.

(** On a user record, [checkPermission] of either class throws exactly for
    an active subject whose role names an inherited property. *)
Lemma checkPermission_throws
    (ts tc : User.t → string → bool) (user : User.t) (permission : string)
    (resource : option Resource.t) :
  ((∃ e, result (RoleBasedAccessControl.checkPermission ts tc user permission resource)
                RoleBasedAccessControl.new = Throws e)
   ↔ User.isActive user = true ∧ User.role user ∈ Object_prototype_properties)
  ∧ ((∃ e, result (RBACService.checkPermission ts tc user permission resource)
                  RBACService.new = Throws e)
     ↔ User.isActive user = true ∧ User.role user ∈ Object_prototype_properties).
Proof.
  destruct (User.isActive user) eqn:Hon.
  - destruct (decide (User.role user ∈ TeacherRole.values)) as [Hin | Hout].
    + destruct (table_of_known_role _ Hin) as (perms & Hentry & _).
      rewrite (standalone_new _ _ _ _ _ perms Hon Hentry).
      rewrite (service_new _ _ _ _ _ perms Hon Hentry).
      split; (split; [intros [e He]; discriminate He |]);
        intros [_ Hinherited]; exfalso;
        exact (inherited_is_no_role _ Hinherited Hin).
    + destruct (checkPermission_unknown_role ts tc user permission resource
                  Hon Hout) as [-> ->].
      destruct (bool_decide_reflect (User.role user ∈ Object_prototype_properties))
        as [Hinherited | Hown].
      * split; (split; [intros _; split; [reflexivity | exact Hinherited] |]);
          intros _; eexists; reflexivity.
      * split; (split; [intros [e He]; discriminate He |]);
          intros [_ Hinherited]; contradiction.
  - unfold result.
    rewrite (standalone_inactive _ _ _ _ _ _ Hon).
    rewrite (service_inactive _ _ _ _ _ _ Hon). cbn.
    split; (split; [intros [e He]; discriminate He |]);
      intros [Hoff _]; discriminate Hoff.
Qed.

(** C9 as amended: malformed input is answered with a denial wherever the
    code has a fallback for it, and with a TypeError where it has none.
    A user id without a record makes [TeacherService.checkPermission]
    return the user-not-found denial, and a missing context user makes the
    React [checkPermission] return the login-required denial.  For an
    active subject, a role outside the enumeration that is not the name of
    a property inherited from [Object.prototype] has the empty permission
    list, so that both [checkPermission] methods return the
    not-granted-to-role denial; a permission outside the enumeration, with
    a role of the enumeration, gets the same denial.  An active subject
    whose role names an inherited property makes both methods throw a
    TypeError.  Both methods, called with a user record or with null,
    throw in exactly two cases: the subject is null, or it is active and
    its role names an inherited property. *)
Theorem malformed_input_outcomes
    (ts tc : User.t → string → bool) (user : User.t) (subject : option User.t)
    (userId : string) (permission : string) (resource : option Resource.t)
    (teachers : TeacherService.t) (context : AuthContext.t) :
  (TeacherService.users teachers !! userId = None →
   TeacherService.checkPermission userId permission resource teachers
   = (Returns (deny Reason.UserNotFound), teachers))
  ∧ (AuthContext.user context = None →
     AuthContext.checkPermission permission resource context
     = (Returns (deny Reason.LoginRequired), context))
  ∧ (User.isActive user = true →
     User.role user ∉ TeacherRole.values →
     User.role user ∉ Object_prototype_properties →
     result (RoleBasedAccessControl.checkPermission ts tc user permission resource)
            RoleBasedAccessControl.new
     = Returns (deny Reason.PermissionNotGrantedToRole)
     ∧ result (RBACService.checkPermission ts tc user permission resource)
              RBACService.new
       = Returns (deny Reason.PermissionNotGrantedToRole))
  ∧ (User.isActive user = true →
     User.role user ∈ TeacherRole.values →
     permission ∉ Permission.values →
     result (RoleBasedAccessControl.checkPermission ts tc user permission resource)
            RoleBasedAccessControl.new
     = Returns (deny Reason.PermissionNotGrantedToRole)
     ∧ result (RBACService.checkPermission ts tc user permission resource)
              RBACService.new
       = Returns (deny Reason.PermissionNotGrantedToRole))
  ∧ (User.isActive user = true →
     User.role user ∈ Object_prototype_properties →
     result (RoleBasedAccessControl.checkPermission ts tc user permission resource)
            RoleBasedAccessControl.new
     = Throws (TypeError "rolePermissions.includes is not a function")
     ∧ result (RBACService.checkPermission ts tc user permission resource)
              RBACService.new
       = Throws (TypeError "rolePermissions.includes is not a function"))
  ∧ ((∃ e, result (RoleBasedAccessControl.checkPermission_of ts tc
                     subject permission resource)
                  RoleBasedAccessControl.new = Throws e)
     ↔ subject = None
       ∨ ∃ u, subject = Some u ∧ User.isActive u = true
              ∧ User.role u ∈ Object_prototype_properties)
  ∧ ((∃ e, result (RBACService.checkPermission_of ts tc
                     subject permission resource)
                  RBACService.new = Throws e)
     ↔ subject = None
       ∨ ∃ u, subject = Some u ∧ User.isActive u = true
              ∧ User.role u ∈ Object_prototype_properties).
Proof.
  split; [| split; [| split; [| split; [| split; [| split]]]]].
  - intros Habsent.
    unfold TeacherService.checkPermission, TeacherService.getUserById.
    run_method. rewrite Habsent. reflexivity.
  - intros Habsent. unfold AuthContext.checkPermission.
    run_method. rewrite Habsent. reflexivity.
  - intros Hon Hrole Hown.
    destruct (checkPermission_unknown_role ts tc user permission resource
                Hon Hrole) as [-> ->].
    rewrite bool_decide_eq_false_2 by exact Hown. split; reflexivity.
  - intros Hon Hrole Hperm.
    destruct (table_of_known_role _ Hrole) as (perms & Hentry & Hsub).
    rewrite (standalone_new _ _ _ _ _ perms Hon Hentry).
    rewrite (service_new _ _ _ _ _ perms Hon Hentry).
    assert (Hout : includes perms permission = false).
    { apply includes_not_elem_of. intros Hin. apply Hperm, Hsub, Hin. }
    rewrite Hout. split; reflexivity.
  - intros Hon Hrole.
    destruct (checkPermission_unknown_role ts tc user permission resource
                Hon (inherited_is_no_role _ Hrole)) as [-> ->].
    rewrite bool_decide_eq_true_2 by exact Hrole. split; reflexivity.
  - destruct subject as [u |]; unfold RoleBasedAccessControl.checkPermission_of.
    + rewrite (proj1 (checkPermission_throws ts tc u permission resource)).
      split.
      * intros Hu. right. exists u. split; [reflexivity | exact Hu].
      * intros [Hnull | (u' & Heq & Hu)]; [discriminate Hnull |].
        injection Heq as <-. exact Hu.
    + split; [intros _; left; reflexivity | intros _; eexists; reflexivity].
  - destruct subject as [u |]; unfold RBACService.checkPermission_of.
    + rewrite (proj2 (checkPermission_throws ts tc u permission resource)).
      split.
      * intros Hu. right. exists u. split; [reflexivity | exact Hu].
      * intros [Hnull | (u' & Heq & Hu)]; [discriminate Hnull |].
        injection Heq as <-. exact Hu.
    + split; [intros _; left; reflexivity | intros _; eexists; reflexivity].
Qed.

Lemma malformed_input_outcomes_witness :
  TeacherService.checkPermission "teacher9" Permission.VIEW_STUDENTS None
    (TeacherService.new 0)
  = (Returns (deny Reason.UserNotFound), TeacherService.new 0)
  ∧ AuthContext.checkPermission Permission.VIEW_STUDENTS None
      (AuthContext.mk None RBACService.new)
    = (Returns (deny Reason.LoginRequired), AuthContext.mk None RBACService.new)
  ∧ result (RoleBasedAccessControl.checkPermission
              RoleBasedAccessControl.isTeachingStudent
              RoleBasedAccessControl.isTeachingClass
              substitute_teacher Permission.VIEW_STUDENTS None)
           RoleBasedAccessControl.new
    = Returns (deny Reason.PermissionNotGrantedToRole)
  ∧ result (RBACService.checkPermission
              RBACService.isTeachingStudent
              RBACService.isTeachingClass
              teacher1 "grade_everything" None)
           RBACService.new
    = Returns (deny Reason.PermissionNotGrantedToRole)
  ∧ result (RoleBasedAccessControl.checkPermission
              RoleBasedAccessControl.isTeachingStudent
              RoleBasedAccessControl.isTeachingClass
              constructor_teacher Permission.VIEW_STUDENTS None)
           RoleBasedAccessControl.new
    = Throws (TypeError "rolePermissions.includes is not a function")
  ∧ (∃ e, result (RoleBasedAccessControl.checkPermission_of
                    RoleBasedAccessControl.isTeachingStudent
                    RoleBasedAccessControl.isTeachingClass
                    None Permission.VIEW_STUDENTS None)
                 RoleBasedAccessControl.new = Throws e)
  ∧ ¬ (∃ e, result (RBACService.checkPermission_of
                      RBACService.isTeachingStudent
                      RBACService.isTeachingClass
                      (Some substitute_teacher) Permission.VIEW_STUDENTS None)
                   RBACService.new = Throws e).
Proof.
  split; [| split; [| split; [| split; [| split; [| split]]]]].
  - apply (proj1 (malformed_input_outcomes
                    RoleBasedAccessControl.isTeachingStudent
                    RoleBasedAccessControl.isTeachingClass
                    teacher1 None "teacher9" Permission.VIEW_STUDENTS None
                    (TeacherService.new 0)
                    (AuthContext.mk None RBACService.new))).
    reflexivity.
  - apply (proj1 (proj2 (malformed_input_outcomes
                    RoleBasedAccessControl.isTeachingStudent
                    RoleBasedAccessControl.isTeachingClass
                    teacher1 None "teacher9" Permission.VIEW_STUDENTS None
                    (TeacherService.new 0)
                    (AuthContext.mk None RBACService.new)))).
    reflexivity.
  - apply (proj1 (proj2 (proj2 (malformed_input_outcomes
                    RoleBasedAccessControl.isTeachingStudent
                    RoleBasedAccessControl.isTeachingClass
                    substitute_teacher None "teacher9" Permission.VIEW_STUDENTS None
                    (TeacherService.new 0)
                    (AuthContext.mk None RBACService.new))))).
    + reflexivity.
    + decide_closed.
    + decide_closed.
  - apply (proj1 (proj2 (proj2 (proj2 (malformed_input_outcomes
                    RoleBasedAccessControl.isTeachingStudent
                    RoleBasedAccessControl.isTeachingClass
                    teacher1 None "teacher9" "grade_everything" None
                    (TeacherService.new 0)
                    (AuthContext.mk None RBACService.new)))))).
    + reflexivity.
    + decide_closed.
    + decide_closed.
  - apply (proj1 (proj2 (proj2 (proj2 (proj2 (malformed_input_outcomes
                    RoleBasedAccessControl.isTeachingStudent
                    RoleBasedAccessControl.isTeachingClass
                    constructor_teacher None "teacher9" Permission.VIEW_STUDENTS None
                    (TeacherService.new 0)
                    (AuthContext.mk None RBACService.new))))))).
    + reflexivity.
    + decide_closed.
  - apply (proj1 (proj2 (proj2 (proj2 (proj2 (proj2 (malformed_input_outcomes
                    RoleBasedAccessControl.isTeachingStudent
                    RoleBasedAccessControl.isTeachingClass
                    teacher1 None "teacher9" Permission.VIEW_STUDENTS None
                    (TeacherService.new 0)
                    (AuthContext.mk None RBACService.new)))))))).
    left. reflexivity.
  - intros Hthrows.
    apply (proj2 (proj2 (proj2 (proj2 (proj2 (proj2 (malformed_input_outcomes
                    RBACService.isTeachingStudent
                    RBACService.isTeachingClass
                    teacher1 (Some substitute_teacher) "teacher9"
                    Permission.VIEW_STUDENTS None
                    (TeacherService.new 0)
                    (AuthContext.mk None RBACService.new)))))))) in Hthrows.
    destruct Hthrows as [Hnull | (u & Heq & _ & Hrole)]; [discriminate Hnull |].
    injection Heq as <-. revert Hrole. decide_closed.
Defined.

(** ** Screens *)

Lemma screen_not_mapped (screenName : string) :
  screenName ∉ mapped_screens → RBACService.screenPermissions !! screenName = None.
Proof.
  intros Hout. unfold mapped_screens in Hout. unfold RBACService.screenPermissions.
  repeat (rewrite lookup_insert_ne by (intros <-; apply Hout; set_solver)).
  apply lookup_singleton_ne. intros <-. apply Hout. set_solver.
Qed.

Lemma inherited_is_no_screen (screenName : string) :
  screenName ∈ Object_prototype_properties → screenName ∉ mapped_screens.
Proof. revert screenName. apply Forall_forall. decide_closed. Qed.

(** For a screen name that is neither mapped nor the name of an inherited
    property, [canAccessScreen] returns true for every user, active or not,
    on every object, and checks no permission. *)
Lemma canAccessScreen_unmapped
    (ts tc : User.t → string → bool) (user : User.t) (screenName : string)
    (this : RBACService.t) :
  screenName ∉ mapped_screens →
  screenName ∉ Object_prototype_properties →
  RBACService.canAccessScreen ts tc user screenName this = (Returns true, this).
Proof.
  intros Hout Hown. unfold RBACService.canAccessScreen, get_property.
  rewrite (screen_not_mapped _ Hout).
  rewrite bool_decide_eq_false_2 by exact Hown. reflexivity.
Qed.

(** C10: the screen names the lookup [screenPermissions[screenName]] misses.
    A name that is not one of the nine mapped screens but names a property
    inherited from [Object.prototype] does not reach [return true]: the
    lookup yields the inherited member, and calling [some] on it throws, for
    every user and on every object. *)
Theorem canAccessScreen_throws_on_inherited_name
    (ts tc : User.t → string → bool) (user : User.t) (screenName : string)
    (this : RBACService.t) :
  screenName ∈ Object_prototype_properties →
  (screenName ∉ mapped_screens)
  ∧ RBACService.canAccessScreen ts tc user screenName this
    = (Throws (TypeError "requiredPermissions.some is not a function"), this).
Proof.
  intros Hinherited.
  pose proof (inherited_is_no_screen _ Hinherited) as Hout.
  split; [exact Hout |].
  unfold RBACService.canAccessScreen, get_property.
  rewrite (screen_not_mapped _ Hout).
  rewrite bool_decide_eq_true_2 by exact Hinherited. reflexivity.
Qed.

Lemma canAccessScreen_throws_on_inherited_name_witness :
  ("constructor" ∉ mapped_screens)
  ∧ RBACService.canAccessScreen
      RBACService.isTeachingStudent RBACService.isTeachingClass
      teacher1 "constructor" RBACService.new
    = (Throws (TypeError "requiredPermissions.some is not a function"),
       RBACService.new).
Proof.
  apply (canAccessScreen_throws_on_inherited_name
           RBACService.isTeachingStudent RBACService.isTeachingClass
           teacher1 "constructor" RBACService.new).
  decide_closed.
Defined.

(** * Further properties of the two access-control classes *)

(** ** What an allowed decision guarantees *)

(** X1: [checkPermission] allows only what the role table grants: when
    either class returns an allowed decision, the subject is active and the
    permission is in the table entry of the subject's role, whatever the
    table, the resource and the teaching lookups. *)
Theorem allowed_only_if_granted
    (ts tc : User.t → string → bool) (user : User.t) (permission : string)
    (resource : option Resource.t)
    (standalone : RoleBasedAccessControl.t) (service : RBACService.t) :
  (decision (result (RoleBasedAccessControl.checkPermission ts tc user permission resource)
                    standalone) = Some true →
   User.isActive user = true
   ∧ ∃ perms, RoleBasedAccessControl.rolePermissions standalone !! User.role user
              = Some perms ∧ permission ∈ perms)
  ∧ (decision (result (RBACService.checkPermission ts tc user permission resource)
                      service) = Some true →
     User.isActive user = true
     ∧ ∃ perms, RBACService.rolePermissions service !! User.role user
                = Some perms ∧ permission ∈ perms).
Proof.
  unfold result, RoleBasedAccessControl.checkPermission, RBACService.checkPermission,
    RoleBasedAccessControl.getRolePermissions, RBACService.getRolePermissions.
  destruct (User.isActive user); [| split; intros H; discriminate H].
  run_method. unfold get_property.
  split; intros Hallowed; (split; [reflexivity |]).
  - destruct (RoleBasedAccessControl.rolePermissions standalone !! User.role user)
      as [perms |]; cbn in Hallowed.
    + exists perms. split; [reflexivity |].
      destruct (includes perms permission) eqn:Hin; cbn in Hallowed;
        [apply includes_elem_of, Hin | discriminate Hallowed].
    + destruct (bool_decide _); cbn in Hallowed; discriminate Hallowed.
  - destruct (RBACService.rolePermissions service !! User.role user)
      as [perms |]; cbn in Hallowed.
    + exists perms. split; [reflexivity |].
      destruct (includes perms permission) eqn:Hin; cbn in Hallowed;
        [apply includes_elem_of, Hin | discriminate Hallowed].
    + destruct (bool_decide _); cbn in Hallowed; discriminate Hallowed.
Qed.

Lemma allowed_only_if_granted_witness :
  (User.isActive teacher2 = true
   ∧ ∃ perms, RoleBasedAccessControl.rolePermissions RoleBasedAccessControl.new
              !! User.role teacher2 = Some perms
              ∧ Permission.MANAGE_GRADES ∈ perms)
  ∧ (User.isActive teacher2 = true
     ∧ ∃ perms, RBACService.rolePermissions RBACService.new
                !! User.role teacher2 = Some perms
                ∧ Permission.MANAGE_GRADES ∈ perms).
Proof.
  split.
  - apply (proj1 (allowed_only_if_granted
                    RoleBasedAccessControl.isTeachingStudent
                    RoleBasedAccessControl.isTeachingClass
                    teacher2 Permission.MANAGE_GRADES (of_subject "math")
                    RoleBasedAccessControl.new RBACService.new)).
    reflexivity.
  - apply (proj2 (allowed_only_if_granted
                    RoleBasedAccessControl.isTeachingStudent
                    RoleBasedAccessControl.isTeachingClass
                    teacher2 Permission.MANAGE_GRADES (of_subject "math")
                    RoleBasedAccessControl.new RBACService.new)).
    reflexivity.
Defined.

(** ** The standalone script is the stricter of the two *)

Lemma checkResourceAccess_service_allows
    (ts tc : User.t → string → bool) (user : User.t) (permission : string)
    (resource : option Resource.t) :
  allowed (RoleBasedAccessControl.checkResourceAccess ts tc user permission resource)
  = true →
  allowed (RBACService.checkResourceAccess ts tc user permission resource) = true.
Proof.
  unfold RoleBasedAccessControl.checkResourceAccess, RBACService.checkResourceAccess,
    RoleBasedAccessControl.general_teacher_cases, RBACService.general_teacher_cases,
    RoleBasedAccessControl.homeroom_teacher_cases, RBACService.homeroom_teacher_cases.
  destruct (String.eqb (User.role user) TeacherRole.GENERAL_TEACHER).
  - destruct (String.eqb permission Permission.MANAGE_GRADES);
      [destruct (and_then _ _); intros H; exact H |].
    destruct (String.eqb permission Permission.CONDUCT_COUNSELING);
      [destruct (and_then _ _); intros H; exact H |].
    destruct (String.eqb permission Permission.VIEW_STUDENTS
              || String.eqb permission Permission.VIEW_GRADES
              || String.eqb permission Permission.VIEW_ATTENDANCE);
      [destruct (and_then _ _); intros _; reflexivity |].
    destruct (String.eqb (User.role user) TeacherRole.HOMEROOM_TEACHER);
      [| intros H; exact H].
    destruct (String.eqb permission Permission.MANAGE_CLASS
              || String.eqb permission Permission.MANAGE_STUDENTS
              || String.eqb permission Permission.EDIT_STUDENT_INFO);
      [| intros H; exact H].
    destruct (and_then _ _); [intros _; reflexivity |].
    intros H; discriminate H.
  - destruct (String.eqb (User.role user) TeacherRole.HOMEROOM_TEACHER);
      [| intros H; exact H].
    destruct (String.eqb permission Permission.MANAGE_CLASS
              || String.eqb permission Permission.MANAGE_STUDENTS
              || String.eqb permission Permission.EDIT_STUDENT_INFO);
      [| intros H; exact H].
    destruct (and_then _ _); [intros _; reflexivity |].
    intros H; discriminate H.
Qed.

(** X2: whatever the standalone [RoleBasedAccessControl] allows, the
    [RBACService] allows too, on every user, permission and resource and
    with every pair of teaching lookups: the two classes differ only by
    requests the script denies and the service allows. *)
Theorem service_allows_what_standalone_allows
    (ts tc : User.t → string → bool) (user : User.t) (permission : string)
    (resource : option Resource.t) :
  decision (result (RoleBasedAccessControl.checkPermission ts tc user permission resource)
                   RoleBasedAccessControl.new) = Some true →
  decision (result (RBACService.checkPermission ts tc user permission resource)
                   RBACService.new) = Some true.
Proof.
  unfold result, RoleBasedAccessControl.checkPermission, RBACService.checkPermission,
    RoleBasedAccessControl.getRolePermissions, RBACService.getRolePermissions.
  destruct (User.isActive user); [| intros H; exact H].
  run_method. rewrite standalone_table, service_table.
  destruct (get_property _ (User.role user)) as [perms | key |]; cbn;
    [| intros H; exact H | intros H; exact H].
  destruct (includes perms permission); cbn; [| intros H; exact H].
  intros H. injection H as H. f_equal.
  apply checkResourceAccess_service_allows, H.
Qed.

Lemma service_allows_what_standalone_allows_witness :
  decision (result (RBACService.checkPermission
                      RoleBasedAccessControl.isTeachingStudent
                      RoleBasedAccessControl.isTeachingClass
                      teacher1 Permission.MANAGE_STUDENTS (of_class "class-3-1"))
                   RBACService.new) = Some true.
Proof.
  apply (service_allows_what_standalone_allows
           RoleBasedAccessControl.isTeachingStudent
           RoleBasedAccessControl.isTeachingClass
           teacher1 Permission.MANAGE_STUDENTS (of_class "class-3-1")).
  reflexivity.
Defined.

(** ** Homeroom teachers outside class management *)

Lemma homeroom_unrestricted
    (ts tc : User.t → string → bool) (user : User.t) (permission : string)
    (resource : option Resource.t) :
  User.isActive user = true →
  User.role user = TeacherRole.HOMEROOM_TEACHER →
  permission ∈ Permission.values →
  permission ∉ class_management_permissions →
  result (RoleBasedAccessControl.checkPermission ts tc user permission resource)
         RoleBasedAccessControl.new = Returns allow
  ∧ result (RBACService.checkPermission ts tc user permission resource)
           RBACService.new = Returns allow.
Proof.
  intros Hon Hrole Hperm Hfree.
  rewrite (standalone_new _ _ _ _ _ homeroom_teacher_permissions Hon)
    by (rewrite Hrole; apply table_homeroom).
  rewrite (service_new _ _ _ _ _ homeroom_teacher_permissions Hon)
    by (rewrite Hrole; apply table_homeroom).
  assert (Hin : includes homeroom_teacher_permissions permission = true)
    by (apply includes_elem_of, Hperm).
  rewrite Hin.
  unfold RoleBasedAccessControl.checkResourceAccess, RBACService.checkResourceAccess,
    RoleBasedAccessControl.homeroom_teacher_cases, RBACService.homeroom_teacher_cases.
  rewrite Hrole.
  change (String.eqb TeacherRole.HOMEROOM_TEACHER TeacherRole.GENERAL_TEACHER)
    with false.
  change (String.eqb TeacherRole.HOMEROOM_TEACHER TeacherRole.HOMEROOM_TEACHER)
    with true.
  cbv iota.
  destruct (String.eqb permission Permission.MANAGE_CLASS
            || String.eqb permission Permission.MANAGE_STUDENTS
            || String.eqb permission Permission.EDIT_STUDENT_INFO) eqn:Hcase.
  - exfalso. apply Hfree, class_management_permission_cases, Hcase.
  - split; reflexivity.
Qed.

(** X3: an active homeroom teacher is allowed every permission of the
    enumeration other than ManageClass, ManageStudents and EditStudentInfo,
    by both classes, on every resource and with every teaching lookup: no
    resource rule narrows these permissions for the role. *)
Theorem homeroom_teacher_unrestricted_permissions
    (ts tc : User.t → string → bool) (user : User.t) (permission : string)
    (resource : option Resource.t) :
  User.isActive user = true →
  User.role user = TeacherRole.HOMEROOM_TEACHER →
  permission ∈ Permission.values →
  permission ∉ class_management_permissions →
  result (RoleBasedAccessControl.checkPermission ts tc user permission resource)
         RoleBasedAccessControl.new = Returns allow
  ∧ result (RBACService.checkPermission ts tc user permission resource)
           RBACService.new = Returns allow.
Proof. apply homeroom_unrestricted. Qed.

Lemma homeroom_teacher_unrestricted_permissions_witness :
  result (RoleBasedAccessControl.checkPermission
            RoleBasedAccessControl.isTeachingStudent
            RoleBasedAccessControl.isTeachingClass
            teacher1 Permission.EXPORT_GRADES (of_class "class-9-9"))
         RoleBasedAccessControl.new = Returns allow
  ∧ result (RBACService.checkPermission
              RoleBasedAccessControl.isTeachingStudent
              RoleBasedAccessControl.isTeachingClass
              teacher1 Permission.EXPORT_GRADES (of_class "class-9-9"))
           RBACService.new = Returns allow.
Proof.
  apply (homeroom_teacher_unrestricted_permissions
           RoleBasedAccessControl.isTeachingStudent
           RoleBasedAccessControl.isTeachingClass
           teacher1 Permission.EXPORT_GRADES (of_class "class-9-9")).
  - reflexivity.
  - reflexivity.
  - decide_closed.
  - decide_closed.
Defined.

(** ** Empty identifiers and empty resources *)

Lemma and_then_normalize_field (v : option string) (test : string → bool) :
  and_then (normalize_field v) test = and_then v test.
Proof.
  unfold and_then, normalize_field. destruct v as [s |]; [| reflexivity].
  destruct (String.eqb s "") eqn:Hs; [reflexivity |].
  rewrite Hs. reflexivity.
Qed.

Lemma truthy_normalize_field (v : option string) :
  truthy (normalize_field v) = truthy v.
Proof.
  unfold truthy, normalize_field. destruct v as [s |]; [| reflexivity].
  destruct (String.eqb s "") eqn:Hs; [reflexivity |].
  rewrite Hs. reflexivity.
Qed.

Lemma opt_field_normalize (resource : option Resource.t) :
  opt_field Resource.classId (normalize resource)
  = normalize_field (opt_field Resource.classId resource)
  ∧ opt_field Resource.subjectId (normalize resource)
    = normalize_field (opt_field Resource.subjectId resource)
  ∧ opt_field Resource.studentId (normalize resource)
    = normalize_field (opt_field Resource.studentId resource).
Proof.
  destruct resource as [[c s t] |]; [| repeat split; reflexivity].
  unfold normalize. cbn.
  destruct (normalize_field c), (normalize_field s), (normalize_field t);
    repeat split; reflexivity.
Qed.

(** X4: the checks cannot tell an empty identifier from a missing one, nor
    a resource without identifiers from no resource.  For both classes,
    replacing every empty-string [classId], [subjectId] or [studentId] by a
    missing property, and a resource left without any of the three by no
    resource at all, does not change the outcome of [checkPermission]. *)
Theorem checkPermission_ignores_empty_identifiers
    (ts tc : User.t → string → bool) (user : User.t) (permission : string)
    (resource : option Resource.t)
    (standalone : RoleBasedAccessControl.t) (service : RBACService.t) :
  RoleBasedAccessControl.checkPermission ts tc user permission (normalize resource)
    standalone
  = RoleBasedAccessControl.checkPermission ts tc user permission resource standalone
  ∧ RBACService.checkPermission ts tc user permission (normalize resource) service
    = RBACService.checkPermission ts tc user permission resource service.
Proof.
  destruct (opt_field_normalize resource) as (Hc & Hs & Ht).
  assert (Hstandalone :
    RoleBasedAccessControl.checkResourceAccess ts tc user permission (normalize resource)
    = RoleBasedAccessControl.checkResourceAccess ts tc user permission resource).
  { unfold RoleBasedAccessControl.checkResourceAccess,
      RoleBasedAccessControl.general_teacher_cases,
      RoleBasedAccessControl.homeroom_teacher_cases.
    rewrite Hc, Hs, Ht, !and_then_normalize_field. reflexivity. }
  assert (Hservice :
    RBACService.checkResourceAccess ts tc user permission (normalize resource)
    = RBACService.checkResourceAccess ts tc user permission resource).
  { unfold RBACService.checkResourceAccess, RBACService.general_teacher_cases,
      RBACService.homeroom_teacher_cases.
    rewrite Hc, Hs, Ht, !and_then_normalize_field, truthy_normalize_field.
    reflexivity. }
  unfold RoleBasedAccessControl.checkPermission, RBACService.checkPermission.
  rewrite Hstandalone, Hservice. split; reflexivity.
Qed.

(** ** Which fields of the user matter *)

Lemma and_then_ext (v : option string) (test1 test2 : string → bool) :
  (∀ s, test1 s = test2 s) → and_then v test1 = and_then v test2.
Proof.
  intros Hext. unfold and_then. destruct v as [s |]; [| reflexivity].
  rewrite Hext. reflexivity.
Qed.

(** X5: the decision depends on the user only through [role], [isActive],
    [classId] and [subjectIds].  Two users that agree on these four fields,
    and on whom the teaching lookups answer alike, get the same outcome
    from both classes for every permission and resource; [id], [name],
    [email], [profileImage] and [createdAt] are never looked at. *)
Theorem decision_depends_on_four_fields
    (ts tc : User.t → string → bool) (user1 user2 : User.t) (permission : string)
    (resource : option Resource.t)
    (standalone : RoleBasedAccessControl.t) (service : RBACService.t) :
  User.role user1 = User.role user2 →
  User.isActive user1 = User.isActive user2 →
  User.classId user1 = User.classId user2 →
  User.subjectIds user1 = User.subjectIds user2 →
  (∀ studentId, ts user1 studentId = ts user2 studentId) →
  (∀ classId, tc user1 classId = tc user2 classId) →
  RoleBasedAccessControl.checkPermission ts tc user1 permission resource standalone
  = RoleBasedAccessControl.checkPermission ts tc user2 permission resource standalone
  ∧ RBACService.checkPermission ts tc user1 permission resource service
    = RBACService.checkPermission ts tc user2 permission resource service.
Proof.
  intros Hrole Hactive Hclass Hsubjects Hts Htc.
  unfold RoleBasedAccessControl.checkPermission, RBACService.checkPermission,
    RoleBasedAccessControl.checkResourceAccess, RBACService.checkResourceAccess,
    RoleBasedAccessControl.general_teacher_cases, RBACService.general_teacher_cases,
    RoleBasedAccessControl.homeroom_teacher_cases, RBACService.homeroom_teacher_cases.
  rewrite Hrole, Hactive, Hclass, Hsubjects.
  rewrite (and_then_ext _ (ts user1) (ts user2) Hts).
  rewrite (and_then_ext _ (tc user1) (tc user2) Htc).
  split; reflexivity.
Qed.

Lemma decision_depends_on_four_fields_witness :
  RoleBasedAccessControl.checkPermission
    RoleBasedAccessControl.isTeachingStudent RoleBasedAccessControl.isTeachingClass
    teacher2 Permission.MANAGE_GRADES (of_subject "math") RoleBasedAccessControl.new
  = RoleBasedAccessControl.checkPermission
      RoleBasedAccessControl.isTeachingStudent RoleBasedAccessControl.isTeachingClass
      (User.mk "teacher5" "익명" "anonymous@school.edu" TeacherRole.GENERAL_TEACHER
               None (Some ["math"; "science"]) (Some "avatar.png") 42 true)
      Permission.MANAGE_GRADES (of_subject "math") RoleBasedAccessControl.new
  ∧ RBACService.checkPermission
      RoleBasedAccessControl.isTeachingStudent RoleBasedAccessControl.isTeachingClass
      teacher2 Permission.MANAGE_GRADES (of_subject "math") RBACService.new
    = RBACService.checkPermission
        RoleBasedAccessControl.isTeachingStudent RoleBasedAccessControl.isTeachingClass
        (User.mk "teacher5" "익명" "anonymous@school.edu" TeacherRole.GENERAL_TEACHER
                 None (Some ["math"; "science"]) (Some "avatar.png") 42 true)
        Permission.MANAGE_GRADES (of_subject "math") RBACService.new.
Proof.
  apply (decision_depends_on_four_fields
           RoleBasedAccessControl.isTeachingStudent
           RoleBasedAccessControl.isTeachingClass
           teacher2
           (User.mk "teacher5" "익명" "anonymous@school.edu" TeacherRole.GENERAL_TEACHER
                    None (Some ["math"; "science"]) (Some "avatar.png") 42 true)
           Permission.MANAGE_GRADES (of_subject "math")
           RoleBasedAccessControl.new RBACService.new); reflexivity.
Defined.

(** ** Which screens a role opens *)

(** Every mapped screen asks for a single permission: the answer is the
    [allowed] field of the check made without a resource. *)
Lemma canAccessScreen_single_permission
    (ts tc : User.t → string → bool) (user : User.t) (screenName permission : string)
    (this : RBACService.t) (d : AuthorizationResult) :
  RBACService.screenPermissions !! screenName = Some [permission] →
  result (RBACService.checkPermission ts tc user permission None) this = Returns d →
  result (RBACService.canAccessScreen ts tc user screenName) this
  = Returns (allowed d).
Proof.
  intros Hscreen Hcheck.
  pose proof (service_checkPermission_after ts tc user permission None this) as Hafter.
  unfold result, after in *.
  unfold RBACService.canAccessScreen.
  rewrite (get_property_own _ _ _ Hscreen). cbn [some].
  run_method.
  destruct (RBACService.checkPermission ts tc user permission None this) as [r this'].
  cbn in Hcheck, Hafter |- *. subst r this'.
  destruct (allowed d); reflexivity.
Qed.

Lemma screen_permission (screenName : string) :
  screenName ∈ mapped_screens →
  ∃ permission,
    RBACService.screenPermissions !! screenName = Some [permission]
    ∧ permission ∈ Permission.values
    ∧ (permission ∈ view_permissions ↔ screenName ∈ viewing_screens)
    ∧ (permission ∈ general_teacher_permissions →
       permission ∈ view_permissions ∨ permission = Permission.MANAGE_GRADES).
Proof.
  intros Hscreen. unfold mapped_screens in Hscreen.
  repeat (apply elem_of_cons in Hscreen as [-> | Hscreen];
          [eexists; split; [reflexivity |];
           split; [decide_closed |];
           split; [split; intros H; try decide_closed;
                   exfalso; revert H; decide_closed |];
           intros H; first [left; decide_closed | right; reflexivity
                           | exfalso; revert H; decide_closed] |]).
  inversion Hscreen.
Qed.

(** X6: what [canAccessScreen] answers on the nine mapped screens.  An
    inactive user is shown none of them; an active homeroom teacher is shown
    all nine; an active general teacher is shown exactly Students,
    StudentDetail, Grades and Attendance, and so neither AddGrade nor
    EditGrade, although the role holds ManageGrades: the check is made
    without a resource, which the ManageGrades rule denies. *)
Theorem screens_by_role
    (ts tc : User.t → string → bool) (user : User.t) (screenName : string) :
  screenName ∈ mapped_screens →
  (User.isActive user = false →
   result (RBACService.canAccessScreen ts tc user screenName) RBACService.new
   = Returns false)
  ∧ (User.isActive user = true →
     User.role user = TeacherRole.HOMEROOM_TEACHER →
     result (RBACService.canAccessScreen ts tc user screenName) RBACService.new
     = Returns true)
  ∧ (User.isActive user = true →
     User.role user = TeacherRole.GENERAL_TEACHER →
     result (RBACService.canAccessScreen ts tc user screenName) RBACService.new
     = Returns (bool_decide (screenName ∈ viewing_screens))).
Proof.
  intros Hscreen.
  destruct (screen_permission _ Hscreen)
    as (permission & Hentry & Hvalue & Hviewing & Hgeneral).
  split; [| split].
  - intros Hoff.
    apply (canAccessScreen_single_permission _ _ _ _ _ _
             (deny Reason.SubjectInactive) Hentry).
    unfold result. rewrite (service_inactive _ _ _ _ _ _ Hoff). reflexivity.
  - intros Hon Hrole.
    apply (canAccessScreen_single_permission _ _ _ _ _ _ allow Hentry).
    destruct (decide (permission ∈ class_management_permissions)) as [Hmanage | Hfree].
    + apply (service_homeroom_class_rule ts tc user permission None Hon Hrole Hmanage).
      intros c [Hc _]. discriminate Hc.
    + apply (homeroom_unrestricted ts tc user permission None Hon Hrole Hvalue Hfree).
  - intros Hon Hrole.
    rewrite (canAccessScreen_single_permission _ _ _ _ _ _
               (if includes general_teacher_permissions permission
                then RBACService.checkResourceAccess ts tc user permission None
                else deny Reason.PermissionNotGrantedToRole) Hentry)
      by (apply service_new; [exact Hon | rewrite Hrole; apply table_general]).
    f_equal.
    destruct (includes general_teacher_permissions permission) eqn:Hin.
    + apply includes_elem_of, Hgeneral in Hin as [Hview | ->].
      * rewrite (service_general_view _ _ _ _ _ Hrole Hview).
        symmetry. apply bool_decide_eq_true_2, Hviewing, Hview.
      * rewrite (service_general_manage_grades _ _ _ _ Hrole). cbn.
        symmetry. apply bool_decide_eq_false_2. intros Hyes.
        apply Hviewing in Hyes. revert Hyes. decide_closed.
    + cbn. symmetry. apply bool_decide_eq_false_2. intros Hyes.
      apply Hviewing, view_permissions_general in Hyes. congruence.
Qed.

Lemma screens_by_role_witness :
  result (RBACService.canAccessScreen
            RBACService.isTeachingStudent RBACService.isTeachingClass
            inactive_teacher1 "Students") RBACService.new = Returns false
  ∧ result (RBACService.canAccessScreen
              RBACService.isTeachingStudent RBACService.isTeachingClass
              teacher1 "EditStudent") RBACService.new = Returns true
  ∧ result (RBACService.canAccessScreen
              RBACService.isTeachingStudent RBACService.isTeachingClass
              teacher2 "AddGrade") RBACService.new
    = Returns (bool_decide ("AddGrade" ∈ viewing_screens)).
Proof.
  split; [| split].
  - apply (proj1 (screens_by_role
                    RBACService.isTeachingStudent RBACService.isTeachingClass
                    inactive_teacher1 "Students" ltac:(decide_closed))).
    reflexivity.
  - apply (proj1 (proj2 (screens_by_role
                    RBACService.isTeachingStudent RBACService.isTeachingClass
                    teacher1 "EditStudent" ltac:(decide_closed)))); reflexivity.
  - apply (proj2 (proj2 (screens_by_role
                    RBACService.isTeachingStudent RBACService.isTeachingClass
                    teacher2 "AddGrade" ltac:(decide_closed)))); reflexivity.
Defined.

(** * The standalone script as an object graph *)

(** ** Insertion-ordered maps *)

Lemma JsMap_get_set_eq {A : Type} (key : string) (value : A) (m : JsMap.t A) :
  JsMap.get key (JsMap.set key value m) = Some value.
Proof.
  induction m as [| [k v] rest IH]; cbn.
  - rewrite String.eqb_refl. reflexivity.
  - destruct (String.eqb k key) eqn:Hk; cbn; rewrite Hk; [reflexivity | exact IH].
Qed.

Lemma JsMap_get_set_ne {A : Type} (key other : string) (value : A) (m : JsMap.t A) :
  key ≠ other →
  JsMap.get other (JsMap.set key value m) = JsMap.get other m.
Proof.
  intros Hne. induction m as [| [k v] rest IH]; cbn.
  - apply String.eqb_neq in Hne. rewrite Hne. reflexivity.
  - destruct (String.eqb k key) eqn:Hk; cbn.
    + apply String.eqb_eq in Hk as ->.
      apply String.eqb_neq in Hne. rewrite Hne. reflexivity.
    + rewrite IH. reflexivity.
Qed.

Lemma JsMap_set_same {A : Type} (key : string) (value : A) (m : JsMap.t A) :
  JsMap.get key m = Some value → JsMap.set key value m = m.
Proof.
  induction m as [| [k v] rest IH]; cbn; [discriminate |].
  destruct (String.eqb k key) eqn:Hk.
  - intros [= ->]. reflexivity.
  - intros Hget. rewrite (IH Hget). reflexivity.
Qed.

Lemma JsMap_get_None {A : Type} (key : string) (m : JsMap.t A) :
  JsMap.get key m = None ↔ key ∉ JsMap.keys m.
Proof.
  unfold JsMap.keys. induction m as [| [k v] rest IH]; cbn.
  - split; [intros _ H; inversion H | reflexivity].
  - rewrite not_elem_of_cons. destruct (String.eqb_spec k key) as [-> | Hk].
    + split; [discriminate | intros [Hne _]; congruence].
    + rewrite IH. split; [intros H; split; [congruence | exact H] | intros [_ H]; exact H].
Qed.

Lemma JsMap_set_new {A : Type} (key : string) (value : A) (m : JsMap.t A) :
  JsMap.get key m = None → JsMap.set key value m = (m ++ [(key, value)])%list.
Proof.
  induction m as [| [k v] rest IH]; cbn; [reflexivity |].
  destruct (String.eqb k key); [discriminate |].
  intros Hget. rewrite (IH Hget). reflexivity.
Qed.

Lemma JsMap_set_present {A : Type} (key : string) (value old : A) (m : JsMap.t A) :
  JsMap.get key m = Some old →
  JsMap.keys (JsMap.set key value m) = JsMap.keys m
  ∧ length (JsMap.values (JsMap.set key value m)) = length (JsMap.values m).
Proof.
  unfold JsMap.keys, JsMap.values.
  induction m as [| [k v] rest IH]; cbn; [discriminate |].
  destruct (String.eqb k key) eqn:Hk; cbn.
  - intros _. split; reflexivity.
  - intros Hget. destruct (IH Hget) as [-> ->]. split; reflexivity.
Qed.

(** ** Permission checks by user id *)

Lemma graph_checkPermission_unknown userId permission resource this :
  JsMap.get userId (SchoolManagementSystem.users this) = None →
  SchoolManagementSystem.Teachers.checkPermission userId permission resource this
  = (Normal (deny Reason.UserNotFound), this).
Proof.
  intros Hget. unfold SchoolManagementSystem.Teachers.checkPermission,
    SchoolManagementSystem.Teachers.getUserById.
  run_script. rewrite Hget. reflexivity.
Qed.

Lemma graph_checkPermission_found userId permission resource this reference user :
  JsMap.get userId (SchoolManagementSystem.users this) = Some reference →
  SchoolManagementSystem.objects this !! reference = Some user →
  SchoolManagementSystem.Teachers.checkPermission userId permission resource this
  = (of_outcome (result (RoleBasedAccessControl.checkPermission
                           RoleBasedAccessControl.isTeachingStudent
                           RoleBasedAccessControl.isTeachingClass
                           user permission resource)
                        (SchoolManagementSystem.rbac this)),
     this).
Proof.
  intros Hget Hobject. unfold SchoolManagementSystem.Teachers.checkPermission,
    SchoolManagementSystem.Teachers.getUserById.
  run_script. rewrite Hget. cbn. rewrite Hobject.
  pose proof (standalone_checkPermission_after
                RoleBasedAccessControl.isTeachingStudent
                RoleBasedAccessControl.isTeachingClass
                user permission resource (SchoolManagementSystem.rbac this)) as Hsame.
  unfold after, result in *.
  destruct (RoleBasedAccessControl.checkPermission _ _ _ _ _ _) as [r rbac'].
  cbn in Hsame |- *. subst rbac'. destruct this; reflexivity.
Qed.

(** ** Looking a user up by email *)

Lemma find_first {A : Type} (f : A → bool) (l : list A) :
  match List.find f l with
  | Some x => ∃ before after,
      l = (before ++ x :: after)%list ∧ f x = true
      ∧ Forall (λ y, f y = false) before
  | None => Forall (λ y, f y = false) l
  end.
Proof.
  induction l as [| y rest IH]; cbn; [constructor |].
  destruct (f y) eqn:Hy.
  - exists [], rest. repeat split; [exact Hy | constructor].
  - destruct (List.find f rest) as [x |].
    + destruct IH as (before & after & -> & Hx & Hbefore).
      exists (y :: before), after. repeat split; [exact Hx |].
      constructor; assumption.
    + constructor; assumption.
Qed.

Lemma email_test (this : SchoolManagementSystem.t) (email : string) (a : nat) :
  match SchoolManagementSystem.objects this !! a with
  | Some user => String.eqb (User.email user) email
  | None => false
  end = true ↔ email_is this email a.
Proof.
  unfold email_is. destruct (SchoolManagementSystem.objects this !! a) as [user |].
  - rewrite String.eqb_eq. split.
    + intros Heq. exists user. split; [reflexivity | exact Heq].
    + intros (user' & [= <-] & Heq). exact Heq.
  - split; [discriminate |]. intros (user & Hnone & _). discriminate Hnone.
Qed.

(** X7: [getUserByEmail] returns the first user, in the order in which the
    ids were first stored, whose email is the given one: every user stored
    before it has another email.  It returns null exactly when no stored
    user has that email.  It never throws and changes nothing. *)
Theorem getUserByEmail_first_match (email : string) (this : SchoolManagementSystem.t) :
  leaves (SchoolManagementSystem.Teachers.getUserByEmail email) this = this
  ∧ match completes (SchoolManagementSystem.Teachers.getUserByEmail email) this with
    | Normal (Some reference) =>
        email_is this email reference
        ∧ ∃ before after,
            JsMap.values (SchoolManagementSystem.users this)
            = (before ++ reference :: after)%list
            ∧ Forall (λ earlier, ¬ email_is this email earlier) before
    | Normal None =>
        Forall (λ reference, ¬ email_is this email reference)
               (JsMap.values (SchoolManagementSystem.users this))
    | Abrupt _ => False
    end.
Proof.
  split; [reflexivity |].
  unfold SchoolManagementSystem.Teachers.getUserByEmail. run_script.
  match goal with |- context [List.find ?f ?l] =>
    pose proof (find_first f l) as Hfind; destruct (List.find f l) as [a |] end.
  - destruct Hfind as (before & after & Hsplit & Hmatch & Hbefore).
    split; [apply email_test, Hmatch |].
    exists before, after. split; [exact Hsplit |].
    eapply Forall_impl; [exact Hbefore |]. cbn. intros b Hb Hyes.
    apply email_test in Hyes. congruence.
  - eapply Forall_impl; [exact Hfind |]. cbn. intros b Hb Hyes.
    apply email_test in Hyes. congruence.
Qed.

(** ** Creating users *)

(** X8: [createUser] stores the new user under the generated id
    [teacher_<clock>] and returns it: a following [getUserById] with that id
    returns the same object, which has the fields of [userData], the
    generated id and the creation time.  Every other id still leads to the
    object it led to, no existing object is changed, and the login state,
    the students and the grades are untouched. *)
Theorem createUser_then_getUserById
    (userData : UserData.t) (clock : N) (created : Z)
    (this : SchoolManagementSystem.t) :
  completes (SchoolManagementSystem.Teachers.createUser userData clock created) this
  = Normal (length (SchoolManagementSystem.objects this))
  ∧ completes (SchoolManagementSystem.Teachers.getUserById ("teacher_" ++ pretty clock))
      (leaves (SchoolManagementSystem.Teachers.createUser userData clock created) this)
    = Normal (Some (length (SchoolManagementSystem.objects this)))
  ∧ SchoolManagementSystem.objects
      (leaves (SchoolManagementSystem.Teachers.createUser userData clock created) this)
    !! length (SchoolManagementSystem.objects this)
    = Some (User.mk ("teacher_" ++ pretty clock)
                    (UserData.name userData) (UserData.email userData)
                    (UserData.role userData) (UserData.classId userData)
                    (UserData.subjectIds userData) None created
                    (UserData.isActive userData))
  ∧ (∀ other,
       other ≠ "teacher_" ++ pretty clock →
       completes (SchoolManagementSystem.Teachers.getUserById other)
         (leaves (SchoolManagementSystem.Teachers.createUser userData clock created) this)
       = completes (SchoolManagementSystem.Teachers.getUserById other) this)
  ∧ (∀ reference,
       reference < length (SchoolManagementSystem.objects this) →
       SchoolManagementSystem.objects
         (leaves (SchoolManagementSystem.Teachers.createUser userData clock created) this)
       !! reference
       = SchoolManagementSystem.objects this !! reference)
  ∧ SchoolManagementSystem.currentUser
      (leaves (SchoolManagementSystem.Teachers.createUser userData clock created) this)
    = SchoolManagementSystem.currentUser this
  ∧ SchoolManagementSystem.students
      (leaves (SchoolManagementSystem.Teachers.createUser userData clock created) this)
    = SchoolManagementSystem.students this
  ∧ SchoolManagementSystem.grades
      (leaves (SchoolManagementSystem.Teachers.createUser userData clock created) this)
    = SchoolManagementSystem.grades this.
Proof.
  unfold SchoolManagementSystem.Teachers.createUser,
    SchoolManagementSystem.Teachers.getUserById.
  run_script. cbn.
  split; [reflexivity |]. split; [rewrite JsMap_get_set_eq; reflexivity |].
  split; [apply list_lookup_middle; reflexivity |].
  split; [intros other Hother; rewrite JsMap_get_set_ne by congruence; reflexivity |].
  split; [intros reference Hold; apply lookup_app_l, Hold |].
  repeat split; reflexivity.
Qed.

Lemma generated_id_inj (clock1 clock2 : N) :
  "teacher_" ++ pretty clock1 = "teacher_" ++ pretty clock2 → clock1 = clock2.
Proof.
  intros Heq. cbn in Heq. injection Heq as Heq.
  exact (pretty_N_inj _ _ Heq).
Qed.

(** X9: the generated ids are as unique as the clock readings.  Two
    [createUser] calls with different readings store two users, each found
    under its own id; two calls with the same reading generate the same id,
    and the second user takes the entry of the first: the [Map] grows by one
    entry only, which leads to the second user. *)
Theorem createUser_ids_follow_the_clock
    (data1 data2 : UserData.t) (clock1 clock2 : N) (created1 created2 : Z)
    (this : SchoolManagementSystem.t) :
  JsMap.get ("teacher_" ++ pretty clock1) (SchoolManagementSystem.users this) = None →
  JsMap.get ("teacher_" ++ pretty clock2) (SchoolManagementSystem.users this) = None →
  (clock1 ≠ clock2 →
   JsMap.values (SchoolManagementSystem.users
     (leaves (SchoolManagementSystem.Teachers.createUser data2 clock2 created2)
        (leaves (SchoolManagementSystem.Teachers.createUser data1 clock1 created1) this)))
   = (JsMap.values (SchoolManagementSystem.users this)
      ++ [length (SchoolManagementSystem.objects this);
          S (length (SchoolManagementSystem.objects this))])%list)
  ∧ (clock1 = clock2 →
     JsMap.values (SchoolManagementSystem.users
       (leaves (SchoolManagementSystem.Teachers.createUser data2 clock2 created2)
          (leaves (SchoolManagementSystem.Teachers.createUser data1 clock1 created1) this)))
     = (JsMap.values (SchoolManagementSystem.users this)
        ++ [S (length (SchoolManagementSystem.objects this))])%list).
Proof.
  intros Hfresh1 Hfresh2.
  unfold SchoolManagementSystem.Teachers.createUser. run_script. cbn.
  rewrite length_app; cbn [length]. rewrite Nat.add_1_r.
  rewrite (JsMap_set_new _ _ _ Hfresh1).
  unfold JsMap.values. split.
  - intros Hne. rewrite JsMap_set_new.
    + rewrite !fmap_app, <- !app_assoc. reflexivity.
    + rewrite <- (JsMap_get_set_ne ("teacher_" ++ pretty clock1)
                    ("teacher_" ++ pretty clock2)
                    (length (SchoolManagementSystem.objects this))
                    (SchoolManagementSystem.users this)) in Hfresh2
        by (intros Heq; apply Hne, generated_id_inj, Heq).
      rewrite (JsMap_set_new _ _ _ Hfresh1) in Hfresh2. exact Hfresh2.
  - intros <-.
    assert (Hset : ∀ (m : JsMap.t nat) key old new,
               JsMap.get key m = None →
               JsMap.set key new (m ++ [(key, old)])%list = (m ++ [(key, new)])%list).
    { clear. induction m as [| [k v] rest IH]; intros key old new Hget; cbn in *.
      - rewrite String.eqb_refl. reflexivity.
      - destruct (String.eqb k key); [discriminate |].
        rewrite (IH _ _ _ Hget). reflexivity. }
    rewrite (Hset _ _ _ _ Hfresh1), !fmap_app. reflexivity.
Qed.

Lemma createUser_ids_follow_the_clock_witness :
  JsMap.values (SchoolManagementSystem.users
    (leaves (SchoolManagementSystem.Teachers.createUser
               (UserData.mk "박수학" "math@school.edu" TeacherRole.GENERAL_TEACHER
                            None (Some ["math"]) true) 1700000000000 1700000000000)
       (leaves (SchoolManagementSystem.Teachers.createUser
                  (UserData.mk "최과학" "science@school.edu" TeacherRole.GENERAL_TEACHER
                               None (Some ["science"]) true) 1700000000000 1700000000000)
          (SchoolManagementSystem.new 0))))
  = [0; 1; 3].
Proof.
  apply (proj2 (createUser_ids_follow_the_clock
                  (UserData.mk "최과학" "science@school.edu" TeacherRole.GENERAL_TEACHER
                               None (Some ["science"]) true)
                  (UserData.mk "박수학" "math@school.edu" TeacherRole.GENERAL_TEACHER
                               None (Some ["math"]) true)
                  1700000000000 1700000000000 1700000000000 1700000000000
                  (SchoolManagementSystem.new 0) eq_refl eq_refl)).
  reflexivity.
Defined.

(** ** Changing a role *)

Lemma updateUserRole_known userId newRole additionalData this reference :
  JsMap.get userId (SchoolManagementSystem.users this) = Some reference →
  SchoolManagementSystem.Teachers.updateUserRole userId newRole additionalData this
  = (Normal true,
     SchoolManagementSystem.mk
       (alter (with_role newRole additionalData) reference
              (SchoolManagementSystem.objects this))
       (SchoolManagementSystem.users this)
       (SchoolManagementSystem.rbac this)
       (SchoolManagementSystem.currentUser this)
       (SchoolManagementSystem.students this)
       (SchoolManagementSystem.grades this)).
Proof.
  intros Hget. unfold SchoolManagementSystem.Teachers.updateUserRole.
  run_script. rewrite Hget. cbn.
  rewrite (JsMap_set_same _ _ _ Hget). reflexivity.
Qed.

(** X10: [updateUserRole] on an id that is not stored returns false and
    changes nothing.  On a stored id it returns true and rewrites that
    user's object only: the role becomes the [role] of [additionalData] when
    it has one and [newRole] otherwise; [classId] and [subjectIds] stay as
    they were unless [additionalData] carries them.  The [Map] keeps its
    entries, so the user stays under the old key even when
    [additionalData] changes the [id] field. *)
Theorem updateUserRole_effect
    (userId newRole : string) (additionalData : option PartialUser.t)
    (this : SchoolManagementSystem.t) :
  (JsMap.get userId (SchoolManagementSystem.users this) = None →
   SchoolManagementSystem.Teachers.updateUserRole userId newRole additionalData this
   = (Normal false, this))
  ∧ (∀ reference user,
       JsMap.get userId (SchoolManagementSystem.users this) = Some reference →
       SchoolManagementSystem.objects this !! reference = Some user →
       completes (SchoolManagementSystem.Teachers.updateUserRole
                    userId newRole additionalData) this = Normal true
       ∧ SchoolManagementSystem.users
           (leaves (SchoolManagementSystem.Teachers.updateUserRole
                      userId newRole additionalData) this)
         = SchoolManagementSystem.users this
       ∧ (∀ other, other ≠ reference →
            SchoolManagementSystem.objects
              (leaves (SchoolManagementSystem.Teachers.updateUserRole
                         userId newRole additionalData) this) !! other
            = SchoolManagementSystem.objects this !! other)
       ∧ ∃ updated,
           SchoolManagementSystem.objects
             (leaves (SchoolManagementSystem.Teachers.updateUserRole
                        userId newRole additionalData) this) !! reference
           = Some updated
           ∧ User.role updated
             = default newRole (additionalData ≫= PartialUser.role)
           ∧ User.classId updated
             = default (User.classId user) (additionalData ≫= PartialUser.classId)
           ∧ User.subjectIds updated
             = default (User.subjectIds user)
                       (additionalData ≫= PartialUser.subjectIds)
           ∧ User.id updated
             = default (User.id user) (additionalData ≫= PartialUser.id)).
Proof.
  split.
  - intros Hget. unfold SchoolManagementSystem.Teachers.updateUserRole.
    run_script. rewrite Hget. reflexivity.
  - intros reference user Hget Hobject.
    unfold completes, leaves. rewrite (updateUserRole_known _ _ _ _ _ Hget). cbn.
    split; [reflexivity |]. split; [reflexivity |].
    split; [intros other Hother; apply list_lookup_alter_ne; congruence |].
    exists (with_role newRole additionalData user).
    split; [rewrite list_lookup_alter_eq, Hobject; reflexivity |].
    destruct additionalData as [data |]; repeat split; reflexivity.
Qed.

Lemma updateUserRole_effect_witness :
  SchoolManagementSystem.Teachers.updateUserRole
    "teacher9" TeacherRole.GENERAL_TEACHER None (SchoolManagementSystem.new 0)
  = (Normal false, SchoolManagementSystem.new 0)
  ∧ completes (SchoolManagementSystem.Teachers.updateUserRole
                 "teacher1" TeacherRole.GENERAL_TEACHER None)
              (SchoolManagementSystem.new 0) = Normal true.
Proof.
  split.
  - apply (proj1 (updateUserRole_effect "teacher9" TeacherRole.GENERAL_TEACHER None
                    (SchoolManagementSystem.new 0))).
    reflexivity.
  - apply (proj2 (updateUserRole_effect "teacher1" TeacherRole.GENERAL_TEACHER None
                    (SchoolManagementSystem.new 0)) 0 teacher1); reflexivity.
Defined.

Lemma checkPermission_on_rewritten_record
    (userId newRole : string) (additionalData : option PartialUser.t)
    (permission : string) (resource : option Resource.t)
    (this : SchoolManagementSystem.t) (reference : nat) (user : User.t) :
  JsMap.get userId (SchoolManagementSystem.users this) = Some reference →
  SchoolManagementSystem.objects this !! reference = Some user →
  completes (SchoolManagementSystem.Teachers.checkPermission userId permission resource)
    (leaves (SchoolManagementSystem.Teachers.updateUserRole
               userId newRole additionalData) this)
  = of_outcome
      (result (RoleBasedAccessControl.checkPermission
                 RoleBasedAccessControl.isTeachingStudent
                 RoleBasedAccessControl.isTeachingClass
                 (with_role newRole additionalData user) permission resource)
              (SchoolManagementSystem.rbac this)).
Proof.
  intros Hget Hobject. unfold completes, leaves.
  rewrite (updateUserRole_known _ _ _ _ _ Hget). cbn [snd].
  rewrite (graph_checkPermission_found _ _ _ _ reference
             (with_role newRole additionalData user)); [reflexivity | exact Hget |].
  cbn. rewrite list_lookup_alter_eq, Hobject. reflexivity.
Qed.

(** X11: a role change takes effect at once.  After [updateUserRole] on a
    stored id, the next [checkPermission] for that id is decided on the
    rewritten record: it is the decision of
    [RoleBasedAccessControl.checkPermission] for the user with the new
    role and the properties of [additionalData]. *)
Theorem checkPermission_after_updateUserRole
    (userId newRole : string) (additionalData : option PartialUser.t)
    (permission : string) (resource : option Resource.t)
    (this : SchoolManagementSystem.t) (reference : nat) (user : User.t) :
  JsMap.get userId (SchoolManagementSystem.users this) = Some reference →
  SchoolManagementSystem.objects this !! reference = Some user →
  completes (SchoolManagementSystem.Teachers.checkPermission userId permission resource)
    (leaves (SchoolManagementSystem.Teachers.updateUserRole
               userId newRole additionalData) this)
  = of_outcome
      (result (RoleBasedAccessControl.checkPermission
                 RoleBasedAccessControl.isTeachingStudent
                 RoleBasedAccessControl.isTeachingClass
                 (with_role newRole additionalData user) permission resource)
              (SchoolManagementSystem.rbac this)).
Proof. apply checkPermission_on_rewritten_record. Qed.

Lemma checkPermission_after_updateUserRole_witness :
  completes (SchoolManagementSystem.Teachers.checkPermission
               "teacher2" Permission.EXPORT_GRADES None)
    (leaves (SchoolManagementSystem.Teachers.updateUserRole
               "teacher2" TeacherRole.HOMEROOM_TEACHER None)
            (SchoolManagementSystem.new 0))
  = of_outcome
      (result (RoleBasedAccessControl.checkPermission
                 RoleBasedAccessControl.isTeachingStudent
                 RoleBasedAccessControl.isTeachingClass
                 (with_role TeacherRole.HOMEROOM_TEACHER None teacher2)
                 Permission.EXPORT_GRADES None)
              (SchoolManagementSystem.rbac (SchoolManagementSystem.new 0))).
Proof.
  apply (checkPermission_after_updateUserRole
           "teacher2" TeacherRole.HOMEROOM_TEACHER None Permission.EXPORT_GRADES None
           (SchoolManagementSystem.new 0) 1 teacher2); reflexivity.
Defined.

(** X12: [updateUserRole] moves no ownership data.  A user who never had
    [subjectIds] and is made a general teacher without [additionalData] is
    from then on denied ManageGrades on every resource, with the
    not-own-subject reason, and is denied ManageClass as not granted to the
    role. *)
Theorem general_teacher_without_subjects
    (userId : string) (resource : option Resource.t)
    (this : SchoolManagementSystem.t) (reference : nat) (user : User.t) :
  SchoolManagementSystem.rbac this = RoleBasedAccessControl.new →
  JsMap.get userId (SchoolManagementSystem.users this) = Some reference →
  SchoolManagementSystem.objects this !! reference = Some user →
  User.isActive user = true →
  User.subjectIds user = None →
  completes (SchoolManagementSystem.Teachers.checkPermission
               userId Permission.MANAGE_GRADES resource)
    (leaves (SchoolManagementSystem.Teachers.updateUserRole
               userId TeacherRole.GENERAL_TEACHER None) this)
  = Normal (deny Reason.NotOwnSubject)
  ∧ completes (SchoolManagementSystem.Teachers.checkPermission
                 userId Permission.MANAGE_CLASS resource)
      (leaves (SchoolManagementSystem.Teachers.updateUserRole
                 userId TeacherRole.GENERAL_TEACHER None) this)
    = Normal (deny Reason.PermissionNotGrantedToRole).
Proof.
  intros Hrbac Hget Hobject Hon Hnone.
  rewrite !(checkPermission_on_rewritten_record _ _ _ _ _ _ _ _ Hget Hobject).
  rewrite Hrbac.
  rewrite !(standalone_new _ _ _ _ _ general_teacher_permissions)
    by (first [exact Hon | apply table_general]).
  split.
  - change (includes general_teacher_permissions Permission.MANAGE_GRADES) with true.
    cbv iota. rewrite standalone_general_manage_grades by reflexivity.
    cbn [with_role User.subjectIds]. rewrite Hnone.
    unfold and_then, opt_includes.
    destruct (opt_field Resource.subjectId resource) as [s |]; [| reflexivity].
    rewrite andb_false_r. reflexivity.
  - reflexivity.
Qed.

Lemma general_teacher_without_subjects_witness :
  completes (SchoolManagementSystem.Teachers.checkPermission
               "teacher1" Permission.MANAGE_GRADES (of_subject "math"))
    (leaves (SchoolManagementSystem.Teachers.updateUserRole
               "teacher1" TeacherRole.GENERAL_TEACHER None)
            (SchoolManagementSystem.new 0))
  = Normal (deny Reason.NotOwnSubject)
  ∧ completes (SchoolManagementSystem.Teachers.checkPermission
                 "teacher1" Permission.MANAGE_CLASS (of_subject "math"))
      (leaves (SchoolManagementSystem.Teachers.updateUserRole
                 "teacher1" TeacherRole.GENERAL_TEACHER None)
              (SchoolManagementSystem.new 0))
    = Normal (deny Reason.PermissionNotGrantedToRole).
Proof.
  apply (general_teacher_without_subjects "teacher1" (of_subject "math")
           (SchoolManagementSystem.new 0) 0 teacher1); reflexivity.
Defined.

(** ** Logging in and out *)

Lemma isAuthenticated_nobody this :
  SchoolManagementSystem.currentUser this = None →
  SchoolManagementSystem.Auth.isAuthenticated this = (Normal false, this).
Proof.
  intros Hnone. unfold SchoolManagementSystem.Auth.isAuthenticated.
  run_script. rewrite Hnone. reflexivity.
Qed.

Lemma isAuthenticated_somebody this reference user :
  SchoolManagementSystem.currentUser this = Some reference →
  SchoolManagementSystem.objects this !! reference = Some user →
  SchoolManagementSystem.Auth.isAuthenticated this
  = (Normal (User.isActive user), this).
Proof.
  intros Hcurrent Hobject. unfold SchoolManagementSystem.Auth.isAuthenticated.
  run_script. rewrite Hcurrent. cbn. rewrite Hobject. reflexivity.
Qed.

Lemma login_run email password this :
  SchoolManagementSystem.Auth.login email password this
  = match completes (SchoolManagementSystem.Teachers.getUserByEmail email) this with
    | Normal (Some reference) =>
        match SchoolManagementSystem.objects this !! reference with
        | Some user =>
            if User.isActive user
            then (Normal (Some reference),
                  SchoolManagementSystem.mk
                    (SchoolManagementSystem.objects this)
                    (SchoolManagementSystem.users this)
                    (SchoolManagementSystem.rbac this)
                    (Some reference)
                    (SchoolManagementSystem.students this)
                    (SchoolManagementSystem.grades this))
            else (Normal None, this)
        | None => (Normal None, this)
        end
    | _ => (Normal None, this)
    end.
Proof.
  unfold SchoolManagementSystem.Auth.login,
    SchoolManagementSystem.Teachers.getUserByEmail.
  run_script.
  destruct (List.find _ _) as [reference |]; cbn; [| reflexivity].
  destruct (SchoolManagementSystem.objects this !! reference) as [user |];
    [| reflexivity].
  destruct (User.isActive user); reflexivity.
Qed.

(** X13: [login] never looks at the password.  When the first user with
    the given email is active, [login] succeeds with every password: it
    returns that user, makes it the current user, and [isAuthenticated]
    is true afterwards.  The users themselves are not changed. *)
Theorem login_accepts_every_password
    (email password : string) (this : SchoolManagementSystem.t)
    (reference : nat) (user : User.t) :
  completes (SchoolManagementSystem.Teachers.getUserByEmail email) this
  = Normal (Some reference) →
  SchoolManagementSystem.objects this !! reference = Some user →
  User.isActive user = true →
  completes (SchoolManagementSystem.Auth.login email password) this
  = Normal (Some reference)
  ∧ SchoolManagementSystem.currentUser
      (leaves (SchoolManagementSystem.Auth.login email password) this)
    = Some reference
  ∧ completes SchoolManagementSystem.Auth.isAuthenticated
      (leaves (SchoolManagementSystem.Auth.login email password) this)
    = Normal true
  ∧ SchoolManagementSystem.objects
      (leaves (SchoolManagementSystem.Auth.login email password) this)
    = SchoolManagementSystem.objects this
  ∧ SchoolManagementSystem.users
      (leaves (SchoolManagementSystem.Auth.login email password) this)
    = SchoolManagementSystem.users this.
Proof.
  intros Hfound Hobject Hon.
  unfold completes at 1, leaves. rewrite login_run, Hfound, Hobject, Hon. cbn.
  split; [reflexivity |]. split; [reflexivity |].
  split; [| split; reflexivity].
  unfold completes.
  rewrite (isAuthenticated_somebody _ reference user); [| reflexivity | exact Hobject].
  rewrite Hon. reflexivity.
Qed.

Lemma login_accepts_every_password_witness :
  completes (SchoolManagementSystem.Auth.login "kim@school.edu" "not the password")
            (SchoolManagementSystem.new 0)
  = Normal (Some 0)
  ∧ SchoolManagementSystem.currentUser
      (leaves (SchoolManagementSystem.Auth.login "kim@school.edu" "not the password")
              (SchoolManagementSystem.new 0))
    = Some 0
  ∧ completes SchoolManagementSystem.Auth.isAuthenticated
      (leaves (SchoolManagementSystem.Auth.login "kim@school.edu" "not the password")
              (SchoolManagementSystem.new 0))
    = Normal true
  ∧ SchoolManagementSystem.objects
      (leaves (SchoolManagementSystem.Auth.login "kim@school.edu" "not the password")
              (SchoolManagementSystem.new 0))
    = SchoolManagementSystem.objects (SchoolManagementSystem.new 0)
  ∧ SchoolManagementSystem.users
      (leaves (SchoolManagementSystem.Auth.login "kim@school.edu" "not the password")
              (SchoolManagementSystem.new 0))
    = SchoolManagementSystem.users (SchoolManagementSystem.new 0).
Proof.
  apply (login_accepts_every_password "kim@school.edu" "not the password"
           (SchoolManagementSystem.new 0) 0 teacher1); reflexivity.
Defined.

(** X14: a failed [login] does not end the session.  [login] returns null
    exactly when no stored user has the email or the first one that has it
    is inactive, and then it leaves everything as it was: whoever was the
    current user still is. *)
Theorem failed_login_keeps_session
    (email password : string) (this : SchoolManagementSystem.t) :
  (completes (SchoolManagementSystem.Auth.login email password) this = Normal None ↔
   ¬ ∃ reference user,
       completes (SchoolManagementSystem.Teachers.getUserByEmail email) this
       = Normal (Some reference)
       ∧ SchoolManagementSystem.objects this !! reference = Some user
       ∧ User.isActive user = true)
  ∧ (completes (SchoolManagementSystem.Auth.login email password) this = Normal None →
     leaves (SchoolManagementSystem.Auth.login email password) this = this).
Proof.
  unfold completes at 1 3, leaves. rewrite login_run.
  destruct (completes (SchoolManagementSystem.Teachers.getUserByEmail email) this)
    as [[reference |] | e] eqn:Hfound; cbn.
  - destruct (SchoolManagementSystem.objects this !! reference) as [user |] eqn:Hobject.
    + destruct (User.isActive user) eqn:Hon; cbn.
      * split; [| discriminate]. split; [discriminate |].
        intros Hno. exfalso. apply Hno. exists reference, user. auto.
      * split; [| reflexivity]. split; [| reflexivity].
        intros _ (r & u & [= <-] & Hu & Hactive). congruence.
    + split; [| reflexivity]. split; [| reflexivity].
      intros _ (r & u & [= <-] & Hu & _). congruence.
  - split; [| reflexivity]. split; [| reflexivity].
    intros _ (r & u & Hr & _). discriminate Hr.
  - split; [| reflexivity]. split; [| reflexivity].
    intros _ (r & u & Hr & _). discriminate Hr.
Qed.

Lemma failed_login_keeps_session_witness :
  leaves (SchoolManagementSystem.Auth.login "nobody@school.edu" "password") as_teacher1
  = as_teacher1
  ∧ SchoolManagementSystem.currentUser as_teacher1 = Some 0.
Proof.
  split; [| reflexivity].
  apply (proj2 (failed_login_keeps_session "nobody@school.edu" "password" as_teacher1)).
  reflexivity.
Defined.

(** ** The decorators *)

Lemma RequirePermission_unauthenticated {A : Type} permission resource
    (originalMethod : Method SchoolManagementSystem.t A) this :
  SchoolManagementSystem.Auth.isAuthenticated this = (Normal false, this) →
  SchoolManagementSystem.RequirePermission permission resource originalMethod this
  = (Abrupt (Error "인증이 필요합니다."), this).
Proof.
  intros Hno. unfold SchoolManagementSystem.RequirePermission.
  unfold mbind at 1, Method_bind. rewrite Hno. reflexivity.
Qed.

Lemma RequireRole_unauthenticated {A : Type} role
    (originalMethod : Method SchoolManagementSystem.t A) this :
  SchoolManagementSystem.Auth.isAuthenticated this = (Normal false, this) →
  SchoolManagementSystem.RequireRole role originalMethod this
  = (Abrupt (Error "인증이 필요합니다."), this).
Proof.
  intros Hno. unfold SchoolManagementSystem.RequireRole.
  unfold mbind at 1, Method_bind. rewrite Hno. reflexivity.
Qed.

Lemma isAuthenticated_leaves this :
  leaves SchoolManagementSystem.Auth.isAuthenticated this = this.
Proof.
  unfold leaves, SchoolManagementSystem.Auth.isAuthenticated. run_script.
  destruct (SchoolManagementSystem.currentUser this) as [reference |]; [| reflexivity].
  cbn. destruct (SchoolManagementSystem.objects this !! reference); reflexivity.
Qed.

(** X15: without an authenticated user no decorated method runs.  When
    [isAuthenticated] is false, a method wrapped by [RequirePermission] or
    [RequireRole] throws the authentication error and leaves everything
    unchanged, whatever the permission, the role, the argument and the
    wrapped method; after [logout] this is the case for every call. *)
Theorem decorated_methods_need_authentication {A : Type}
    (permission role : string) (resource : option Resource.t)
    (originalMethod : Method SchoolManagementSystem.t A)
    (this : SchoolManagementSystem.t) :
  (completes SchoolManagementSystem.Auth.isAuthenticated this = Normal false →
   SchoolManagementSystem.RequirePermission permission resource originalMethod this
   = (Abrupt (Error "인증이 필요합니다."), this)
   ∧ SchoolManagementSystem.RequireRole role originalMethod this
     = (Abrupt (Error "인증이 필요합니다."), this))
  ∧ completes (SchoolManagementSystem.RequirePermission permission resource originalMethod)
      (leaves SchoolManagementSystem.Auth.logout this)
    = Abrupt (Error "인증이 필요합니다.")
  ∧ completes (SchoolManagementSystem.RequireRole role originalMethod)
      (leaves SchoolManagementSystem.Auth.logout this)
    = Abrupt (Error "인증이 필요합니다.").
Proof.
  split; [| split].
  - intros Hno.
    assert (Hrun : SchoolManagementSystem.Auth.isAuthenticated this
                   = (Normal false, this)).
    { pose proof (isAuthenticated_leaves this) as Hsame.
      unfold completes in Hno. unfold leaves in Hsame.
      destruct (SchoolManagementSystem.Auth.isAuthenticated this) as [r this'].
      cbn in Hno, Hsame. subst. reflexivity. }
    split.
    + apply RequirePermission_unauthenticated, Hrun.
    + apply RequireRole_unauthenticated, Hrun.
  - unfold completes.
    rewrite RequirePermission_unauthenticated; [reflexivity |].
    apply isAuthenticated_nobody. reflexivity.
  - unfold completes.
    rewrite RequireRole_unauthenticated; [reflexivity |].
    apply isAuthenticated_nobody. reflexivity.
Qed.

Lemma decorated_methods_need_authentication_witness :
  SchoolManagementSystem.Students.getStudents None (SchoolManagementSystem.new 0)
  = (Abrupt (Error "인증이 필요합니다."), SchoolManagementSystem.new 0)
  ∧ SchoolManagementSystem.RequireRole TeacherRole.HOMEROOM_TEACHER
      (SchoolManagementSystem.Students.getStudents_original None)
      (SchoolManagementSystem.new 0)
    = (Abrupt (Error "인증이 필요합니다."), SchoolManagementSystem.new 0).
Proof.
  apply (proj1 (decorated_methods_need_authentication
                  Permission.VIEW_STUDENTS TeacherRole.HOMEROOM_TEACHER None
                  (SchoolManagementSystem.Students.getStudents_original None)
                  (SchoolManagementSystem.new 0))).
  reflexivity.
Defined.

Lemma RequirePermission_active {A : Type} permission resource
    (originalMethod : Method SchoolManagementSystem.t A) this current currentUser :
  SchoolManagementSystem.currentUser this = Some current →
  SchoolManagementSystem.objects this !! current = Some currentUser →
  User.isActive currentUser = true →
  SchoolManagementSystem.RequirePermission permission resource originalMethod this
  = match SchoolManagementSystem.Teachers.checkPermission
            (User.id currentUser) permission resource this with
    | (Normal d, this') =>
        if allowed d then originalMethod this'
        else (Abrupt (Error ("접근 거부: " ++ default "undefined" (reason d))), this')
    | (Abrupt e, this') => (Abrupt e, this')
    end.
Proof.
  intros Hcurrent Hobject Hon.
  unfold SchoolManagementSystem.RequirePermission.
  unfold mbind at 1, Method_bind.
  rewrite (isAuthenticated_somebody _ _ _ Hcurrent Hobject), Hon.
  cbn [negb]. unfold SchoolManagementSystem.Auth.getCurrentUser.
  run_script. rewrite Hcurrent. cbn. rewrite Hobject.
  destruct (SchoolManagementSystem.Teachers.checkPermission _ _ _ _) as [[d | e] this'];
    [| reflexivity].
  destruct (allowed d); reflexivity.
Qed.

(** A decorated method either throws and changes nothing, or is the
    original method; the latter only when the current user is active and the
    record stored under its id is allowed the permission. *)
Lemma RequirePermission_cases {A : Type} permission resource
    (originalMethod : Method SchoolManagementSystem.t A) this :
  (∃ e, SchoolManagementSystem.RequirePermission permission resource originalMethod this
        = (Abrupt e, this))
  ∨ (SchoolManagementSystem.RequirePermission permission resource originalMethod this
     = originalMethod this
     ∧ ∃ current currentUser stored user d,
         SchoolManagementSystem.currentUser this = Some current
         ∧ SchoolManagementSystem.objects this !! current = Some currentUser
         ∧ User.isActive currentUser = true
         ∧ JsMap.get (User.id currentUser) (SchoolManagementSystem.users this)
           = Some stored
         ∧ SchoolManagementSystem.objects this !! stored = Some user
         ∧ result (RoleBasedAccessControl.checkPermission
                     RoleBasedAccessControl.isTeachingStudent
                     RoleBasedAccessControl.isTeachingClass
                     user permission resource)
                  (SchoolManagementSystem.rbac this) = Returns d
         ∧ allowed d = true).
Proof.
  destruct (SchoolManagementSystem.currentUser this) as [current |] eqn:Hcurrent.
  2: { left. eexists.
       apply RequirePermission_unauthenticated, isAuthenticated_nobody, Hcurrent. }
  destruct (SchoolManagementSystem.objects this !! current) as [currentUser |]
    eqn:Hobject.
  2: { left. eexists. unfold SchoolManagementSystem.RequirePermission,
         SchoolManagementSystem.Auth.isAuthenticated.
       run_script. rewrite Hcurrent. cbn. rewrite Hobject. reflexivity. }
  destruct (User.isActive currentUser) eqn:Hon.
  2: { left. eexists. apply RequirePermission_unauthenticated.
       rewrite (isAuthenticated_somebody _ _ _ Hcurrent Hobject), Hon. reflexivity. }
  rewrite (RequirePermission_active _ _ _ _ _ _ Hcurrent Hobject Hon).
  destruct (JsMap.get (User.id currentUser) (SchoolManagementSystem.users this))
    as [stored |] eqn:Hstored.
  2: { left. eexists.
       rewrite (graph_checkPermission_unknown _ _ _ _ Hstored). reflexivity. }
  destruct (SchoolManagementSystem.objects this !! stored) as [user |] eqn:Huser.
  2: { left. eexists. unfold SchoolManagementSystem.Teachers.checkPermission,
         SchoolManagementSystem.Teachers.getUserById.
       run_script. rewrite Hstored. cbn. rewrite Huser. reflexivity. }
  rewrite (graph_checkPermission_found _ _ _ _ _ _ Hstored Huser).
  destruct (result _ _) as [d | e] eqn:Hresult; cbn.
  2: { left. eexists. reflexivity. }
  destruct (allowed d) eqn:Hallowed; cbn.
  - right. split; [reflexivity |].
    exists current, currentUser, stored, user, d. auto 10.
  - left. eexists. reflexivity.
Qed.

(** X16: a decorated method never half-runs.  A method wrapped by
    [RequirePermission] either throws and leaves everything unchanged, or
    behaves exactly as the wrapped method; and it runs the wrapped method
    only if the current user is active and [checkPermission] allows the
    permission to the record stored under the current user's id. *)
Theorem RequirePermission_throws_or_runs {A : Type}
    (permission : string) (resource : option Resource.t)
    (originalMethod : Method SchoolManagementSystem.t A)
    (this : SchoolManagementSystem.t) :
  (∃ e, SchoolManagementSystem.RequirePermission permission resource originalMethod this
        = (Abrupt e, this))
  ∨ (SchoolManagementSystem.RequirePermission permission resource originalMethod this
     = originalMethod this
     ∧ ∃ current currentUser stored user d,
         SchoolManagementSystem.currentUser this = Some current
         ∧ SchoolManagementSystem.objects this !! current = Some currentUser
         ∧ User.isActive currentUser = true
         ∧ JsMap.get (User.id currentUser) (SchoolManagementSystem.users this)
           = Some stored
         ∧ SchoolManagementSystem.objects this !! stored = Some user
         ∧ result (RoleBasedAccessControl.checkPermission
                     RoleBasedAccessControl.isTeachingStudent
                     RoleBasedAccessControl.isTeachingClass
                     user permission resource)
                  (SchoolManagementSystem.rbac this) = Returns d
         ∧ allowed d = true).
Proof. apply RequirePermission_cases. Qed.

(** What a decorated method does in a session. *)
Lemma RequirePermission_logged_in {A : Type} permission resource
    (originalMethod : Method SchoolManagementSystem.t A) this reference user :
  logged_in this reference user →
  SchoolManagementSystem.RequirePermission permission resource originalMethod this
  = match result (RoleBasedAccessControl.checkPermission
                    RoleBasedAccessControl.isTeachingStudent
                    RoleBasedAccessControl.isTeachingClass
                    user permission resource) RoleBasedAccessControl.new with
    | Returns d =>
        if allowed d then originalMethod this
        else (Abrupt (Error ("접근 거부: " ++ default "undefined" (reason d))), this)
    | Throws e => (Abrupt (Native e), this)
    end.
Proof.
  intros (Hcurrent & Hobject & Hon & Hstored & Hrbac).
  rewrite (RequirePermission_active _ _ _ _ _ _ Hcurrent Hobject Hon).
  rewrite (graph_checkPermission_found _ _ _ _ _ _ Hstored Hobject), Hrbac.
  destruct (result _ _) as [d | e]; reflexivity.
Qed.

(** ** Deactivating the current user *)

(** X17: the current user is the stored object itself, not a copy.  When
    [updateUserRole] is called for the id under which the current user is
    stored, with [additionalData] that sets [isActive] to false, the session
    ends there: [currentUser] is still set, but [isAuthenticated] is false
    and every method wrapped by [RequirePermission] throws the
    authentication error. *)
Theorem deactivation_ends_the_session {A : Type}
    (userId newRole : string) (data : PartialUser.t)
    (permission : string) (resource : option Resource.t)
    (originalMethod : Method SchoolManagementSystem.t A)
    (this : SchoolManagementSystem.t) (reference : nat) (user : User.t) :
  SchoolManagementSystem.currentUser this = Some reference →
  JsMap.get userId (SchoolManagementSystem.users this) = Some reference →
  SchoolManagementSystem.objects this !! reference = Some user →
  PartialUser.isActive data = Some false →
  SchoolManagementSystem.currentUser
    (leaves (SchoolManagementSystem.Teachers.updateUserRole userId newRole (Some data))
            this) = Some reference
  ∧ completes SchoolManagementSystem.Auth.isAuthenticated
      (leaves (SchoolManagementSystem.Teachers.updateUserRole userId newRole (Some data))
              this) = Normal false
  ∧ completes (SchoolManagementSystem.RequirePermission permission resource originalMethod)
      (leaves (SchoolManagementSystem.Teachers.updateUserRole userId newRole (Some data))
              this) = Abrupt (Error "인증이 필요합니다.").
Proof.
  intros Hcurrent Hget Hobject Hoff.
  unfold leaves. rewrite (updateUserRole_known _ _ _ _ _ Hget). cbn [snd].
  set (this' := SchoolManagementSystem.mk _ _ _ _ _ _).
  assert (Hno : SchoolManagementSystem.Auth.isAuthenticated this'
                = (Normal false, this')).
  { rewrite (isAuthenticated_somebody this' reference
               (with_role newRole (Some data) user)).
    - cbn. rewrite Hoff. reflexivity.
    - exact Hcurrent.
    - cbn. rewrite list_lookup_alter_eq, Hobject. reflexivity. }
  split; [exact Hcurrent |]. unfold completes. split.
  - rewrite Hno. reflexivity.
  - rewrite (RequirePermission_unauthenticated _ _ _ _ Hno). reflexivity.
Qed.

Lemma deactivation_ends_the_session_witness :
  SchoolManagementSystem.currentUser
    (leaves (SchoolManagementSystem.Teachers.updateUserRole
               "teacher1" TeacherRole.HOMEROOM_TEACHER (Some deactivation))
            as_teacher1) = Some 0
  ∧ completes SchoolManagementSystem.Auth.isAuthenticated
      (leaves (SchoolManagementSystem.Teachers.updateUserRole
                 "teacher1" TeacherRole.HOMEROOM_TEACHER (Some deactivation))
              as_teacher1) = Normal false
  ∧ completes (SchoolManagementSystem.RequirePermission
                 Permission.VIEW_STUDENTS None
                 (SchoolManagementSystem.Students.getStudents_original None))
      (leaves (SchoolManagementSystem.Teachers.updateUserRole
                 "teacher1" TeacherRole.HOMEROOM_TEACHER (Some deactivation))
              as_teacher1) = Abrupt (Error "인증이 필요합니다.").
Proof.
  apply (deactivation_ends_the_session
           "teacher1" TeacherRole.HOMEROOM_TEACHER deactivation
           Permission.VIEW_STUDENTS None
           (SchoolManagementSystem.Students.getStudents_original None)
           as_teacher1 0 teacher1); reflexivity.
Defined.

(** ** The student service *)

Lemma edit_student_info_needs_a_class (user : User.t) :
  decision (result (RoleBasedAccessControl.checkPermission
                      RoleBasedAccessControl.isTeachingStudent
                      RoleBasedAccessControl.isTeachingClass
                      user Permission.EDIT_STUDENT_INFO (Some Resource.empty))
                   RoleBasedAccessControl.new) ≠ Some true.
Proof.
  destruct (User.isActive user) eqn:Hon.
  2: { unfold result. rewrite (standalone_inactive _ _ _ _ _ _ Hon). discriminate. }
  destruct (decide (User.role user = TeacherRole.HOMEROOM_TEACHER)) as [Hh | Hh].
  { rewrite (standalone_new _ _ _ _ _ homeroom_teacher_permissions Hon)
      by (rewrite Hh; apply table_homeroom).
    change (includes homeroom_teacher_permissions Permission.EDIT_STUDENT_INFO)
      with true. cbv iota.
    rewrite (standalone_homeroom_class_management _ _ _ _ _ Hh)
      by decide_closed.
    discriminate. }
  destruct (decide (User.role user = TeacherRole.GENERAL_TEACHER)) as [Hg | Hg].
  { rewrite (standalone_new _ _ _ _ _ general_teacher_permissions Hon)
      by (rewrite Hg; apply table_general).
    discriminate. }
  assert (Hrole : User.role user ∉ TeacherRole.values).
  { unfold TeacherRole.values. rewrite !not_elem_of_cons. repeat split; try assumption.
    apply not_elem_of_nil. }
  unfold result, RoleBasedAccessControl.checkPermission,
    RoleBasedAccessControl.getRolePermissions.
  rewrite Hon. run_method. rewrite standalone_table.
  rewrite (get_property_unknown_role _ Hrole).
  destruct (bool_decide _); discriminate.
Qed.

(** X18: [updateStudent] cannot succeed.  The decorator checks
    EditStudentInfo against the first argument, the student id, which
    carries no classId; the script's access control allows that to nobody.
    So whoever is logged in, and whatever the arguments, the call throws and
    no student record is changed. *)
Theorem updateStudent_never_succeeds
    (studentId : string) (updateData : PartialStudent.t)
    (this : SchoolManagementSystem.t) :
  SchoolManagementSystem.rbac this = RoleBasedAccessControl.new →
  ∃ e, SchoolManagementSystem.Students.updateStudent studentId updateData this
       = (Abrupt e, this).
Proof.
  intros Hrbac. unfold SchoolManagementSystem.Students.updateStudent.
  destruct (RequirePermission_cases Permission.EDIT_STUDENT_INFO (Some Resource.empty)
              (SchoolManagementSystem.Students.updateStudent_original studentId updateData)
              this) as [Hthrows | [_ Hruns]]; [exact Hthrows |].
  destruct Hruns as (current & currentUser & stored & user & d & _ & _ & _ & _ & _
                     & Hresult & Hallowed).
  exfalso. apply (edit_student_info_needs_a_class user).
  rewrite <- Hrbac, Hresult. cbn. rewrite Hallowed. reflexivity.
Qed.

Lemma updateStudent_never_succeeds_witness :
  ∃ e, SchoolManagementSystem.Students.updateStudent "student1"
         (PartialStudent.mk None None None None (Some (Some "010-9999-9999")) None)
         as_teacher1
       = (Abrupt e, as_teacher1).
Proof.
  apply (updateStudent_never_succeeds "student1"
           (PartialStudent.mk None None None None (Some (Some "010-9999-9999")) None)
           as_teacher1).
  reflexivity.
Defined.

(** X19: who can add a student where.  In a session of a homeroom
    teacher, [addStudent] stores the student, under the generated id
    [student_<clock>], exactly when the student's [classId] is non-empty and
    is the teacher's own class; for any other class it throws the
    not-own-class denial.  In a session of a general teacher it always
    throws the not-granted denial.  A call that throws stores nothing. *)
Theorem addStudent_own_class_only
    (studentData : StudentData.t) (clock : N) (created : Z)
    (this : SchoolManagementSystem.t) (reference : nat) (user : User.t) :
  logged_in this reference user →
  (User.role user = TeacherRole.HOMEROOM_TEACHER →
   StudentData.classId studentData ≠ "" →
   User.classId user = Some (StudentData.classId studentData) →
   completes (SchoolManagementSystem.Students.addStudent studentData clock created) this
   = Normal (Student.mk ("student_" ++ pretty clock)
                        (StudentData.name studentData) (StudentData.classId studentData)
                        (StudentData.grade studentData)
                        (StudentData.parentContact studentData) created)
   ∧ JsMap.get ("student_" ++ pretty clock)
       (SchoolManagementSystem.students
          (leaves (SchoolManagementSystem.Students.addStudent studentData clock created)
                  this))
     = Some (Student.mk ("student_" ++ pretty clock)
                        (StudentData.name studentData) (StudentData.classId studentData)
                        (StudentData.grade studentData)
                        (StudentData.parentContact studentData) created))
  ∧ (User.role user = TeacherRole.HOMEROOM_TEACHER →
     ¬ (StudentData.classId studentData ≠ ""
        ∧ User.classId user = Some (StudentData.classId studentData)) →
     SchoolManagementSystem.Students.addStudent studentData clock created this
     = (Abrupt (Error ("접근 거부: " ++ Reason.NotOwnClass_homeroom)), this))
  ∧ (User.role user = TeacherRole.GENERAL_TEACHER →
     SchoolManagementSystem.Students.addStudent studentData clock created this
     = (Abrupt (Error ("접근 거부: " ++ Reason.PermissionNotGrantedToRole)), this)).
Proof.
  intros Hsession.
  unfold completes, leaves, SchoolManagementSystem.Students.addStudent.
  rewrite (RequirePermission_logged_in _ _ _ _ _ _ Hsession).
  destruct Hsession as (_ & _ & Hon & _ & _).
  split; [| split].
  - intros Hrole Hnonempty Hown.
    rewrite (standalone_homeroom_named_class _ _ _ _ _
               (StudentData.classId studentData) Hon Hrole)
      by (first [decide_closed | split; [reflexivity | exact Hnonempty]]).
    rewrite bool_decide_eq_true_2 by exact Hown. cbn [allowed allow].
    unfold SchoolManagementSystem.Students.addStudent_original.
    run_script. cbn. split; [reflexivity |]. apply JsMap_get_set_eq.
  - intros Hrole Hother.
    rewrite (standalone_new _ _ _ _ _ homeroom_teacher_permissions Hon)
      by (rewrite Hrole; apply table_homeroom).
    change (includes homeroom_teacher_permissions Permission.MANAGE_STUDENTS)
      with true. cbv iota.
    rewrite (standalone_homeroom_class_management _ _ _ _ _ Hrole) by decide_closed.
    destruct (and_then _ _) eqn:Hcond; [| reflexivity].
    exfalso. apply Hother.
    apply and_then_carries in Hcond as (c & [[= <-] Hnonempty] & Hown).
    split; [exact Hnonempty |]. apply bool_decide_eq_true in Hown. exact Hown.
  - intros Hrole.
    rewrite (standalone_new _ _ _ _ _ general_teacher_permissions Hon)
      by (rewrite Hrole; apply table_general).
    reflexivity.
Qed.

Lemma addStudent_own_class_only_witness :
  completes (SchoolManagementSystem.Students.addStudent
               (StudentData.mk "이철수" "class-3-1" 3 None) 1700000000000 1700000000000)
            as_teacher1
  = Normal (Student.mk ("student_" ++ pretty 1700000000000%N)
                       "이철수" "class-3-1" 3 None 1700000000000)
  ∧ SchoolManagementSystem.Students.addStudent
      (StudentData.mk "이철수" "class-9-9" 3 None) 1700000000000 1700000000000
      as_teacher1
    = (Abrupt (Error ("접근 거부: " ++ Reason.NotOwnClass_homeroom)), as_teacher1)
  ∧ SchoolManagementSystem.Students.addStudent
      (StudentData.mk "이철수" "class-3-1" 3 None) 1700000000000 1700000000000
      as_teacher2
    = (Abrupt (Error ("접근 거부: " ++ Reason.PermissionNotGrantedToRole)), as_teacher2).
Proof.
  split; [| split].
  - apply (proj1 (addStudent_own_class_only
                    (StudentData.mk "이철수" "class-3-1" 3 None)
                    1700000000000 1700000000000 as_teacher1 0 teacher1
                    ltac:(repeat split; reflexivity))); [reflexivity | discriminate
                                                        | reflexivity].
  - apply (proj1 (proj2 (addStudent_own_class_only
                    (StudentData.mk "이철수" "class-9-9" 3 None)
                    1700000000000 1700000000000 as_teacher1 0 teacher1
                    ltac:(repeat split; reflexivity)))); [reflexivity |].
    intros [_ Hown]. discriminate Hown.
  - apply (proj2 (proj2 (addStudent_own_class_only
                    (StudentData.mk "이철수" "class-3-1" 3 None)
                    1700000000000 1700000000000 as_teacher2 1 teacher2
                    ltac:(repeat split; reflexivity)))). reflexivity.
Defined.

Lemma elem_of_List_filter {A : Type} (f : A → bool) (l : list A) (x : A) :
  x ∈ List.filter f l ↔ x ∈ l ∧ f x = true.
Proof. rewrite !list_elem_of_In. apply filter_In. Qed.





(** ** The grade service *)

Lemma updateGrade_original_run gradeData this reference user :
  logged_in this reference user →
  SchoolManagementSystem.Grades.updateGrade_original gradeData this
  = if String.eqb (User.role user) TeacherRole.GENERAL_TEACHER
       && negb (opt_includes (User.subjectIds user) (GradeData.subjectId gradeData))
    then (Abrupt (Error Reason.NotOwnSubject), this)
    else (Normal true,
          SchoolManagementSystem.mk
            (SchoolManagementSystem.objects this)
            (SchoolManagementSystem.users this)
            (SchoolManagementSystem.rbac this)
            (SchoolManagementSystem.currentUser this)
            (SchoolManagementSystem.students this)
            (JsMap.set (GradeData.studentId gradeData ++ "_"
                        ++ GradeData.subjectId gradeData)
                       gradeData (SchoolManagementSystem.grades this))).
Proof.
  intros (Hcurrent & Hobject & _).
  unfold SchoolManagementSystem.Grades.updateGrade_original,
    SchoolManagementSystem.Auth.getCurrentUser.
  run_script. rewrite Hcurrent. cbn. rewrite Hobject.
  destruct (String.eqb (User.role user) TeacherRole.GENERAL_TEACHER
            && negb (opt_includes (User.subjectIds user)
                                  (GradeData.subjectId gradeData)));
    rewrite ?Hcurrent; reflexivity.
Qed.

Lemma updateGrade_homeroom gradeData this reference user :
  logged_in this reference user →
  User.role user = TeacherRole.HOMEROOM_TEACHER →
  SchoolManagementSystem.Grades.updateGrade gradeData this
  = (Normal true,
     SchoolManagementSystem.mk
       (SchoolManagementSystem.objects this)
       (SchoolManagementSystem.users this)
       (SchoolManagementSystem.rbac this)
       (SchoolManagementSystem.currentUser this)
       (SchoolManagementSystem.students this)
       (JsMap.set (GradeData.studentId gradeData ++ "_"
                   ++ GradeData.subjectId gradeData)
                  gradeData (SchoolManagementSystem.grades this))).
Proof.
  intros Hsession Hrole. unfold SchoolManagementSystem.Grades.updateGrade.
  rewrite (RequirePermission_logged_in _ _ _ _ _ _ Hsession).
  rewrite (updateGrade_original_run _ _ _ _ Hsession).
  destruct Hsession as (_ & _ & Hon & _ & _).
  assert (Hvalue : Permission.MANAGE_GRADES ∈ Permission.values) by decide_closed.
  assert (Hfree : Permission.MANAGE_GRADES ∉ class_management_permissions)
    by decide_closed.
  rewrite (proj1 (homeroom_unrestricted _ _ _ _ _ Hon Hrole Hvalue Hfree)).
  rewrite Hrole. reflexivity.
Qed.

(** X21: whose grades can be written.  In a session of a general teacher,
    [updateGrade] stores the grade, under the key
    [<studentId>_<subjectId>], exactly when the subject id is non-empty and
    among the teacher's subjects; otherwise the decorator throws the
    not-own-subject denial and nothing is stored.  The check inside the
    method never fires after the decorator has let the call through.  In a
    session of a homeroom teacher every grade is stored, whatever the
    subject. *)
Theorem updateGrade_by_role
    (gradeData : GradeData.t)
    (this : SchoolManagementSystem.t) (reference : nat) (user : User.t) :
  logged_in this reference user →
  (User.role user = TeacherRole.GENERAL_TEACHER →
   GradeData.subjectId gradeData ≠ "" →
   GradeData.subjectId gradeData ∈ taught user →
   completes (SchoolManagementSystem.Grades.updateGrade gradeData) this = Normal true
   ∧ JsMap.get (GradeData.studentId gradeData ++ "_" ++ GradeData.subjectId gradeData)
       (SchoolManagementSystem.grades
          (leaves (SchoolManagementSystem.Grades.updateGrade gradeData) this))
     = Some gradeData)
  ∧ (User.role user = TeacherRole.GENERAL_TEACHER →
     ¬ (GradeData.subjectId gradeData ≠ ""
        ∧ GradeData.subjectId gradeData ∈ taught user) →
     SchoolManagementSystem.Grades.updateGrade gradeData this
     = (Abrupt (Error ("접근 거부: " ++ Reason.NotOwnSubject)), this))
  ∧ (User.role user = TeacherRole.HOMEROOM_TEACHER →
     completes (SchoolManagementSystem.Grades.updateGrade gradeData) this = Normal true
     ∧ JsMap.get (GradeData.studentId gradeData ++ "_" ++ GradeData.subjectId gradeData)
         (SchoolManagementSystem.grades
            (leaves (SchoolManagementSystem.Grades.updateGrade gradeData) this))
       = Some gradeData).
Proof.
  intros Hsession. split; [| split].
  - intros Hrole Hnonempty Htaught.
    unfold completes, leaves, SchoolManagementSystem.Grades.updateGrade.
    rewrite (RequirePermission_logged_in _ _ _ _ _ _ Hsession).
    rewrite (updateGrade_original_run _ _ _ _ Hsession).
    destruct Hsession as (_ & _ & Hon & _ & _).
    rewrite (standalone_new _ _ _ _ _ general_teacher_permissions Hon)
      by (rewrite Hrole; apply table_general).
    change (includes general_teacher_permissions Permission.MANAGE_GRADES) with true.
    cbv iota. rewrite (standalone_general_manage_grades _ _ _ _ Hrole).
    apply opt_includes_taught in Htaught.
    rewrite (and_then_of_carries _ _ (GradeData.subjectId gradeData))
      by (split; [reflexivity | exact Hnonempty]).
    rewrite Htaught. cbn [allowed allow negb andb].
    rewrite andb_false_r. cbn. split; [reflexivity |]. apply JsMap_get_set_eq.
  - intros Hrole Hother.
    unfold SchoolManagementSystem.Grades.updateGrade.
    rewrite (RequirePermission_logged_in _ _ _ _ _ _ Hsession).
    destruct Hsession as (_ & _ & Hon & _ & _).
    rewrite (standalone_new _ _ _ _ _ general_teacher_permissions Hon)
      by (rewrite Hrole; apply table_general).
    change (includes general_teacher_permissions Permission.MANAGE_GRADES) with true.
    cbv iota. rewrite (standalone_general_manage_grades _ _ _ _ Hrole).
    destruct (and_then _ _) eqn:Hcond; [| reflexivity].
    exfalso. apply Hother.
    apply and_then_carries in Hcond as (s & [[= <-] Hnonempty] & Htaught).
    split; [exact Hnonempty | apply opt_includes_taught, Htaught].
  - intros Hrole. unfold completes, leaves.
    rewrite (updateGrade_homeroom _ _ _ _ Hsession Hrole). cbn.
    split; [reflexivity |]. apply JsMap_get_set_eq.
Qed.

Lemma updateGrade_by_role_witness :
  (completes (SchoolManagementSystem.Grades.updateGrade
                (GradeData.mk "student1" "math" 95)) as_teacher2 = Normal true
   ∧ JsMap.get ("student1" ++ "_" ++ "math")
       (SchoolManagementSystem.grades
          (leaves (SchoolManagementSystem.Grades.updateGrade
                     (GradeData.mk "student1" "math" 95)) as_teacher2))
     = Some (GradeData.mk "student1" "math" 95))
  ∧ SchoolManagementSystem.Grades.updateGrade
      (GradeData.mk "student1" "art" 95) as_teacher2
    = (Abrupt (Error ("접근 거부: " ++ Reason.NotOwnSubject)), as_teacher2)
  ∧ completes (SchoolManagementSystem.Grades.updateGrade
                 (GradeData.mk "student1" "art" 95)) as_teacher1 = Normal true.
Proof.
  split; [| split].
  - apply (proj1 (updateGrade_by_role (GradeData.mk "student1" "math" 95)
                    as_teacher2 1 teacher2 ltac:(repeat split; reflexivity)));
      [reflexivity | discriminate | decide_closed].
  - apply (proj1 (proj2 (updateGrade_by_role (GradeData.mk "student1" "art" 95)
                    as_teacher2 1 teacher2 ltac:(repeat split; reflexivity))));
      [reflexivity |].
    intros [_ Htaught]. revert Htaught. decide_closed.
  - apply (proj2 (proj2 (updateGrade_by_role (GradeData.mk "student1" "art" 95)
                    as_teacher1 0 teacher1 ltac:(repeat split; reflexivity)))).
    reflexivity.
Defined.

Lemma JsMap_set_set {A : Type} (key : string) (first second : A) (m : JsMap.t A) :
  JsMap.set key second (JsMap.set key first m) = JsMap.set key second m.
Proof.
  induction m as [| [k v] rest IH]; cbn.
  - rewrite String.eqb_refl. reflexivity.
  - destruct (String.eqb k key) eqn:Hk; cbn; rewrite Hk; [reflexivity |].
    rewrite IH. reflexivity.
Qed.

(** X22: the key of a grade does not tell the student from the subject.
    Two grades whose student and subject ids concatenate, around the
    underscore, to the same key share one entry: in a session of a homeroom
    teacher, storing the second after the first leaves exactly what storing
    the second alone leaves, so the first grade is gone. *)
Theorem grades_with_one_key_overwrite
    (first second : GradeData.t)
    (this : SchoolManagementSystem.t) (reference : nat) (user : User.t) :
  logged_in this reference user →
  User.role user = TeacherRole.HOMEROOM_TEACHER →
  GradeData.studentId first ++ "_" ++ GradeData.subjectId first
  = GradeData.studentId second ++ "_" ++ GradeData.subjectId second →
  leaves (SchoolManagementSystem.Grades.updateGrade second)
    (leaves (SchoolManagementSystem.Grades.updateGrade first) this)
  = leaves (SchoolManagementSystem.Grades.updateGrade second) this.
Proof.
  intros Hsession Hrole Hkey. unfold leaves.
  rewrite (updateGrade_homeroom first _ _ _ Hsession Hrole). cbn [snd].
  rewrite (updateGrade_homeroom second _ reference user); [| | exact Hrole].
  - rewrite (updateGrade_homeroom second _ _ _ Hsession Hrole). cbn.
    rewrite Hkey, JsMap_set_set. reflexivity.
  - destruct Hsession as (H1 & H2 & H3 & H4 & H5). repeat split; assumption.
Qed.

Lemma grades_with_one_key_overwrite_witness :
  leaves (SchoolManagementSystem.Grades.updateGrade (GradeData.mk "kim" "min_math" 60))
    (leaves (SchoolManagementSystem.Grades.updateGrade (GradeData.mk "kim_min" "math" 95))
            as_teacher1)
  = leaves (SchoolManagementSystem.Grades.updateGrade (GradeData.mk "kim" "min_math" 60))
           as_teacher1.
Proof.
  apply (grades_with_one_key_overwrite
           (GradeData.mk "kim_min" "math" 95) (GradeData.mk "kim" "min_math" 60)
           as_teacher1 0 teacher1); [repeat split; reflexivity | reflexivity
                                    | reflexivity].
Defined.

(** X23: [exportGrades] is gated by the role alone.  When the current user
    is active, the call returns the report if that user's role is homeroom
    teacher and throws the role error otherwise; the permission table, the
    class id and the record stored under the user's id play no part.
    Nothing is changed either way. *)
Theorem exportGrades_homeroom_only
    (classId : string)
    (this : SchoolManagementSystem.t) (reference : nat) (user : User.t) :
  SchoolManagementSystem.currentUser this = Some reference →
  SchoolManagementSystem.objects this !! reference = Some user →
  User.isActive user = true →
  (User.role user = TeacherRole.HOMEROOM_TEACHER →
   SchoolManagementSystem.Grades.exportGrades classId this
   = (Normal "성적표 데이터", this))
  ∧ (User.role user ≠ TeacherRole.HOMEROOM_TEACHER →
     SchoolManagementSystem.Grades.exportGrades classId this
     = (Abrupt (Error ("접근 거부: " ++ TeacherRole.HOMEROOM_TEACHER
                       ++ " 권한이 필요합니다.")), this)).
Proof.
  intros Hcurrent Hobject Hon.
  assert (Hrun : SchoolManagementSystem.Grades.exportGrades classId this
                 = if String.eqb (User.role user) TeacherRole.HOMEROOM_TEACHER
                   then (Normal "성적표 데이터", this)
                   else (Abrupt (Error ("접근 거부: " ++ TeacherRole.HOMEROOM_TEACHER
                                        ++ " 권한이 필요합니다.")), this)).
  { unfold SchoolManagementSystem.Grades.exportGrades,
      SchoolManagementSystem.RequireRole.
    unfold mbind at 1, Method_bind.
    rewrite (isAuthenticated_somebody _ _ _ Hcurrent Hobject), Hon.
    cbn [negb]. unfold SchoolManagementSystem.Auth.getCurrentUser.
    run_script. rewrite Hcurrent. cbn -[String.eqb]. rewrite Hobject.
    destruct (String.eqb (User.role user) TeacherRole.HOMEROOM_TEACHER); reflexivity. }
  rewrite Hrun. split.
  - intros ->. reflexivity.
  - intros Hother. apply String.eqb_neq in Hother. rewrite Hother. reflexivity.
Qed.

Lemma exportGrades_homeroom_only_witness :
  SchoolManagementSystem.Grades.exportGrades "class-3-1" as_teacher1
  = (Normal "성적표 데이터", as_teacher1)
  ∧ SchoolManagementSystem.Grades.exportGrades "class-3-1" as_teacher2
    = (Abrupt (Error ("접근 거부: " ++ TeacherRole.HOMEROOM_TEACHER
                      ++ " 권한이 필요합니다.")), as_teacher2).
Proof.
  split.
  - apply (proj1 (exportGrades_homeroom_only "class-3-1" as_teacher1 0 teacher1
                    eq_refl eq_refl eq_refl)). reflexivity.
  - apply (proj2 (exportGrades_homeroom_only "class-3-1" as_teacher2 1 teacher2
                    eq_refl eq_refl eq_refl)). discriminate.
Defined.

(** ** Listing teachers by role *)

Lemma has_role_is (this : SchoolManagementSystem.t) (role : string) (a : nat) :
  SchoolManagementSystem.Teachers.has_role this role a = true ↔ role_is this role a.
Proof.
  unfold SchoolManagementSystem.Teachers.has_role, role_is.
  destruct (SchoolManagementSystem.objects this !! a) as [user |].
  - rewrite String.eqb_eq. split.
    + intros Heq. exists user. split; [reflexivity | exact Heq].
    + intros (user' & [= <-] & Heq). exact Heq.
  - split; [discriminate |]. intros (user & Hnone & _). discriminate Hnone.
Qed.

Lemma filter_two_lengths {A : Type} (f g : A → bool) (l : list A) :
  (∀ x, f x = true → g x = false) →
  (length (List.filter f l) + length (List.filter g l) ≤ length l)%nat
  ∧ (length (List.filter f l) + length (List.filter g l) = length l ↔
     Forall (λ x, f x = true ∨ g x = true) l).
Proof.
  intros Hdisjoint. induction l as [| x rest [IHle IHeq]]; cbn.
  - split; [lia |]. split; [constructor | reflexivity].
  - destruct (f x) eqn:Hf; [rewrite (Hdisjoint x Hf) | destruct (g x) eqn:Hg]; cbn.
    + split; [lia |]. rewrite Forall_cons, <- IHeq. split; [| lia].
      intros Hlen. split; [left; exact Hf | lia].
    + split; [lia |]. rewrite Forall_cons, <- IHeq. split; [| lia].
      intros Hlen. split; [right; exact Hg | lia].
    + split; [lia |]. rewrite Forall_cons. split; [lia |].
      intros [[H | H] _]; congruence.
Qed.

(** X24: [getHomeroomTeachers] and [getGeneralTeachers] select from
    [getAllUsers] the users with the one and the other role.  No user is in
    both lists, and together they are all users exactly when every stored
    user has one of the two roles: a user with any other role value is
    stored but listed by neither.  The calls change nothing. *)
Theorem teachers_listed_by_role (this : SchoolManagementSystem.t) :
  ∃ homeroom general,
    SchoolManagementSystem.Teachers.getHomeroomTeachers this = (Normal homeroom, this)
    ∧ SchoolManagementSystem.Teachers.getGeneralTeachers this = (Normal general, this)
    ∧ (∀ reference,
         reference ∈ homeroom ↔
         reference ∈ JsMap.values (SchoolManagementSystem.users this)
         ∧ role_is this TeacherRole.HOMEROOM_TEACHER reference)
    ∧ (∀ reference,
         reference ∈ general ↔
         reference ∈ JsMap.values (SchoolManagementSystem.users this)
         ∧ role_is this TeacherRole.GENERAL_TEACHER reference)
    ∧ (∀ reference, reference ∈ homeroom → reference ∉ general)
    ∧ (length homeroom + length general
       = length (JsMap.values (SchoolManagementSystem.users this)) ↔
       Forall (λ reference,
                 role_is this TeacherRole.HOMEROOM_TEACHER reference
                 ∨ role_is this TeacherRole.GENERAL_TEACHER reference)
              (JsMap.values (SchoolManagementSystem.users this))).
Proof.
  eexists _, _. split; [reflexivity |]. split; [reflexivity |].
  assert (Hdisjoint : ∀ a,
    SchoolManagementSystem.Teachers.has_role this TeacherRole.HOMEROOM_TEACHER a = true →
    SchoolManagementSystem.Teachers.has_role this TeacherRole.GENERAL_TEACHER a = false).
  { intros a Hh. apply has_role_is in Hh as (user & Hobject & Hrole).
    unfold SchoolManagementSystem.Teachers.has_role. rewrite Hobject, Hrole.
    reflexivity. }
  split; [intros a; rewrite elem_of_List_filter, has_role_is; reflexivity |].
  split; [intros a; rewrite elem_of_List_filter, has_role_is; reflexivity |].
  split.
  - intros a Hh Hg. apply elem_of_List_filter in Hh as [_ Hh], Hg as [_ Hg].
    rewrite (Hdisjoint a Hh) in Hg. discriminate Hg.
  - rewrite (proj2 (filter_two_lengths _ _ _ Hdisjoint)).
    apply Forall_proper; [| reflexivity].
    intros a. rewrite !has_role_is. reflexivity.
Qed.

(** ** What the store of users keeps *)

Lemma new_users (now : Z) :
  SchoolManagementSystem.users (SchoolManagementSystem.new now)
  = [("teacher1", 0); ("teacher2", 1)].
Proof. reflexivity. Qed.

(** X25: every user is stored under its own id, and every key leads to an
    object.  This holds once the constructors have run, and
    [createUser], [login] and [logout] keep it, as does [updateUserRole]
    when [additionalData] has no [id]: then [getUserById] with the id of a
    stored user always returns that user. *)
Theorem users_stay_keyed_by_id
    (this : SchoolManagementSystem.t) (now created : Z) (clock : N)
    (userData : UserData.t) (email password userId newRole : string)
    (additionalData : option PartialUser.t) :
  (keyed_by_id (SchoolManagementSystem.new now)
   ∧ keys_lead_to_objects (SchoolManagementSystem.new now))
  ∧ (keyed_by_id this → keys_lead_to_objects this →
     (keyed_by_id
        (leaves (SchoolManagementSystem.Teachers.createUser userData clock created) this)
      ∧ keys_lead_to_objects
          (leaves (SchoolManagementSystem.Teachers.createUser userData clock created)
                  this))
     ∧ (keyed_by_id (leaves (SchoolManagementSystem.Auth.login email password) this)
        ∧ keys_lead_to_objects
            (leaves (SchoolManagementSystem.Auth.login email password) this))
     ∧ (keyed_by_id (leaves SchoolManagementSystem.Auth.logout this)
        ∧ keys_lead_to_objects (leaves SchoolManagementSystem.Auth.logout this))
     ∧ (additionalData ≫= PartialUser.id = None →
        keyed_by_id
          (leaves (SchoolManagementSystem.Teachers.updateUserRole
                     userId newRole additionalData) this)
        ∧ keys_lead_to_objects
            (leaves (SchoolManagementSystem.Teachers.updateUserRole
                       userId newRole additionalData) this))).
Proof.
  split.
  - split.
    + intros key reference user. rewrite new_users. cbn -[String.eqb].
      destruct (String.eqb "teacher1" key) eqn:H1.
      * apply String.eqb_eq in H1 as <-. intros [= <-] Hobject.
        cbn in Hobject. injection Hobject as <-. reflexivity.
      * destruct (String.eqb "teacher2" key) eqn:H2; [| discriminate].
        apply String.eqb_eq in H2 as <-. intros [= <-] Hobject.
        cbn in Hobject. injection Hobject as <-. reflexivity.
    + intros key reference. rewrite new_users. cbn -[String.eqb].
      destruct (String.eqb "teacher1" key); [intros [= <-]; lia |].
      destruct (String.eqb "teacher2" key); [intros [= <-]; lia | discriminate].
  - intros Hkeyed Hvalid. split; [| split; [| split]].
    + unfold leaves, SchoolManagementSystem.Teachers.createUser. run_script. cbn.
      split.
      * intros key reference user. unfold keyed_by_id in Hkeyed. cbn.
        destruct (decide (key = "teacher_" ++ pretty clock)) as [-> | Hother].
        -- rewrite JsMap_get_set_eq. intros [= <-].
           rewrite list_lookup_middle by reflexivity. intros [= <-]. reflexivity.
        -- rewrite JsMap_get_set_ne by congruence. intros Hget.
           rewrite lookup_app_l by (apply (Hvalid _ _ Hget)).
           apply (Hkeyed _ _ _ Hget).
      * intros key reference. cbn. rewrite length_app. cbn.
        destruct (decide (key = "teacher_" ++ pretty clock)) as [-> | Hother].
        -- rewrite JsMap_get_set_eq. intros [= <-]. lia.
        -- rewrite JsMap_get_set_ne by congruence. intros Hget.
           pose proof (Hvalid _ _ Hget). lia.
    + unfold leaves. rewrite login_run.
      destruct (completes _ _) as [[reference |] | e]; [| split; assumption..].
      destruct (SchoolManagementSystem.objects this !! reference) as [user |];
        [| split; assumption].
      destruct (User.isActive user); split; assumption.
    + split; assumption.
    + intros Hnoid. unfold leaves.
      destruct (JsMap.get userId (SchoolManagementSystem.users this))
        as [reference |] eqn:Hget.
      2: { unfold SchoolManagementSystem.Teachers.updateUserRole. run_script.
           rewrite Hget. split; assumption. }
      rewrite (updateUserRole_known _ _ _ _ _ Hget). cbn [snd]. split.
      * intros key other user. cbn. intros Hkey.
        destruct (decide (reference = other)) as [<- | Hne].
        -- rewrite list_lookup_alter_eq.
           destruct (SchoolManagementSystem.objects this !! reference)
             as [old |] eqn:Hold; [| discriminate].
           intros [= <-]. rewrite <- (Hkeyed _ _ _ Hkey Hold).
           destruct additionalData as [data |]; [| reflexivity].
           cbn in Hnoid |- *. rewrite Hnoid. reflexivity.
        -- rewrite list_lookup_alter_ne by exact Hne. apply (Hkeyed _ _ _ Hkey).
      * intros key other. cbn. rewrite length_alter. apply Hvalid.
Qed.

Lemma users_stay_keyed_by_id_witness :
  keyed_by_id
    (leaves (SchoolManagementSystem.Teachers.createUser
               (UserData.mk "박수학" "math@school.edu" TeacherRole.GENERAL_TEACHER
                            None (Some ["math"]) true) 1700000000000 1700000000000)
            (SchoolManagementSystem.new 0))
  ∧ keys_lead_to_objects
      (leaves (SchoolManagementSystem.Teachers.createUser
                 (UserData.mk "박수학" "math@school.edu" TeacherRole.GENERAL_TEACHER
                              None (Some ["math"]) true) 1700000000000 1700000000000)
              (SchoolManagementSystem.new 0)).
Proof.
  pose proof (users_stay_keyed_by_id (SchoolManagementSystem.new 0) 0 1700000000000
                1700000000000
                (UserData.mk "박수학" "math@school.edu" TeacherRole.GENERAL_TEACHER
                             None (Some ["math"]) true)
                "kim@school.edu" "password" "teacher1" TeacherRole.GENERAL_TEACHER None)
    as [[Hkeyed Hvalid] Hkept].
  exact (proj1 (Hkept Hkeyed Hvalid)).
Defined.

(** ** The object graph and the by-value [TeacherService]

    The record [TeacherService.t] holds the users by value; it is what the
    graph's [Map] and store of objects amount to, and the permission check
    by user id is the same on both. *)

Lemma teacherService_users (this : SchoolManagementSystem.t) (key : string) :
  SchoolManagementSystem.references_valid this →
  TeacherService.users (SchoolManagementSystem.teacherService this) !! key
  = JsMap.get key (SchoolManagementSystem.users this)
    ≫= (SchoolManagementSystem.objects this !!.).
Proof.
  intros [Hvalid _]. revert Hvalid.
  unfold SchoolManagementSystem.teacherService, JsMap.values. cbn.
  generalize (SchoolManagementSystem.objects this) as objects.
  generalize (SchoolManagementSystem.users this) as users.
  induction users as [| [k a] rest IH]; intros objects Hvalid; cbn.
  - apply lookup_empty.
  - apply Forall_cons in Hvalid as [Ha Hrest]. cbn in Ha.
    apply lookup_lt_is_Some in Ha as [user Huser]. rewrite Huser. cbn.
    destruct (String.eqb_spec k key) as [-> | Hne].
    + rewrite lookup_insert_eq. cbn. rewrite Huser. reflexivity.
    + rewrite lookup_insert_ne by exact Hne. apply IH, Hrest.
Qed.

Lemma graph_checkPermission_by_value userId permission resource this :
  SchoolManagementSystem.references_valid this →
  completes (SchoolManagementSystem.Teachers.checkPermission userId permission resource)
            this
  = of_outcome (result (TeacherService.checkPermission userId permission resource)
                       (SchoolManagementSystem.teacherService this)).
Proof.
  intros Hvalid.
  pose proof (teacherService_users this userId Hvalid) as Hview.
  unfold result, TeacherService.checkPermission, TeacherService.getUserById.
  run_method. rewrite Hview.
  destruct (JsMap.get userId (SchoolManagementSystem.users this))
    as [reference |] eqn:Hget; cbn.
  2: { unfold completes. rewrite (graph_checkPermission_unknown _ _ _ _ Hget).
       reflexivity. }
  destruct Hvalid as [Hvalid _].
  assert (Hin : reference ∈ JsMap.values (SchoolManagementSystem.users this)).
  { clear -Hget. unfold JsMap.values.
    induction (SchoolManagementSystem.users this) as [| [k a] rest IH]; cbn in *;
      [discriminate |].
    destruct (String.eqb k userId); [injection Hget as ->; left | right; auto]. }
  rewrite Forall_forall in Hvalid. apply Hvalid, lookup_lt_is_Some in Hin as [user Huser].
  rewrite Huser. unfold completes.
  rewrite (graph_checkPermission_found _ _ _ _ _ _ Hget Huser). cbn.
  unfold result.
  destruct (RoleBasedAccessControl.checkPermission _ _ _ _ _ _) as [r rbac'].
  reflexivity.
Qed.

(** ** Reading grades *)

(** X26: [getGrades] has nothing to return yet, but its gate is in place.
    In a session of a homeroom teacher it returns the empty list for every
    filter.  In a session of a general teacher it returns the empty list
    when the filter names a class, and throws the not-own-class denial when
    it does not: a filter by student or by subject alone, the teacher's own
    subjects included, is refused.  Nothing is changed either way. *)
Theorem getGrades_by_role
    (filter : Filter.t)
    (this : SchoolManagementSystem.t) (reference : nat) (user : User.t) :
  logged_in this reference user →
  (User.role user = TeacherRole.HOMEROOM_TEACHER →
   SchoolManagementSystem.Grades.getGrades filter this = (Normal [], this))
  ∧ (User.role user = TeacherRole.GENERAL_TEACHER →
     (∃ named, carries (Filter.classId filter) named) →
     SchoolManagementSystem.Grades.getGrades filter this = (Normal [], this))
  ∧ (User.role user = TeacherRole.GENERAL_TEACHER →
     (∀ named, ¬ carries (Filter.classId filter) named) →
     SchoolManagementSystem.Grades.getGrades filter this
     = (Abrupt (Error ("접근 거부: " ++ Reason.NotOwnClass_view)), this)).
Proof.
  intros Hsession. unfold SchoolManagementSystem.Grades.getGrades.
  rewrite (RequirePermission_logged_in _ _ _ _ _ _ Hsession).
  destruct Hsession as (_ & _ & Hon & _ & _).
  assert (Hgeneral : User.role user = TeacherRole.GENERAL_TEACHER →
    result (RoleBasedAccessControl.checkPermission
              RoleBasedAccessControl.isTeachingStudent
              RoleBasedAccessControl.isTeachingClass user Permission.VIEW_GRADES
              (Some (Resource.mk (Filter.classId filter) (Filter.subjectId filter)
                                 (Filter.studentId filter))))
           RoleBasedAccessControl.new
    = Returns (if and_then (Filter.classId filter)
                           (RoleBasedAccessControl.isTeachingClass user)
               then allow else deny Reason.NotOwnClass_view)).
  { intros Hrole.
    rewrite (standalone_new _ _ _ _ _ general_teacher_permissions Hon)
      by (rewrite Hrole; apply table_general).
    change (includes general_teacher_permissions Permission.VIEW_GRADES) with true.
    cbv iota.
    rewrite (standalone_general_view _ _ _ _ _ Hrole) by decide_closed.
    reflexivity. }
  split; [| split].
  - intros Hrole.
    assert (Hvalue : Permission.VIEW_GRADES ∈ Permission.values) by decide_closed.
    assert (Hfree : Permission.VIEW_GRADES ∉ class_management_permissions)
      by decide_closed.
    rewrite (proj1 (homeroom_unrestricted _ _ _ _ _ Hon Hrole Hvalue Hfree)).
    reflexivity.
  - intros Hrole [named Hnamed]. rewrite (Hgeneral Hrole).
    rewrite (and_then_of_carries _ _ _ Hnamed). reflexivity.
  - intros Hrole Hnone. rewrite (Hgeneral Hrole).
    destruct (and_then _ _) eqn:Hcond; [| reflexivity].
    apply and_then_carries in Hcond as (c & Hc & _). exfalso. exact (Hnone c Hc).
Qed.

Lemma getGrades_by_role_witness :
  SchoolManagementSystem.Grades.getGrades
    (Filter.mk (Some "student1") (Some "math") None) as_teacher1
  = (Normal [], as_teacher1)
  ∧ SchoolManagementSystem.Grades.getGrades
      (Filter.mk (Some "student1") (Some "math") (Some "class-3-1")) as_teacher2
    = (Normal [], as_teacher2)
  ∧ SchoolManagementSystem.Grades.getGrades
      (Filter.mk (Some "student1") (Some "math") None) as_teacher2
    = (Abrupt (Error ("접근 거부: " ++ Reason.NotOwnClass_view)), as_teacher2).
Proof.
  split; [| split].
  - apply (proj1 (getGrades_by_role (Filter.mk (Some "student1") (Some "math") None)
                    as_teacher1 0 teacher1 ltac:(repeat split; reflexivity))).
    reflexivity.
  - apply (proj1 (proj2 (getGrades_by_role
                    (Filter.mk (Some "student1") (Some "math") (Some "class-3-1"))
                    as_teacher2 1 teacher2 ltac:(repeat split; reflexivity))));
      [reflexivity |].
    exists "class-3-1". split; [reflexivity | discriminate].
  - apply (proj2 (proj2 (getGrades_by_role
                    (Filter.mk (Some "student1") (Some "math") None)
                    as_teacher2 1 teacher2 ltac:(repeat split; reflexivity))));
      [reflexivity |].
    intros named [Hnone _]. discriminate Hnone.
Defined.
